(** * Bravebird: acquisition agent (agent_a.py), handoff consumer
      (agent_b.py) and the command-line flow (main.py)

    A shallow embedding of the parts of the three Python modules that the
    specification makes promises about, followed by the theorems that
    settle those promises.

    Conventions.
    - A Python [str] is a [string]; its characters are the code points
      below 256.
    - A call that may raise yields an [outcome]; the exception type [exn]
      covers the subclasses of Python's [Exception] that the program
      raises or receives, so [except Exception] catches every [exn].
    - The file system is a finite map from path strings to files.
    - Everything the program obtains from the browser, the planner oracle
      or the clock is read from an explicit environment record. *)

From Stdlib Require Import ZArith Lia Ascii.
From Stdlib.Strings Require Import Byte.
From stdpp Require Import base option list sorting strings gmap.

Set Warnings "-register-all".
Local Open Scope string_scope.
Local Open Scope Z_scope.

(** ** Python runtime: exceptions and outcomes *)

Inductive exn : Type :=
| TimeoutError (msg : string)
| RuntimeError (msg : string)
| ValueError (msg : string)
| FileNotFoundError (msg : string)
| TypeError (msg : string)
| KeyError (key : string)
| AttributeError (msg : string)
| PWTimeoutError (msg : string)
| OSError (msg : string)
| APIError (msg : string).

Inductive outcome (A : Type) : Type :=
| Returned (a : A)
| Raised (e : exn).
Arguments Returned {A} a.
Arguments Raised {A} e.

Definition succeeded {A} (r : outcome A) : bool :=
  match r with Returned _ => true | Raised _ => false end.

(** ** Python strings *)

Module Py.

(** [str.isspace] on the code points below 256: TAB, LF, VT, FF, CR, the
    separators 0x1c to 0x1f, SPACE, NEL (0x85) and NBSP (0xa0). *)
Definition isspace (c : ascii) : bool :=
  let n := Z.of_N (N_of_ascii c) in
  ((9 <=? n) && (n <=? 13)) || ((28 <=? n) && (n <=? 32))
  || (n =? 133) || (n =? 160).

(** [str.lower] on one code point below 256: A-Z and the accented capitals
    0xc0 to 0xde (the multiplication sign 0xd7 apart) move up by 32. *)
Definition lower_char (c : ascii) : ascii :=
  let n := Z.of_N (N_of_ascii c) in
  if ((65 <=? n) && (n <=? 90))
     || ((192 <=? n) && (n <=? 222) && negb (n =? 215))
  then ascii_of_N (Z.to_N (n + 32)) else c.

Fixpoint lower (s : string) : string :=
  match s with
  | EmptyString => EmptyString
  | String c s' => String (lower_char c) (lower s')
  end.

Fixpoint lstrip (s : string) : string :=
  match s with
  | EmptyString => EmptyString
  | String c s' => if isspace c then lstrip s' else s
  end.

Fixpoint rstrip (s : string) : string :=
  match s with
  | EmptyString => EmptyString
  | String c s' =>
      match rstrip s' with
      | EmptyString => if isspace c then EmptyString else String c EmptyString
      | r => String c r
      end
  end.

(** [s.strip()] *)
Definition strip (s : string) : string := rstrip (lstrip s).

(** [s.split()] with no separator: maximal runs of non-space characters.
    [word] is the run being read. *)
Fixpoint split_from (word : string) (s : string) : list string :=
  match s with
  | EmptyString => if decide (word = "") then [] else [word]
  | String c s' =>
      if isspace c
      then (if decide (word = "") then split_from "" s'
            else word :: split_from "" s')
      else split_from (word +:+ String c "") s'
  end.

Definition split (s : string) : list string := split_from "" s.

(** [sep.join(parts)] *)
Fixpoint join (sep : string) (parts : list string) : string :=
  match parts with
  | [] => ""
  | [p] => p
  | p :: rest => p +:+ sep +:+ join sep rest
  end.

(** [s[:n]] *)
Fixpoint slice_to (n : nat) (s : string) : string :=
  match n, s with
  | O, _ => ""
  | _, EmptyString => ""
  | S n', String c s' => String c (slice_to n' s')
  end.

(** [s.startswith(p)] *)
Fixpoint startswith (s p : string) : bool :=
  match p, s with
  | EmptyString, _ => true
  | String _ _, EmptyString => false
  | String a p', String b s' => if decide (a = b) then startswith s' p' else false
  end.

(** [s.endswith(p)]: some suffix of [s] is [p]. *)
Fixpoint endswith (s p : string) : bool :=
  if decide (s = p) then true
  else match s with
       | EmptyString => false
       | String _ s' => endswith s' p
       end.

(** [p in s] for two strings: [p] occurs as a substring. *)
Fixpoint contains (s p : string) : bool :=
  startswith s p ||
  match s with
  | EmptyString => false
  | String _ s' => contains s' p
  end.

(** Truthiness of a string: [bool(s)]. *)
Definition truthy_str (s : string) : bool :=
  if decide (s = "") then false else true.

(** [a or b] on strings. *)
Definition str_or (a b : string) : string :=
  if truthy_str a then a else b.

(** [os.path.join(a, b)] on POSIX for a non-empty [a]. *)
Definition path_join (a b : string) : string :=
  if startswith b "/" then b
  else if endswith a "/" then a +:+ b
  else a +:+ "/" +:+ b.

End Py.

(** ** JSON values, as [json.loads] and [json.load] produce them *)

(** A Python [float]: the program never computes with one, it only tests
    whether it is zero. A finite float is [mantissa * 2 ^ exponent]. *)
Inductive pyfloat : Type :=
| FFinite (mantissa exponent : Z)
| FInfinity (negative : bool)
| FNaN.

Inductive json : Type :=
| JNull
| JBool (b : bool)
| JInt (n : Z)
| JFloat (x : pyfloat)
| JString (s : string)
| JArray (items : list json)
| JObject (fields : list (string * json)).

(** A Python [dict] with string keys is the list of its items in insertion
    order; a key occurs once. *)
Definition pydict : Type := list (string * json).

(** [d.get(k)]: [None] stands for Python's [None]. *)
Fixpoint dict_get (d : pydict) (k : string) : option json :=
  match d with
  | [] => None
  | (k', v) :: d' => if decide (k = k') then Some v else dict_get d' k
  end.

(** [k in d] *)
Definition dict_has (d : pydict) (k : string) : bool :=
  match dict_get d k with Some _ => true | None => false end.

(** [v in names] for a JSON value and a list of strings: Python compares
    with [==], and only a string equals a string. *)
Definition json_in_strs (v : option json) (names : list string) : bool :=
  match v with
  | Some (JString s) => bool_decide (s ∈ names)
  | _ => false
  end.

(** Truthiness of a JSON value: [bool(v)]. *)
Definition truthy (v : json) : bool :=
  match v with
  | JNull => false
  | JBool b => b
  | JInt n => negb (n =? 0)
  | JFloat (FFinite m _) => negb (m =? 0)
  | JFloat _ => true
  | JString s => Py.truthy_str s
  | JArray l => match l with [] => false | _ => true end
  | JObject d => match d with [] => false | _ => true end
  end.

(** Library functions the program calls and whose code is not part of it:
    [json.loads] ([None] when it raises on the text) and
    [os.path.abspath]. *)
Record library : Type := {
  json_loads : string → option json;
  (* json.load on a file opened as UTF-8 text: None when decoding or
     parsing raises *)
  json_load : list byte → option json;
  (* json.dump to a file opened as UTF-8 text: the bytes written *)
  json_dump : json → list byte;
  os_path_abspath : string → string;
  (* str(v), as an f-string formats a value *)
  py_str : json → string
}.

Global Instance outcome_ret : MRet outcome := λ A a, Returned a.
Global Instance outcome_bind : MBind outcome := λ A B k m,
  match m with Returned a => k a | Raised e => Raised e end.

(** [try: body / except Exception: handler] *)
Definition try_except {A} (body : outcome A) (handler : exn → outcome A) : outcome A :=
  match body with Returned a => Returned a | Raised e => handler e end.

(** * agent_a.py *)

Definition SANDBOX_DIR : string := "sandbox".
Definition DOWNLOADS_DIR : string := Py.path_join SANDBOX_DIR "downloads".
Definition LOGS_DIR : string := Py.path_join SANDBOX_DIR "logs".
Definition SCREENSHOTS_DIR : string := Py.path_join SANDBOX_DIR "screenshots".
Definition HANDOFF_PATH : string := Py.path_join SANDBOX_DIR "handoff.json".

(** ** Page State Extractor: [_collect_page_state] *)

(** What the browser answers for one located element. *)
Record element : Type := {
  is_visible : outcome bool;
  inner_text : outcome string;
  get_attribute_aria_label : outcome (option string)
}.

(** What the browser answers for the page: its title, its URL and the
    elements matched by the locator, in document order ([count] is their
    number, [nth i] the i-th); [locator_all = Raised _] when counting fails. *)
Record page : Type := {
  page_title : outcome string;
  page_url : outcome string;
  locator_all : outcome (list element)
}.

Record page_state : Type := {
  ps_title : string;
  ps_url : string;
  ps_buttons : list string
}.

(** The body of the inner [try] for one element: [None] when the loop
    continues without appending. *)
Definition element_label (el : element) : option string :=
  match is_visible el with
  | Returned true =>
      match inner_text el with
      | Returned t =>
          let txt := Py.str_or t "" in
          match get_attribute_aria_label el with
          | Returned a =>
              let aria := match a with Some s => Py.str_or s "" | None => "" end in
              let cand := Py.str_or (Py.strip aria) (Py.strip txt) in
              if Py.truthy_str cand
              then Some (Py.slice_to 80 (Py.join " " (Py.split cand)))
              else None
          | Raised _ => None
          end
      | Raised _ => None
      end
  | _ => None
  end.

(** [for i in range(limit): ...] appending to [button_texts]. *)
Fixpoint scan_elements (els : list element) (button_texts : list string) : list string :=
  match els with
  | [] => button_texts
  | el :: rest =>
      scan_elements rest
        (match element_label el with
         | Some cand => button_texts ++ [cand]
         | None => button_texts
         end)
  end.

(** [dict.fromkeys(l)]: keys are inserted left to right, a key already
    present keeps its place. [keys] is the dict built so far. *)
Fixpoint fromkeys_into (keys : list string) (l : list string) : list string :=
  match l with
  | [] => keys
  | x :: rest =>
      fromkeys_into (if bool_decide (x ∈ keys) then keys else keys ++ [x]) rest
  end.

Definition dict_fromkeys (l : list string) : list string := fromkeys_into [] l.

Definition collect_buttons (pg : page) : list string :=
  match locator_all pg with
  | Returned els =>
      let limit := Nat.min (length els) 40 in
      let button_texts := scan_elements (take limit els) [] in
      take 25 (dict_fromkeys button_texts)
  | Raised _ => []
  end.

Definition _collect_page_state (pg : page) : page_state :=
  let title := match page_title pg with Returned t => t | Raised _ => "" end in
  let url := match page_url pg with Returned u => u | Raised _ => "" end in
  {| ps_title := title; ps_url := url; ps_buttons := collect_buttons pg |}.

(** ** Planner Oracle Adapter: [_call_gpt5_mini_plan] *)

Definition allowed_actions : list string :=
  [ "CLICK_DOWNLOAD_ANYWAY";
    "CLICK_DOWNLOAD_BUTTON";
    "OPEN_OVERFLOW_MENU_AND_DOWNLOAD";
    "REFRESH_AND_RETRY_SELECTORS";
    "FAIL_GIVE_UP" ].

(** The [user] payload of the request. *)
Record plan_request : Type := {
  req_attempt : Z;
  req_page_state : page_state;
  req_allowed_actions : list string
}.

(** The two request channels of the OpenAI client: the Responses API
    yields [resp.output_text], the chat completions API yields
    [chat.choices[0].message.content], which may be [None]. *)
Record openai_client : Type := {
  responses_create : plan_request → outcome string;
  chat_completions_create : plan_request → outcome (option string)
}.

Definition fallback_invalid_action : pydict :=
  [ ("action", JString "REFRESH_AND_RETRY_SELECTORS");
    ("rationale", JString "Invalid action from model; fallback.") ].

Definition fallback_non_json : pydict :=
  [ ("action", JString "REFRESH_AND_RETRY_SELECTORS");
    ("rationale", JString "Non-JSON output; fallback.") ].

(** The first [try]: the text of the oracle's answer. *)
Definition request_plan_text (client : openai_client) (user : plan_request) : outcome string :=
  try_except
    (out ← responses_create client user; mret (Py.strip out))
    (λ _,
       content ← chat_completions_create client user;
       match content with
       | Some c => mret (Py.strip c)
       | None => Raised (AttributeError "'NoneType' object has no attribute 'strip'")
       end).

(** The second [try]: decoding the text. [plan.get] raises on a value
    that is not a dict, which the [except] clause turns into the
    fallback. *)
Definition decode_plan (lib : library) (text : string) : pydict :=
  match json_loads lib text with
  | Some (JObject plan) =>
      if negb (json_in_strs (dict_get plan "action") allowed_actions)
      then fallback_invalid_action
      else plan
  | Some _ => fallback_non_json
  | None => fallback_non_json
  end.

Definition _call_gpt5_mini_plan (lib : library) (client : openai_client)
    (page_state : page_state) (attempt : Z) : outcome pydict :=
  let user := {| req_attempt := attempt; req_page_state := page_state;
                 req_allowed_actions := allowed_actions |} in
  text ← request_plan_text client user;
  mret (decode_plan lib text).

(** ** SHA-256 (FIPS 180-4), the algorithm behind [hashlib.sha256] *)

Module SHA256.

Definition add32 (x y : Z) : Z := (x + y) mod 2 ^ 32.
Definition not32 (x : Z) : Z := Z.lxor x 0xffffffff.
Definition rotr (n x : Z) : Z :=
  Z.lor (Z.shiftr x n) (Z.shiftl x (32 - n) mod 2 ^ 32).
Definition shr (n x : Z) : Z := Z.shiftr x n.

Definition Ch (x y z : Z) : Z := Z.lxor (Z.land x y) (Z.land (not32 x) z).
Definition Maj (x y z : Z) : Z :=
  Z.lxor (Z.lxor (Z.land x y) (Z.land x z)) (Z.land y z).
Definition Sigma0 (x : Z) : Z := Z.lxor (Z.lxor (rotr 2 x) (rotr 13 x)) (rotr 22 x).
Definition Sigma1 (x : Z) : Z := Z.lxor (Z.lxor (rotr 6 x) (rotr 11 x)) (rotr 25 x).
Definition sigma0 (x : Z) : Z := Z.lxor (Z.lxor (rotr 7 x) (rotr 18 x)) (shr 3 x).
Definition sigma1 (x : Z) : Z := Z.lxor (Z.lxor (rotr 17 x) (rotr 19 x)) (shr 10 x).

(** The first 64 primes. *)
Definition primes : list Z :=
  [ 2; 3; 5; 7; 11; 13; 17; 19; 23; 29; 31; 37; 41; 43; 47; 53;
    59; 61; 67; 71; 73; 79; 83; 89; 97; 101; 103; 107; 109; 113; 127; 131;
    137; 139; 149; 151; 157; 163; 167; 173; 179; 181; 191; 193; 197; 199; 211; 223;
    227; 229; 233; 239; 241; 251; 257; 263; 269; 271; 277; 281; 283; 293; 307; 311 ].

(** The integer cube root, found bit by bit from bit [i] downwards. *)
Fixpoint cube_root_from (i : nat) (n r : Z) : Z :=
  let r' := r + 2 ^ Z.of_nat i in
  let best := if r' * r' * r' <=? n then r' else r in
  match i with
  | O => best
  | S i' => cube_root_from i' n best
  end.

Definition cube_root (n : Z) : Z := cube_root_from 40 n 0.

(** The round constants: the first 32 bits of the fractional parts of the
    cube roots of the first 64 primes. *)
Definition K : list Z :=
  Eval vm_compute in map (λ p, cube_root (p * 2 ^ 96) mod 2 ^ 32) primes.

(** The initial hash value: the first 32 bits of the fractional parts of
    the square roots of the first 8 primes. *)
Definition initial_hash : list Z :=
  Eval vm_compute in map (λ p, Z.sqrt (p * 2 ^ 64) mod 2 ^ 32) (take 8 primes).

Definition byte_val (b : byte) : Z := Z.of_N (Byte.to_N b).

Definition byte_of_Z (z : Z) : byte :=
  match Byte.of_N (Z.to_N (z mod 256)) with Some b => b | None => Byte.x00 end.

(** Big-endian 32-bit words of a block. *)
Fixpoint words_of_bytes (l : list byte) : list Z :=
  match l with
  | b0 :: b1 :: b2 :: b3 :: rest =>
      (byte_val b0 * 2 ^ 24 + byte_val b1 * 2 ^ 16 + byte_val b2 * 2 ^ 8 + byte_val b3)
      :: words_of_bytes rest
  | _ => []
  end.

Definition bytes_of_word (w : Z) : list byte :=
  [ byte_of_Z (Z.shiftr w 24); byte_of_Z (Z.shiftr w 16);
    byte_of_Z (Z.shiftr w 8); byte_of_Z w ].

(** The message schedule, most recent word first: [n] more words are
    derived from the sixteen before them. *)
Fixpoint schedule (n : nat) (recent : list Z) : list Z :=
  match n with
  | O => recent
  | S n' =>
      let w := add32 (add32 (sigma1 (nth 1 recent 0)) (nth 6 recent 0))
                     (add32 (sigma0 (nth 14 recent 0)) (nth 15 recent 0)) in
      schedule n' (w :: recent)
  end.

Definition round (v : list Z) (kw : Z * Z) : list Z :=
  match v with
  | [a; b; c; d; e; f; g; h] =>
      let t1 := add32 (add32 (add32 h (Sigma1 e)) (add32 (Ch e f g) kw.1)) kw.2 in
      let t2 := add32 (Sigma0 a) (Maj a b c) in
      [add32 t1 t2; a; b; c; add32 d t1; e; f; g]
  | _ => v
  end.

(** One application of the compression function to a 64-byte block. *)
Definition compress (H : list Z) (block : list byte) : list Z :=
  let W := rev (schedule 48 (rev (words_of_bytes block))) in
  let v := fold_left round (zip K W) H in
  zip_with add32 H v.

(** Whole blocks are compressed as long as 64 bytes are available; what
    is left (fewer than 64 bytes when [fuel] suffices) is returned. *)
Fixpoint absorb (fuel : nat) (H : list Z) (data : list byte) : list Z * list byte :=
  match fuel with
  | O => (H, data)
  | S fuel' =>
      if decide (64 ≤ length data)%nat
      then absorb fuel' (compress H (take 64 data)) (drop 64 data)
      else (H, data)
  end.

Definition absorb_all (H : list Z) (data : list byte) : list Z * list byte :=
  absorb (length data) H data.

(** The 64-bit big-endian encoding of [n]. *)
Definition be64 (n : Z) : list byte :=
  map (λ i : Z, byte_of_Z (Z.shiftr n (8 * i))) [7; 6; 5; 4; 3; 2; 1; 0].

(** Padding for a message of [len] bytes: 0x80, zeros up to 56 modulo 64,
    then the bit length. *)
Definition padding (len : nat) : list byte :=
  Byte.x80 :: replicate (Z.to_nat ((55 - Z.of_nat len) mod 64)) Byte.x00
  ++ be64 (8 * Z.of_nat len).

Definition digest_of_hash (H : list Z) : list byte :=
  concat (map bytes_of_word H).

(** The reference function: the digest of a whole message. *)
Definition sha256 (msg : list byte) : list byte :=
  digest_of_hash (absorb_all initial_hash (msg ++ padding (length msg))).1.

(** The incremental object [h = hashlib.sha256()]: chaining value, the
    bytes not yet compressed and the number of bytes seen. *)
Record hasher : Type := {
  chain : list Z;
  pending : list byte;
  seen : nat
}.

Definition new : hasher :=
  {| chain := initial_hash; pending := []; seen := 0 |}.

(** [h.update(data)] *)
Definition update (h : hasher) (data : list byte) : hasher :=
  let '(H, rest) := absorb_all (chain h) (pending h ++ data) in
  {| chain := H; pending := rest; seen := seen h + length data |}.

(** [h.digest()] *)
Definition digest (h : hasher) : list byte :=
  digest_of_hash (absorb_all (chain h) (pending h ++ padding (seen h))).1.

(** The hasher after the bytes [data] have been fed to it, in whatever
    portions. *)
Definition fed (data : list byte) : hasher :=
  {| chain := (absorb_all initial_hash data).1;
     pending := (absorb_all initial_hash data).2;
     seen := length data |}.

Definition hex_digit (n : Z) : ascii :=
  nth (Z.to_nat n) (String.list_ascii_of_string "0123456789abcdef") "0"%char.

Fixpoint hex (l : list byte) : string :=
  match l with
  | [] => ""
  | b :: rest =>
      String (hex_digit (byte_val b / 16)) (String (hex_digit (byte_val b mod 16)) (hex rest))
  end.

(** [h.hexdigest()] *)
Definition hexdigest (h : hasher) : string := hex (digest h).

End SHA256.

Definition bytes_of_string (s : string) : list byte :=
  map byte_of_ascii (String.list_ascii_of_string s).


(** ** The file system and [_sha256_file] *)

Abbreviation filesystem := (gmap string (list byte)).

(** [os.path.exists(path)] for a path given as a string: true for a
    regular file and for a directory. [fs] holds the regular files with
    their bytes, [dirs] the directories. *)
Definition os_path_exists (fs : filesystem) (dirs : gset string) (path : string) : bool :=
  bool_decide (is_Some (fs !! path)) || bool_decide (path ∈ dirs).

(** [f.read(n)]: the next chunk and the bytes left after it. *)
Definition read (n : nat) (rest : list byte) : list byte * list byte :=
  (take n rest, drop n rest).

(** [for chunk in iter(lambda: f.read(n), b""): h.update(chunk)] *)
Fixpoint read_loop (fuel : nat) (n : nat) (h : SHA256.hasher) (rest : list byte)
    : SHA256.hasher :=
  match fuel with
  | O => h
  | S fuel' =>
      let '(chunk, rest') := read n rest in
      match chunk with
      | [] => h
      | _ => read_loop fuel' n (SHA256.update h chunk) rest'
      end
  end.

Definition CHUNK_SIZE : nat := Z.to_nat (1024 * 1024).

(** The loop reads at least one byte per round while bytes are left, so
    one round per byte and a last one for the empty read are enough. *)
Definition _sha256_file (fs : filesystem) (path : string) : outcome string :=
  match fs !! path with
  | None => Raised (FileNotFoundError path)
  | Some data =>
      let h := read_loop (S (length data)) CHUNK_SIZE SHA256.new data in
      Returned (SHA256.hexdigest h)
  end.

(** [os.path.getsize(path)] *)
Definition os_path_getsize (fs : filesystem) (path : string) : outcome Z :=
  match fs !! path with
  | None => Raised (FileNotFoundError path)
  | Some data => Returned (Z.of_nat (length data))
  end.

(** ** Handoff schema *)

Record HandoffPayload : Type := {
  status : string;
  file_path : string;
  file_name : string;
  source_url : string;
  sha256 : string;
  bytes : Z;
  downloaded_at_iso : string;
  notes : string;
  extra : pydict
}.

(** [dataclasses.asdict(payload)] *)
Definition asdict (p : HandoffPayload) : pydict :=
  [ ("status", JString (status p));
    ("file_path", JString (file_path p));
    ("file_name", JString (file_name p));
    ("source_url", JString (source_url p));
    ("sha256", JString (sha256 p));
    ("bytes", JInt (bytes p));
    ("downloaded_at_iso", JString (downloaded_at_iso p));
    ("notes", JString (notes p));
    ("extra", JObject (extra p)) ].

(** ** The asyncio event loop as far as [run] uses it

    Time is counted in whole seconds. The loop runs the coroutine of
    [run] and the watchdog tasks that [asyncio.create_task] has started.
    A task that raises ends with the exception stored in the task object:
    it reaches another coroutine only when that coroutine awaits the task
    or asks for its result. *)

Inductive task_status : Type :=
| TaskPending
| TaskCancelled
| TaskFailed (e : exn).

(** A [_time_guard] task with the [start] and [max_seconds] it closes over. *)
Record guard_task : Type := {
  g_id : nat;
  g_start : Z;
  g_max_seconds : Z;
  g_status : task_status
}.

Record world : Type := {
  fs : filesystem;
  (* the paths written so far, oldest first *)
  written : list string;
  clock : Z;
  tasks : list guard_task;
  log : list string
}.

(** One round of the body of [_time_guard] at time [now]. *)
Definition _time_guard (now : Z) (g : guard_task) : guard_task :=
  match g_status g with
  | TaskPending =>
      if now - g_start g >? g_max_seconds g
      then {| g_id := g_id g; g_start := g_start g; g_max_seconds := g_max_seconds g;
              g_status := TaskFailed (TimeoutError "Agent A exceeded 10-minute limit (internal guard).") |}
      else g
  | _ => g
  end.

(** The running coroutine is suspended for [secs] seconds: the clock
    advances and every pending watchdog, which wakes once per second,
    has made its rounds up to the new time. *)
Definition suspend (secs : Z) (w : world) : world :=
  let now := clock w + secs in
  {| fs := fs w; written := written w; clock := now;
     tasks := map (_time_guard now) (tasks w); log := log w |}.

(** The running coroutine blocks the loop for [secs] seconds (a
    synchronous call): the clock advances, no other task runs. *)
Definition block (secs : Z) (w : world) : world :=
  {| fs := fs w; written := written w; clock := clock w + secs;
     tasks := tasks w; log := log w |}.

(** A coroutine of the program: a state transformer that returns or raises. *)
Definition task (A : Type) : Type := world → outcome A * world.

Global Instance task_ret : MRet task := λ A a w, (Returned a, w).
Global Instance task_bind : MBind task := λ A B k m w,
  match m w with
  | (Returned a, w') => k a w'
  | (Raised e, w') => (Raised e, w')
  end.

Definition raise {A} (e : exn) : task A := λ w, (Raised e, w).

Definition lift {A} (r : outcome A) : task A := λ w, (r, w).

(** [try: body / except Exception as e: handler e] *)
Definition try_catch {A} (body : task A) (handler : exn → task A) : task A := λ w,
  match body w with
  | (Returned a, w') => (Returned a, w')
  | (Raised e, w') => handler e w'
  end.

(** [try: body / finally: cleanup] *)
Definition try_finally {A} (body : task A) (cleanup : task unit) : task A := λ w,
  match body w with
  | (r, w') =>
      match cleanup w' with
      | (Returned _, w'') => (r, w'')
      | (Raised e, w'') => (Raised e, w'')
      end
  end.

(** An answer of the browser together with the seconds it took. *)
Record timed (A : Type) : Type := { secs : Z; result : outcome A }.
Arguments secs {A} _.
Arguments result {A} _.

(** [await x]: the coroutine is suspended until the answer is there. *)
Definition await {A} (x : timed A) : task A := λ w, (result x, suspend (secs x) w).

(** [await asyncio.sleep(n)] *)
Definition asyncio_sleep (n : Z) : task unit := λ w, (Returned (), suspend n w).

(** A synchronous call that takes [n] seconds. *)
Definition blocking {A} (n : Z) (r : outcome A) : task A := λ w, (r, block n w).

Definition time_time : task Z := λ w, (Returned (clock w), w).

Definition logger_info (msg : string) : task unit := λ w,
  (Returned (), {| fs := fs w; written := written w; clock := clock w;
                   tasks := tasks w; log := log w ++ [msg] |}).

Definition logger_error (msg : string) : task unit := logger_info msg.

Definition get_fs : task filesystem := λ w, (Returned (fs w), w).

(** Writing a whole file. *)
Definition write_file (path : string) (data : list byte) : task unit := λ w,
  (Returned (), {| fs := <[path := data]> (fs w); written := written w ++ [path];
                   clock := clock w; tasks := tasks w; log := log w |}).

(** [asyncio.create_task(_time_guard())]: the new task is registered with
    the loop; the value returned identifies it. *)
Definition create_task (start max_seconds : Z) : task nat := λ w,
  let id := length (tasks w) in
  (Returned id,
   {| fs := fs w; written := written w; clock := clock w; log := log w;
      tasks := tasks w ++ [ {| g_id := id; g_start := start;
                               g_max_seconds := max_seconds;
                               g_status := TaskPending |} ] |}).

Definition cancel_one (id : nat) (g : guard_task) : guard_task :=
  if decide (g_id g = id)
  then match g_status g with
       | TaskPending => {| g_id := g_id g; g_start := g_start g;
                           g_max_seconds := g_max_seconds g;
                           g_status := TaskCancelled |}
       | _ => g
       end
  else g.

(** [guard_task.cancel()] *)
Definition task_cancel (id : nat) : task unit := λ w,
  (Returned (), {| fs := fs w; written := written w; clock := clock w; log := log w;
                   tasks := map (cancel_one id) (tasks w) |}).

(** ** What one attempt meets: browser, oracle and clock

    The three helper methods of [DownloadAgent] never touch the file
    system or the watchdog; each is summarised by what it returns. *)

(** A located button: [btn.click(force=True)]. *)
Record locator : Type := { click : timed unit }.

(** A download object: the name the source suggests, the bytes, and how
    [download.save_as] ends. *)
Record download : Type := {
  suggested_filename : string;
  content : list byte;
  save_as : timed unit
}.

Record attempt_env : Type := {
  (* launch, new_context and new_page *)
  launch : timed unit;
  goto : timed unit;
  the_page : page;
  collect_secs : Z;
  client : openai_client;
  plan_secs : Z;
  (* _try_click_download_anyway: it catches what its steps raise *)
  click_download_anyway : timed bool;
  (* _try_click_download_button: a locator or None *)
  find_download_button : timed (option locator);
  (* _overflow_menu_download *)
  overflow_menu_download : timed bool;
  reload : timed unit;
  (* the wait of page.expect_download(timeout=60_000) *)
  download_event : timed download;
  (* datetime.now(timezone.utc).isoformat() *)
  isoformat_now : string;
  (* page.screenshot and the strftime stamp of its file name *)
  screenshot : timed unit;
  screenshot_stamp : string;
  screenshot_png : list byte;
  (* browser.close() of the finally clause *)
  close : timed unit
}.

(** [_safe_screenshot(page, label)] *)
Definition _safe_screenshot (env : attempt_env) (label : string) : task string :=
  let ts := screenshot_stamp env in
  let out := Py.path_join SCREENSHOTS_DIR (label +:+ "_" +:+ ts +:+ ".png") in
  try_catch
    (await (screenshot env);;
     write_file out (screenshot_png env);;
     logger_info "Saved screenshot")
    (λ _, logger_info "Screenshot failed");;
  mret out.

(** [async with page.expect_download(timeout=60_000) as dlinfo: body]
    followed by [download = await dlinfo.value]: when the body raises,
    the exception leaves the block; otherwise the block waits for the
    download event. *)
Definition expect_download (env : attempt_env) (body : task unit) : task (option download) :=
  body;;
  d ← await (download_event env);
  mret (Some d).

(** [v == s] for a JSON value and a string literal. *)
Definition is_str (v : json) (s : string) : bool :=
  match v with JString s' => bool_decide (s' = s) | _ => false end.

(** The action dispatch of [run]: the chain of [if]/[elif] on
    [plan["action"]]. *)
Definition execute_plan (env : attempt_env) (plan : pydict) : task (option download) :=
  action ← match dict_get plan "action" with
            | Some v => mret v
            | None => raise (KeyError "action")
            end;
  if is_str action "CLICK_DOWNLOAD_ANYWAY" then
    expect_download env
      (ok ← await (click_download_anyway env);
       if negb ok
       then raise (RuntimeError "Planner chose CLICK_DOWNLOAD_ANYWAY but button not available.")
       else mret ())
  else if is_str action "CLICK_DOWNLOAD_BUTTON" then
    btn ← await (find_download_button env);
    match btn with
    | None => raise (RuntimeError "Planner chose CLICK_DOWNLOAD_BUTTON but no button found.")
    | Some b =>
        expect_download env
          (logger_info "Step: click download button";;
           await (click b);;
           asyncio_sleep 1;;
           await (click_download_anyway env);;
           mret ())
    end
  else if is_str action "OPEN_OVERFLOW_MENU_AND_DOWNLOAD" then
    expect_download env
      (ok ← await (overflow_menu_download env);
       if negb ok then raise (RuntimeError "Overflow download failed.")
       else
         asyncio_sleep 1;;
         await (click_download_anyway env);;
         mret ())
  else if is_str action "REFRESH_AND_RETRY_SELECTORS" then
    logger_info "Step: refresh and retry selectors";;
    await (reload env);;
    asyncio_sleep 3;;
    btn ← await (find_download_button env);
    match btn with
    | None =>
        logger_info "Fallback: overflow menu after refresh";;
        expect_download env
          (ok ← await (overflow_menu_download env);
           if negb ok then raise (RuntimeError "No download route found after refresh.")
           else
             asyncio_sleep 1;;
             await (click_download_anyway env);;
             mret ())
    | Some b =>
        expect_download env
          (await (click b);;
           asyncio_sleep 1;;
           await (click_download_anyway env);;
           mret ())
    end
  else raise (RuntimeError "Planner chose FAIL_GIVE_UP.").

(** The name the download is saved under (lines 380 to 383). *)
Definition persisted_name (suggested_filename : string) : string :=
  let suggested := Py.str_or suggested_filename "downloaded_doc.pdf" in
  if negb (Py.endswith (Py.lower suggested) ".pdf")
  then suggested +:+ ".pdf"
  else suggested.

(** The Handoff Writer (lines 380 to 413): save, measure, hash, write the
    record, cancel the watchdog. *)
Definition write_handoff (lib : library) (env : attempt_env) (url : string)
    (guard : nat) (d : download) : task pydict :=
  let suggested := persisted_name (suggested_filename d) in
  let save_path := Py.path_join DOWNLOADS_DIR suggested in
  logger_info "Step: saving download";;
  await (save_as d);;
  write_file save_path (content d);;
  files ← get_fs;
  file_bytes ← lift (os_path_getsize files save_path);
  file_sha ← lift (_sha256_file files save_path);
  let payload :=
    {| status := "success";
       file_path := os_path_abspath lib save_path;
       file_name := suggested;
       source_url := url;
       sha256 := file_sha;
       bytes := file_bytes;
       downloaded_at_iso := isoformat_now env;
       notes := "Downloaded via Playwright browser flow (no Google Drive API). Planner used gpt-5-mini.";
       extra := [ ("executor", JString "playwright-chromium");
                  ("reasoner", JString "gpt-5-mini") ] |} in
  write_file HANDOFF_PATH (json_dump lib (JObject (asdict payload)));;
  logger_info "Step: wrote handoff";;
  task_cancel guard;;
  logger_info "Agent A: success.";;
  mret (asdict payload).

(** From navigation to the resolved download (lines 306 to 375). The
    oracle is asked with [attempt=1] whatever the attempt is. *)
Definition acquire (lib : library) (env : attempt_env) : task (option download) :=
  logger_info "Step: goto url";;
  await (goto env);;
  asyncio_sleep 3;;
  page_state ← await {| secs := collect_secs env;
                        result := Returned (_collect_page_state (the_page env)) |};
  plan ← blocking (plan_secs env)
           (_call_gpt5_mini_plan lib (client env) page_state 1);
  logger_info "Planner(gpt-5-mini)";;
  execute_plan env plan.

(** The body of the [try] of [run]. *)
Definition attempt_body (lib : library) (env : attempt_env) (url : string)
    (start max_seconds : Z) : task pydict :=
  guard ← create_task start max_seconds;
  dl ← acquire lib env;
  match dl with
  | None => raise (RuntimeError "Download did not start (no download object).")
  | Some d => write_handoff lib env url guard d
  end.

(** The [except] clause of [run]: log, screenshot, re-raise. *)
Definition on_error (env : attempt_env) (e : exn) : task pydict :=
  logger_error "Agent A error";;
  _safe_screenshot env "agent_a_error";;
  raise e.

(** The body of [DownloadAgent.run], one attempt. [browser.close()] in
    the [finally] clause runs however the [try] ended, after the handoff
    file was written and the watchdog cancelled on the way of success;
    what it raises replaces the outcome of the [try]. *)
Definition run_once (lib : library) (env : attempt_env) (url : string)
    (max_seconds : Z) : task pydict :=
  start ← time_time;
  logger_info "Agent A start";;
  await (launch env);;
  try_finally
    (try_catch (attempt_body lib env url start max_seconds) (on_error env))
    (await (close env)).

(** ** Retry/Backoff Controller: the [tenacity] decorator of [run] *)

(** [stop_after_attempt(n)] *)
Definition stop_after_attempt (max_attempt_number : Z) (attempt_number : Z) : bool :=
  attempt_number >=? max_attempt_number.

(** [wait_exponential(multiplier, min, max)] with base 2 *)
Definition wait_exponential (multiplier min max : Z) (attempt_number : Z) : Z :=
  let exp := 2 ^ (attempt_number - 1) in
  let result := multiplier * exp in
  Z.max (Z.max 0 min) (Z.min result max).

(** What the controller does between two attempts: the [before_sleep]
    log line and the sleep. *)
Definition pause (seconds : Z) (w : world) : world :=
  suspend seconds (logger_info "Retrying" w).2.

(** What the controller did, in order. *)
Inductive retry_event : Type :=
| Attempted (attempt_number : Z)
| Waited (seconds : Z).

(** The loop of [tenacity] with [reraise=True]: call, and on an exception
    either stop and re-raise it or sleep and call again. [None] when
    [fuel] rounds do not reach the end. *)
Fixpoint retrying {A} (fuel : nat) (stop : Z → bool) (wait : Z → Z)
    (fn : Z → task A) (attempt_number : Z) (w : world)
    : option (outcome A * world * list retry_event) :=
  match fuel with
  | O => None
  | S fuel' =>
      match fn attempt_number w with
      | (Returned a, w') => Some (Returned a, w', [Attempted attempt_number])
      | (Raised e, w') =>
          if stop attempt_number
          then Some (Raised e, w', [Attempted attempt_number])
          else
            let seconds := wait attempt_number in
            match retrying fuel' stop wait fn (attempt_number + 1)
                    (pause seconds w') with
            | Some (r, w'', evs) =>
                Some (r, w'', Attempted attempt_number :: Waited seconds :: evs)
            | None => None
            end
      end
  end.

(** [DownloadAgent.run] as decorated: [envs n] is what the n-th attempt
    meets. *)
Definition run (fuel : nat) (lib : library) (envs : Z → attempt_env)
    (url : string) (max_seconds : Z) (w : world)
    : option (outcome pydict * world * list retry_event) :=
  retrying fuel (stop_after_attempt 3) (wait_exponential 1 2 10)
    (λ n, run_once lib (envs n) url max_seconds) 1 w.

(** * agent_b.py *)

(** The machine the consumer runs on: its regular files, its
    directories, and what [os.path.exists] answers for a value that is
    not a string (an integer is read as a file descriptor, other values
    raise). *)
Record host : Type := {
  files : filesystem;
  directories : gset string;
  exists_other : json → outcome bool
}.

(** [os.path.exists(v)] for a value read from JSON. *)
Definition exists_value (h : host) (v : json) : outcome bool :=
  match v with
  | JString s => Returned (os_path_exists (files h) (directories h) s)
  | _ => exists_other h v
  end.

(** [k in data] *)
Definition json_contains (data : json) (k : string) : outcome bool :=
  match data with
  | JObject d => Returned (dict_has d k)
  | JArray l => Returned (existsb (λ v, is_str v k) l)
  | JString s => Returned (Py.contains s k)
  | _ => Raised (TypeError "argument is not iterable")
  end.

(** [data[k]] for a string key *)
Definition json_subscript (data : json) (k : string) : outcome json :=
  match data with
  | JObject d =>
      match dict_get d k with
      | Some v => Returned v
      | None => Raised (KeyError k)
      end
  | JArray _ => Raised (TypeError "list indices must be integers or slices, not str")
  | JString _ => Raised (TypeError "string indices must be integers, not 'str'")
  | _ => Raised (TypeError "object is not subscriptable")
  end.

(** [data.get(k)] *)
Definition json_get (data : json) (k : string) : outcome (option json) :=
  match data with
  | JObject d => Returned (dict_get d k)
  | _ => Raised (AttributeError "object has no attribute 'get'")
  end.

(** [with open(path) as f: data = json.load(f)]; [open] raises
    [IsADirectoryError], an [OSError], on a directory. *)
Definition json_load_file (lib : library) (fs : filesystem) (dirs : gset string)
    (path : string) : outcome json :=
  match fs !! path with
  | None =>
      if bool_decide (path ∈ dirs)
      then Raised (OSError ("Is a directory: " +:+ path))
      else Raised (FileNotFoundError path)
  | Some raw =>
      match json_load lib raw with
      | Some data => Returned data
      | None => Raised (ValueError "JSONDecodeError")
      end
  end.

Definition required_fields : list string :=
  [ "file_path"; "file_name"; "source_url"; "sha256"; "bytes"; "downloaded_at_iso" ].

(** [for k in [...]: if k not in data: raise ValueError(...)] *)
Fixpoint check_required (data : json) (ks : list string) : outcome unit :=
  match ks with
  | [] => Returned ()
  | k :: rest =>
      present ← json_contains data k;
      if negb present
      then Raised (ValueError ("handoff.json missing required field: " +:+ k))
      else check_required data rest
  end.

(** [QueryAgent.load_handoff] *)
Definition load_handoff (lib : library) (h : host) (handoff_path : string) : outcome json :=
  if negb (os_path_exists (files h) (directories h) handoff_path)
  then Raised (FileNotFoundError ("handoff.json not found at: " +:+ handoff_path))
  else
    data ← json_load_file lib (files h) (directories h) handoff_path;
    check_required data required_fields;;
    file_path ← json_subscript data "file_path";
    there ← (if negb (truthy file_path) then Returned false else exists_value h file_path);
    if negb there
    then Raised (ValueError ("Invalid file_path in handoff.json: " +:+ py_str lib file_path))
    else Returned data.

(** Loading, splitting, embedding and indexing the document: the work of
    the libraries behind [index_document_from_handoff], given the value
    of [file_path]. *)
Record indexer : Type := { build_index : json → outcome unit }.

(** [QueryAgent.index_document_from_handoff] *)
Definition index_document_from_handoff (ix : indexer) (handoff : json) : outcome unit :=
  file_path ← json_subscript handoff "file_path";
  build_index ix file_path.

(** * main.py *)

Inductive exit_status : Type :=
| Interactive
| SysExit (code : Z).

(** The body of the [try] of phase 2 (lines 31 to 43), on a machine with
    the regular files [fs] and the directories [dirs]. *)
Definition phase2_body (lib : library) (ix : indexer) (fs : filesystem)
    (dirs : gset string) : outcome unit :=
  if negb (os_path_exists fs dirs HANDOFF_PATH)
  then Raised (FileNotFoundError "Expected handoff.json but not found.")
  else
    handoff ← json_load_file lib fs dirs HANDOFF_PATH;
    json_get handoff "file_path";;
    json_get handoff "file_name";;
    json_get handoff "sha256";;
    index_document_from_handoff ix handoff.

(** Phase 2 of [main]: an exception ends the process with exit code 1,
    otherwise the interactive loop starts. *)
Definition main_phase2 (lib : library) (ix : indexer) (fs : filesystem)
    (dirs : gset string) : exit_status :=
  match phase2_body lib ix fs dirs with
  | Returned _ => Interactive
  | Raised _ => SysExit 1
  end.

(** * Notions the statements below use *)

(** The oracle's text keeps the contract: it parses as a JSON object
    whose [action] is one of the allowed names. *)
Definition keeps_contract (lib : library) (text : string) : Prop :=
  ∃ d a, json_loads lib text = Some (JObject d)
         ∧ dict_get d "action" = Some (JString a)
         ∧ a ∈ allowed_actions.

(** The labels of a list without repetitions, each at the place of its
    first occurrence. *)
Fixpoint first_seen (l : list string) : list string :=
  match l with
  | [] => []
  | x :: rest => x :: filter (λ y, y ≠ x) (first_seen rest)
  end.

(** A string is whitespace-collapsed when every whitespace character in
    it is a single space that follows a character that is not
    whitespace. [after_space] tells whether the previous character was a
    space (or there was none). *)
Fixpoint collapsed_from (after_space : bool) (s : string) : bool :=
  match s with
  | EmptyString => true
  | String c s' =>
      if Py.isspace c
      then bool_decide (c = " "%char) && negb after_space && collapsed_from true s'
      else collapsed_from false s'
  end.

Definition collapsed (s : string) : bool := collapsed_from true s.

(** A word: no whitespace in it. *)
Fixpoint spaceless (s : string) : bool :=
  match s with
  | EmptyString => true
  | String c s' => negb (Py.isspace c) && spaceless s'
  end.

(** The labels the scan of the first 40 candidates qualifies, with
    repetitions, in document order. *)
Definition qualifying_labels (els : list element) : list string :=
  omap element_label (take 40 els).

(** How many attempts and which waits a controller trace holds. *)
Definition attempts_of (evs : list retry_event) : list Z :=
  omap (λ ev, match ev with Attempted n => Some n | Waited _ => None end) evs.

Definition waits_of (evs : list retry_event) : list Z :=
  omap (λ ev, match ev with Waited s => Some s | Attempted _ => None end) evs.

(** The world [w'] differs from [w] by writes that leave the handoff
    location alone. *)
Definition handoff_untouched (w w' : world) : Prop :=
  fs w' !! HANDOFF_PATH = fs w !! HANDOFF_PATH
  ∧ ∃ new, written w' = (written w ++ new)%list ∧ HANDOFF_PATH ∉ new.

(** A task is quiet when it leaves the handoff location alone however
    it ends; [Q] holds of what it returns. *)
Definition quiet_with {A} (t : task A) (Q : A → Prop) : Prop :=
  ∀ w, handoff_untouched w (t w).2 ∧ ∀ a, (t w).1 = Returned a → Q a.

(** Between [w] and [w'] the record [p] was written to the handoff
    location, once, and the download it describes was saved. *)
Definition handoff_written (lib : library) (env : attempt_env) (p : pydict)
    (w w' : world) : Prop :=
  fs w' !! HANDOFF_PATH = Some (json_dump lib (JObject p))
  ∧ dict_get p "status" = Some (JString "success")
  ∧ (∃ before,
       written w' = (written w ++ before ++ [HANDOFF_PATH])%list
       ∧ HANDOFF_PATH ∉ before)
  ∧ ∃ d, result (download_event env) = Returned d
         ∧ dict_get p "file_name"
           = Some (JString (persisted_name (suggested_filename d)))
         ∧ fs w' !! Py.path_join DOWNLOADS_DIR (persisted_name (suggested_filename d))
           = Some (content d).

(** Two worlds look the same to a coroutine that does not inspect the
    watchdog tasks: same files, journal, clock and log, and as many tasks. *)
Definition same_view (w1 w2 : world) : Prop :=
  fs w1 = fs w2 ∧ written w1 = written w2 ∧ clock w1 = clock w2
  ∧ log w1 = log w2 ∧ length (tasks w1) = length (tasks w2).

(** Two tasks agree when, started in worlds that look the same, they end
    alike in worlds that look the same. *)
Definition agree {A} (t1 t2 : task A) : Prop :=
  ∀ w1 w2, same_view w1 w2 →
    (t1 w1).1 = (t2 w2).1 ∧ same_view (t1 w1).2 (t2 w2).2.

(** The first required field that a record lacks. *)
Definition first_missing (d : pydict) : option string :=
  List.find (λ k, negb (dict_has d k)) required_fields.


(** The world [s] is the world [w] after [seconds] seconds in which the
    files were left alone: what a sleep of the controller does. *)
Definition resumed_after (seconds : Z) (w s : world) : Prop :=
  clock s = clock w + seconds ∧ fs s = fs w ∧ written s = written w.

(** What the decorator of [run] promises, as a relation between the
    world at the start of attempt [n], the outcome, the final world and
    the trace: an attempt that returns ends the run; an attempt that
    raises ends it with its exception when it was the third (or a later
    one); otherwise the next attempt starts [wait_exponential 1 2 10 n]
    seconds after this one ended. *)
Inductive controlled {A} (fn : Z → task A)
    : Z → world → outcome A → world → list retry_event → Prop :=
| controlled_returns n w a w' :
    fn n w = (Returned a, w') →
    controlled fn n w (Returned a) w' [Attempted n]
| controlled_reraises n w e w' :
    fn n w = (Raised e, w') →
    3 ≤ n →
    controlled fn n w (Raised e) w' [Attempted n]
| controlled_retries n w e w1 s r w' evs :
    fn n w = (Raised e, w1) →
    n < 3 →
    resumed_after (wait_exponential 1 2 10 n) w1 s →
    controlled fn (n + 1) s r w' evs →
    controlled fn n w r w' (Attempted n :: Waited (wait_exponential 1 2 10 n) :: evs).

(** * agent_b.py: answering a question *)

(** What the loader records for a chunk: its page number and the path it
    was read from. A chunk may carry no metadata, and a key may be
    absent; both read as [None]. *)
Record doc_meta : Type := {
  meta_page : option Z;
  meta_source : option string
}.

Record document : Type := { metadata : option doc_meta }.

(** What [qa_chain.invoke] returns: the entries [result] and
    [source_documents] of the dict, each possibly absent; the list may
    also be [None]. *)
Record qa_result : Type := {
  qa_answer : option string;
  qa_source_documents : option (list document)
}.

(** A citation: the dict with keys [page] and [source]. *)
Definition citation : Type := (option Z * option string)%type.

Record query_out : Type := {
  answer : string;
  sources : list citation
}.

(** [for d in ...: sources.append({"page": page, "source": src})] *)
Definition citation_of (d : document) : citation :=
  match metadata d with
  | Some meta => (meta_page meta, meta_source meta)
  | None => (None, None)
  end.

(** The de-duplication loop of [query]: [seen] is the set of keys met,
    [uniq] the citations kept so far. *)
Fixpoint dedup_citations (seen : gset citation) (uniq : list citation)
    (l : list citation) : list citation :=
  match l with
  | [] => uniq
  | s :: rest =>
      if decide (s ∈ seen) then dedup_citations seen uniq rest
      else dedup_citations ({[ s ]} ∪ seen) (uniq ++ [s]) rest
  end.

(** [QueryAgent.query]; [qa_chain] is [None] until a document is indexed. *)
Definition query (qa_chain : option (string → outcome qa_result)) (question : string)
    : outcome query_out :=
  match qa_chain with
  | None => Returned {| answer := "System: No document indexed."; sources := [] |}
  | Some chain =>
      result ← chain question;
      let answer := default "" (qa_answer result) in
      let sources := citation_of <$> default [] (qa_source_documents result) in
      mret {| answer := answer; sources := dedup_citations ∅ [] sources |}
  end.

(** The page list printed after an answer (agent_b.py lines 131 to 135,
    main.py lines 61 to 65): [None] when nothing is printed. *)
Definition printed_pages (out : query_out) : option (list Z) :=
  match sources out with
  | [] => None
  | _ =>
      let pages := omap fst (sources out) in
      match pages with
      | [] => None
      | _ => Some (merge_sort Z.le (elements (list_to_set pages : gset Z)))
      end
  end.

(** How the question loop ends: on an exit word, on the end of the
    input ([input] raises [EOFError]), or on an exception of [query]. *)
Inductive loop_end : Type :=
| ShutDown
| EndOfInput
| Crashed (e : exn).

(** [q.lower() in {"exit", "quit"}] *)
Definition is_exit_word (q : string) : bool :=
  bool_decide (Py.lower q ∈ ["exit"; "quit"]).

(** The question loop of [main] and of [run_cli]: [stdin] holds the lines
    still to be read; the result lists the questions answered with what
    [query] returned, then how the loop ended. *)
Fixpoint question_loop (qa_chain : option (string → outcome qa_result))
    (stdin : list string) : list (string * query_out) * loop_end :=
  match stdin with
  | [] => ([], EndOfInput)
  | line :: rest =>
      let q := Py.strip line in
      if is_exit_word q then ([], ShutDown)
      else
        match query qa_chain q with
        | Raised e => ([], Crashed e)
        | Returned out =>
            let '(answered, ending) := question_loop qa_chain rest in
            ((q, out) :: answered, ending)
        end
  end.

(** The first two statements of [run_cli]: load and validate the
    handoff, then index. *)
Definition run_cli_setup (lib : library) (h : host) (ix : indexer) : outcome unit :=
  handoff ← load_handoff lib h HANDOFF_PATH;
  index_document_from_handoff ix handoff.

(** * Notions the further statements use *)

(** The elements of a list without repetitions, each at the place of its
    first occurrence. *)
Fixpoint firsts {A} `{EqDecision A} (l : list A) : list A :=
  match l with
  | [] => []
  | x :: rest => x :: filter (λ y, y ≠ x) (firsts rest)
  end.

(** An environment with another oracle client. *)
Definition with_client (env : attempt_env) (c : openai_client) : attempt_env :=
  {| launch := launch env; goto := goto env; the_page := the_page env;
     collect_secs := collect_secs env; client := c; plan_secs := plan_secs env;
     click_download_anyway := click_download_anyway env;
     find_download_button := find_download_button env;
     overflow_menu_download := overflow_menu_download env;
     reload := reload env; download_event := download_event env;
     isoformat_now := isoformat_now env; screenshot := screenshot env;
     screenshot_stamp := screenshot_stamp env;
     screenshot_png := screenshot_png env; close := close env |}.

(** Where the failure screenshot of an attempt goes. *)
Definition error_screenshot_path (env : attempt_env) : string :=
  Py.path_join SCREENSHOTS_DIR
    ("agent_a_error" +:+ "_" +:+ screenshot_stamp env +:+ ".png").

(** Where a download is saved. *)
Definition save_path_of (d : download) : string :=
  Py.path_join DOWNLOADS_DIR (persisted_name (suggested_filename d)).

(** A character of a lower-case hexadecimal numeral. *)
Definition is_hex_char (c : ascii) : bool :=
  bool_decide (c ∈ String.list_ascii_of_string "0123456789abcdef").

(** A map over the watchdog tasks that only lets them make their rounds:
    identities stay, nothing is cancelled, and a task that is no longer
    pending stays as it is. *)
Definition rounds_only (f : guard_task → guard_task) : Prop :=
  ∀ g, g_id (f g) = g_id g
       ∧ g_start (f g) = g_start g
       ∧ g_max_seconds (f g) = g_max_seconds g
       ∧ (g_status g ≠ TaskPending → g_status (f g) = g_status g)
       ∧ (g_status (f g) = TaskCancelled → g_status g = TaskCancelled).

(** A task that creates no watchdog and cancels none. *)
Definition lets_watchdogs_run {A} (t : task A) : Prop :=
  ∀ w, ∃ f, rounds_only f ∧ tasks (t w).2 = f <$> tasks w.

(** The world in which the [try] of [run] starts: the start is logged
    and the browser launched. *)
Definition after_launch (env : attempt_env) (w : world) : world :=
  suspend (secs (launch env)) (logger_info "Agent A start" w).2.
(** * Sample inputs *)

Definition timed_ok {A} (n : Z) (a : A) : timed A :=
  {| secs := n; result := Returned a |}.

(** A visible element whose accessible label is [label]. *)
Definition visible_button (label : string) : element :=
  {| is_visible := Returned true;
     inner_text := Returned "";
     get_attribute_aria_label := Returned (Some label) |}.

Definition page_of (els : list element) : page :=
  {| page_title := Returned "report.pdf - Google Drive";
     page_url := Returned "https://drive.google.com/file/d/1";
     locator_all := Returned els |}.

(** Thirty visible buttons labelled b00 to b29. *)
Definition thirty_buttons : list element :=
  map (λ n : nat, visible_button ("b" +:+ String (ascii_of_nat (48 + n / 10)) (String (ascii_of_nat (48 + n mod 10)) "")))
      (seq 0 30).

(** Twenty-six visible buttons that all read Download. *)
Definition same_buttons : list element := replicate 26 (visible_button "Download").

(** The double-quote character, for writing JSON text. *)
Definition dq : string := String (ascii_of_nat 34) "".

(** The oracle's answer that picks the download button. *)
Definition click_button_text : string :=
  "{" +:+ dq +:+ "action" +:+ dq +:+ ": " +:+ dq +:+ "CLICK_DOWNLOAD_BUTTON" +:+ dq
  +:+ ", " +:+ dq +:+ "rationale" +:+ dq +:+ ": " +:+ dq +:+ "button visible" +:+ dq +:+ "}".

Definition click_button_plan : pydict :=
  [ ("action", JString "CLICK_DOWNLOAD_BUTTON"); ("rationale", JString "button visible") ].

(** A handoff record without sha256, as bytes, and the object it parses to. *)
Definition record_without_sha : pydict :=
  [ ("status", JString "success");
    ("file_path", JString "/srv/sandbox/downloads/report.pdf");
    ("file_name", JString "report.pdf");
    ("source_url", JString "https://drive.google.com/file/d/1");
    ("bytes", JInt 3);
    ("downloaded_at_iso", JString "2025-01-01T00:00:00+00:00") ].

Definition record_complete : pydict :=
  ("sha256", JString "ba7816bf8f01cfea414140de5dae2223b00361a396177a9cb410ff61f20015ad")
  :: record_without_sha.

Definition bytes_without_sha : list byte := bytes_of_string "record without sha256".
Definition bytes_complete : list byte := bytes_of_string "complete record".

(** Stand-ins for the library functions on the texts used below. *)
Definition sample_lib : library :=
  {| json_loads := λ text,
       if decide (text = click_button_text) then Some (JObject click_button_plan)
       else if decide (text = "[1, 2]") then Some (JArray [JInt 1; JInt 2])
       else None;
     json_load := λ raw,
       if decide (Byte.to_N <$> raw = Byte.to_N <$> bytes_without_sha)
       then Some (JObject record_without_sha)
       else if decide (Byte.to_N <$> raw = Byte.to_N <$> bytes_complete)
       then Some (JObject record_complete)
       else None;
     json_dump := λ _, bytes_of_string "{...}";
     os_path_abspath := λ p, "/srv/" +:+ p;
     py_str := λ v, match v with JString s => s | _ => "?" end |}.

(** An oracle that answers in prose, one that picks the download button,
    and one whose two channels are down. *)
Definition chatty_client : openai_client :=
  {| responses_create := λ _, Returned "  Please click the download button. ";
     chat_completions_create := λ _, Returned None |}.

Definition helpful_client : openai_client :=
  {| responses_create := λ _, Returned click_button_text;
     chat_completions_create := λ _, Returned None |}.

Definition down_client : openai_client :=
  {| responses_create := λ _, Raised (APIError "responses endpoint unavailable");
     chat_completions_create := λ _, Raised (APIError "chat endpoint unavailable") |}.

Definition empty_page_state : page_state :=
  {| ps_title := ""; ps_url := ""; ps_buttons := [] |}.

(** An attempt in which every step works: the button is found, the
    download arrives under the name REPORT.PDF, the file holds abc.
    Navigation takes [goto_secs] seconds. *)
Definition working_env (goto_secs : Z) : attempt_env :=
  {| launch := timed_ok 2 ();
     goto := timed_ok goto_secs ();
     the_page := page_of [visible_button "Download"];
     collect_secs := 1;
     client := helpful_client;
     plan_secs := 4;
     click_download_anyway := timed_ok 1 false;
     find_download_button := timed_ok 1 (Some {| click := timed_ok 1 () |});
     overflow_menu_download := timed_ok 1 false;
     reload := timed_ok 2 ();
     download_event :=
       timed_ok 3 {| suggested_filename := "REPORT.PDF";
                     content := bytes_of_string "abc";
                     save_as := timed_ok 1 () |};
     isoformat_now := "2025-01-01T00:00:00+00:00";
     screenshot := timed_ok 1 ();
     screenshot_stamp := "20250101_000000";
     screenshot_png := [];
     close := timed_ok 1 () |}.

(** The same attempt, except that [browser.close()] raises at the end. *)
Definition close_fails_env : attempt_env :=
  {| launch := launch (working_env 1);
     goto := goto (working_env 1);
     the_page := the_page (working_env 1);
     collect_secs := collect_secs (working_env 1);
     client := client (working_env 1);
     plan_secs := plan_secs (working_env 1);
     click_download_anyway := click_download_anyway (working_env 1);
     find_download_button := find_download_button (working_env 1);
     overflow_menu_download := overflow_menu_download (working_env 1);
     reload := reload (working_env 1);
     download_event := download_event (working_env 1);
     isoformat_now := isoformat_now (working_env 1);
     screenshot := screenshot (working_env 1);
     screenshot_stamp := screenshot_stamp (working_env 1);
     screenshot_png := screenshot_png (working_env 1);
     close := {| secs := 1;
                 result := Raised (RuntimeError "Browser.close: Connection closed") |} |}.

Definition initial_world : world :=
  {| fs := ∅; written := []; clock := 0; tasks := []; log := [] |}.

(** The consumer's machine with the document and a handoff file. *)
Definition sample_host (handoff : list byte) : host :=
  {| files := {[ HANDOFF_PATH := handoff;
                 "/srv/sandbox/downloads/report.pdf" := bytes_of_string "abc" ]};
     directories := {[ "sandbox"; "sandbox/logs" ]};
     exists_other := λ _, Raised (TypeError "stat: path should be string, bytes, os.PathLike or integer") |}.

Definition sample_indexer : indexer := {| build_index := λ _, Returned () |}.


(** A complete record whose [file_path] names the sandbox directory, and
    a library stand-in that reads it. *)
Definition record_naming_directory : pydict :=
  [ ("status", JString "success");
    ("file_path", JString "sandbox");
    ("file_name", JString "report.pdf");
    ("source_url", JString "https://drive.google.com/file/d/1");
    ("sha256", JString "ba7816bf8f01cfea414140de5dae2223b00361a396177a9cb410ff61f20015ad");
    ("bytes", JInt 3);
    ("downloaded_at_iso", JString "2025-01-01T00:00:00+00:00") ].

Definition directory_lib : library :=
  {| json_loads := json_loads sample_lib;
     json_load := λ _, Some (JObject record_naming_directory);
     json_dump := json_dump sample_lib;
     os_path_abspath := os_path_abspath sample_lib;
     py_str := py_str sample_lib |}.
(** * Further sample inputs *)

(** An element whose visibility query raises. *)
Definition detached_element : element :=
  {| is_visible := Raised (PWTimeoutError "element is detached");
     inner_text := Returned "Share";
     get_attribute_aria_label := Returned (Some "Share") |}.

(** An oracle whose first channel is down and whose second answers with
    an empty message. *)
Definition silent_client : openai_client :=
  {| responses_create := λ _, Raised (APIError "responses endpoint unavailable");
     chat_completions_create := λ _, Returned None |}.

(** The oracle's answer that gives up, and an oracle that always gives it. *)
Definition give_up_text : string :=
  "{" +:+ dq +:+ "action" +:+ dq +:+ ": " +:+ dq +:+ "FAIL_GIVE_UP" +:+ dq +:+ "}".

Definition give_up_plan : pydict := [ ("action", JString "FAIL_GIVE_UP") ].

Definition give_up_client : openai_client :=
  {| responses_create := λ _, Returned give_up_text;
     chat_completions_create := λ _, Returned None |}.

(** The library stand-in that also reads the give-up answer. *)
Definition sample_lib' : library :=
  {| json_loads := λ text,
       if decide (text = give_up_text) then Some (JObject give_up_plan)
       else json_loads sample_lib text;
     json_load := json_load sample_lib;
     json_dump := json_dump sample_lib;
     os_path_abspath := os_path_abspath sample_lib;
     py_str := py_str sample_lib |}.

(** An oracle that picks the download button when told that the attempt
    is the first, and gives up otherwise. *)
Definition moody_client : openai_client :=
  {| responses_create := λ r,
       if decide (req_attempt r = 1) then Returned click_button_text
       else Returned give_up_text;
     chat_completions_create := λ _, Returned None |}.

(** A chain that cites page 3 twice, page 1 once and a chunk without
    metadata. *)
Definition sample_chain : string → outcome qa_result := λ _,
  Returned
    {| qa_answer := Some "The report covers 2024.";
       qa_source_documents :=
         Some [ {| metadata := Some {| meta_page := Some 3; meta_source := Some "report.pdf" |} |};
                {| metadata := Some {| meta_page := Some 1; meta_source := Some "report.pdf" |} |};
                {| metadata := Some {| meta_page := Some 3; meta_source := Some "report.pdf" |} |};
                {| metadata := None |} ] |}.

(** A chain that answers every question but one, on which the call to
    the model raises. *)
Definition fragile_chain : string → outcome qa_result := λ q,
  if decide (q = "What is the budget?")
  then Raised (APIError "rate limit exceeded")
  else sample_chain q.

(** The working attempt, except that the download never starts: the wait
    for the download event times out. *)
Definition timeout_env : attempt_env :=
  {| launch := launch (working_env 1);
     goto := goto (working_env 1);
     the_page := the_page (working_env 1);
     collect_secs := 1;
     client := helpful_client;
     plan_secs := 4;
     click_download_anyway := click_download_anyway (working_env 1);
     find_download_button := find_download_button (working_env 1);
     overflow_menu_download := overflow_menu_download (working_env 1);
     reload := reload (working_env 1);
     download_event :=
       {| secs := 60;
          result := Raised (PWTimeoutError "Timeout 60000ms exceeded while waiting for event download") |};
     isoformat_now := isoformat_now (working_env 1);
     screenshot := timed_ok 1 ();
     screenshot_stamp := "20250101_000000";
     screenshot_png := bytes_of_string "PNG";
     close := timed_ok 1 () |}.

(** A run whose first attempt times out and whose later attempts work. *)
Definition flaky_envs (n : Z) : attempt_env :=
  if decide (n = 1) then timeout_env else working_env 1.

Definition sample_url : string := "https://drive.google.com/file/d/1".

(** The record the working attempt writes. *)
Definition working_record : pydict :=
  Eval vm_compute in
    match (run_once sample_lib (working_env 1) sample_url 600 initial_world).1 with
    | Returned p => p
    | Raised _ => []
    end.

(** A library stand-in whose [json.load] reads that record back. *)
Definition echo_lib : library :=
  {| json_loads := json_loads sample_lib;
     json_load := λ _, Some (JObject working_record);
     json_dump := json_dump sample_lib;
     os_path_abspath := os_path_abspath sample_lib;
     py_str := py_str sample_lib |}.

(** The consumer's machine after the working attempt. *)
Definition consumer_host : host :=
  {| files := {[ HANDOFF_PATH := bytes_of_string "{...}";
                 "/srv/sandbox/downloads/REPORT.PDF" := bytes_of_string "abc" ]};
     directories := {[ "sandbox"; "sandbox/logs"; "sandbox/downloads" ]};
     exists_other := λ _, Raised (TypeError "stat: path should be string, bytes, os.PathLike or integer") |}.

(** * Planner Oracle Adapter *)

Section planner.
Context (lib : library) (client : openai_client).
Context (page_state : page_state) (attempt : Z).

Let user : plan_request :=
  {| req_attempt := attempt; req_page_state := page_state;
     req_allowed_actions := allowed_actions |}.

Lemma decode_plan_cases text :
  decode_plan lib text = fallback_invalid_action
  ∨ decode_plan lib text = fallback_non_json
  ∨ ∃ d, json_loads lib text = Some (JObject d) ∧ decode_plan lib text = d
         ∧ json_in_strs (dict_get d "action") allowed_actions = true.
Proof.
  unfold decode_plan.
  destruct (json_loads lib text) as [[| | | | | |d]|]; auto.
  destruct (json_in_strs _ _) eqn:E; simpl; eauto 10.
Qed.

Lemma json_in_strs_true v names :
  json_in_strs v names = true → ∃ a, v = Some (JString a) ∧ a ∈ names.
Proof.
  destruct v as [[| | | |s| |]|]; simpl; try discriminate.
  intros H%bool_decide_eq_true. eauto.
Qed.

Lemma decode_plan_fallback text :
  ¬ keeps_contract lib text →
  decode_plan lib text = fallback_invalid_action
  ∨ decode_plan lib text = fallback_non_json.
Proof.
  intros Hbad. destruct (decode_plan_cases text) as [?|[?|(d & Hd & _ & Hin)]]; auto.
  exfalso. apply Hbad. apply json_in_strs_true in Hin as (a & Ha & Hin).
  by exists d, a.
Qed.

(** A plan that keeps the contract is handed on as the oracle gave it. *)
Lemma decode_plan_valid text d a :
  json_loads lib text = Some (JObject d) →
  dict_get d "action" = Some (JString a) →
  a ∈ allowed_actions →
  decode_plan lib text = d.
Proof.
  intros Hd Ha Hin. unfold decode_plan. rewrite Hd, Ha. simpl.
  by rewrite bool_decide_eq_true_2.
Qed.

(** C2. Whatever text the oracle answers with, if the text does not
    parse as a JSON object or the object's action is not one of the
    five allowed names, the adapter returns (it does not raise) one of
    the two fallback plans, whose action is REFRESH_AND_RETRY_SELECTORS
    and whose rationale is the fallback rationale. *)
Theorem C2_contract_violation_gives_fallback text :
  request_plan_text client user = Returned text →
  ¬ keeps_contract lib text →
  ∃ plan rationale,
    _call_gpt5_mini_plan lib client page_state attempt = Returned plan
    ∧ plan = [ ("action", JString "REFRESH_AND_RETRY_SELECTORS");
               ("rationale", JString rationale) ]
    ∧ (rationale = "Invalid action from model; fallback."
       ∨ rationale = "Non-JSON output; fallback.").
Proof.
  intros Htext Hbad. unfold _call_gpt5_mini_plan. fold user. rewrite Htext. simpl.
  destruct (decode_plan_fallback text Hbad) as [-> | ->].
  - exists fallback_invalid_action, "Invalid action from model; fallback.". auto.
  - exists fallback_non_json, "Non-JSON output; fallback.". auto.
Qed.

(** C10. When the Responses channel raises and the chat-completions
    channel raises too, the adapter raises the second channel's
    exception; and whenever the adapter returns a plan, a response text
    was obtained and the plan is the decoding of that text. *)
Theorem C10_both_channels_raise_propagates :
  (∀ e1 e2,
     responses_create client user = Raised e1 →
     chat_completions_create client user = Raised e2 →
     _call_gpt5_mini_plan lib client page_state attempt = Raised e2)
  ∧ (∀ plan,
       _call_gpt5_mini_plan lib client page_state attempt = Returned plan →
       ∃ text, request_plan_text client user = Returned text
               ∧ plan = decode_plan lib text).
Proof.
  split.
  - intros e1 e2 H1 H2. unfold _call_gpt5_mini_plan, request_plan_text. fold user.
    by rewrite H1, H2.
  - intros plan. unfold _call_gpt5_mini_plan. fold user.
    destruct (request_plan_text client user) as [text|e]; simpl; [|discriminate].
    intros [= <-]. eauto.
Qed.
End planner.

(** * Retry/Backoff Controller *)

Section backoff.
Let W := wait_exponential 1 2 10.

Lemma wait_exponential_clamped n : W n = Z.max 2 (Z.min (2 ^ (n - 1)) 10).
Proof. unfold W, wait_exponential. lia. Qed.

Lemma wait_exponential_bounds n : 2 ≤ W n ≤ 10.
Proof. rewrite wait_exponential_clamped. lia. Qed.

Lemma wait_exponential_mono n m : n ≤ m → W n ≤ W m.
Proof.
  intros Hnm. rewrite !wait_exponential_clamped.
  assert (2 ^ (n - 1) ≤ 2 ^ (m - 1)) by (apply Z.pow_le_mono_r; lia).
  lia.
Qed.

(** From the second wait on, the wait doubles until it meets the cap. *)
Lemma wait_exponential_doubles n : 2 ≤ n → W (n + 1) = Z.min (2 * W n) 10.
Proof.
  intros Hn. rewrite !wait_exponential_clamped.
  replace (n + 1 - 1) with (Z.succ (n - 1)) by lia.
  rewrite Z.pow_succ_r by lia.
  assert (2 ^ 1 ≤ 2 ^ (n - 1)) by (apply Z.pow_le_mono_r; lia).
  change (2 ^ 1) with 2 in *. lia.
Qed.

Lemma wait_first : W 1 = 2.
Proof. reflexivity. Qed.

Lemma wait_second : W 2 = 2.
Proof. reflexivity. Qed.
End backoff.

(** The three shapes a controlled execution can take. *)
Lemma retrying_shapes {A} (fn : Z → task A) (fuel : nat) (w : world) :
  (3 ≤ fuel)%nat →
  ∃ r w' evs,
    retrying fuel (stop_after_attempt 3) (wait_exponential 1 2 10) fn 1 w
      = Some (r, w', evs)
    ∧ ((∃ a, fn 1 w = (Returned a, w') ∧ r = Returned a ∧ evs = [Attempted 1])
       ∨ (∃ e1 w1 a,
            fn 1 w = (Raised e1, w1) ∧ fn 2 (pause 2 w1) = (Returned a, w')
            ∧ r = Returned a
            ∧ evs = [Attempted 1; Waited 2; Attempted 2])
       ∨ (∃ e1 w1 e2 w2,
            fn 1 w = (Raised e1, w1) ∧ fn 2 (pause 2 w1) = (Raised e2, w2)
            ∧ fn 3 (pause 2 w2) = (r, w')
            ∧ evs = [Attempted 1; Waited 2; Attempted 2; Waited 2; Attempted 3])).
Proof.
  intros Hfuel. destruct fuel as [|[|[|fuel]]]; [lia..|]. clear Hfuel.
  cbn [retrying]. change (1 + 1) with 2. change (2 + 1) with 3.
  change (stop_after_attempt 3 1) with false.
  change (stop_after_attempt 3 2) with false.
  change (stop_after_attempt 3 3) with true.
  change (wait_exponential 1 2 10 1) with 2.
  change (wait_exponential 1 2 10 2) with 2.
  fold (pause 2).
  destruct (fn 1 w) as [[a|e1] w1] eqn:E1.
  { do 3 eexists. split; [done|]. left. eauto. }
  cbv iota. fold (pause 2 w1).
  destruct (fn 2 (pause 2 w1)) as [[a|e2] w2] eqn:E2.
  { do 3 eexists. split; [done|]. right. left. eauto 10. }
  fold (pause 2 w2).
  destruct (fn 3 (pause 2 w2)) as [[a|e3] w3] eqn:E3.
  - do 3 eexists. split; [done|]. right. right. eauto 10.
  - do 3 eexists. split; [done|]. right. right. eauto 10.
Qed.

(** The sleep of the controller lets time pass and leaves the files alone. *)
Lemma pause_resumed seconds w : resumed_after seconds w (pause seconds w).
Proof. by repeat split. Qed.

(** The loop of the decorator does what [controlled] promises. *)
Lemma retrying_controlled {A} (fn : Z → task A) (fuel : nat) (w : world) :
  (3 ≤ fuel)%nat →
  ∃ r w' evs,
    retrying fuel (stop_after_attempt 3) (wait_exponential 1 2 10) fn 1 w
      = Some (r, w', evs)
    ∧ controlled fn 1 w r w' evs.
Proof.
  intros Hfuel.
  destruct (retrying_shapes fn fuel w Hfuel) as (r & w' & evs & Hrun & Hshape).
  exists r, w', evs. split; [exact Hrun|].
  destruct Hshape as [(a & H1 & -> & ->)|[(e1 & w1 & a & H1 & H2 & -> & ->)
                     |(e1 & w1 & e2 & w2 & H1 & H2 & H3 & ->)]].
  - by apply controlled_returns.
  - apply (controlled_retries fn 1 w e1 w1 (pause 2 w1)); [done|lia|apply pause_resumed|].
    by apply (controlled_returns fn 2).
  - apply (controlled_retries fn 1 w e1 w1 (pause 2 w1)); [done|lia|apply pause_resumed|].
    apply (controlled_retries fn 2 (pause 2 w1) e2 w2 (pause 2 w2));
      [done|lia|apply pause_resumed|].
    destruct r as [a|e3].
    + by apply (controlled_returns fn 3).
    + apply (controlled_reraises fn 3); [done|lia].
Qed.

(** What a controlled execution that starts with attempt 1 looks like. *)
Lemma controlled_bounds {A} (fn : Z → task A) n w r w' evs :
  controlled fn n w r w' evs →
  1 ≤ n →
  (Z.of_nat (length (attempts_of evs)) ≤ Z.max 1 (4 - n))
  ∧ Forall (λ s, 2 ≤ s ≤ 10) (waits_of evs)
  ∧ Sorted Z.le (waits_of evs)
  ∧ (∀ s, head (waits_of evs) = Some s → s = wait_exponential 1 2 10 n).
Proof.
  induction 1 as [n w a w'|n w e w' Hfn Hn|n w e w1 s r w' evs Hfn Hn Hs Hc IH];
    intros H1.
  - cbn. repeat split; [lia|constructor|constructor|discriminate].
  - cbn. repeat split; [lia|constructor|constructor|discriminate].
  - destruct (IH ltac:(lia)) as (Hlen & Hb & Hsorted & Hhead).
    change (attempts_of (Attempted n :: Waited (wait_exponential 1 2 10 n) :: evs))
      with (n :: attempts_of evs).
    change (waits_of (Attempted n :: Waited (wait_exponential 1 2 10 n) :: evs))
      with (wait_exponential 1 2 10 n :: waits_of evs).
    cbn [length head]. split; [lia|]. split; [|split].
    + constructor; [apply wait_exponential_bounds|done].
    + constructor; [done|].
      destruct (waits_of evs) as [|s' rest]; constructor.
      rewrite (Hhead s' eq_refl). apply wait_exponential_mono. lia.
    + by intros ? [= <-].
Qed.

(** A controlled execution that fails has made attempts up to the third,
    and its exception is the one the last attempt raised. *)
Lemma controlled_failure {A} (fn : Z → task A) n w r w' evs :
  controlled fn n w r w' evs →
  n ≤ 3 →
  ∀ e, r = Raised e →
    attempts_of evs = (λ k, n + Z.of_nat k) <$> seq 0 (Z.to_nat (4 - n))
    ∧ ∃ w3, fn 3 w3 = (Raised e, w').
Proof.
  induction 1 as [n w a w'|n w e w' Hfn Hn|n w e w1 s r w' evs Hfn Hn Hs Hc IH];
    intros H3 e0 Hr.
  - discriminate.
  - injection Hr as <-. assert (n = 3) as -> by lia. split; [done|]. eauto.
  - destruct (IH ltac:(lia) e0 Hr) as (Hatt & Hlast). split; [|done].
    change (attempts_of (Attempted n :: Waited (wait_exponential 1 2 10 n) :: evs))
      with (n :: attempts_of evs).
    rewrite Hatt. replace (Z.to_nat (4 - n)) with (S (Z.to_nat (4 - (n + 1)))) by lia.
    cbn [seq fmap list_fmap]. f_equal; [lia|].
    rewrite <-seq_shift, <-list_fmap_compose. apply list_fmap_ext.
    intros _ k _. simpl. lia.
Qed.

(** C3. A controlled run ends after at most three attempts: it stops at
    the first attempt that returns, and after a failed first or second
    attempt the next attempt starts only when the wait has passed on the
    clock. Each wait lies between 2 and 10 seconds and the waits never
    decrease. When the run fails, attempts 1, 2 and 3 were made and the
    exception is the very one the third attempt raised. The wait after
    the n-th attempt is 2^(n-1) seconds held between the floor of 2 and
    the cap of 10: the first two waits are both 2 seconds, and from the
    second on the wait doubles until it meets the cap. *)
Theorem C3_retry_backoff (fuel : nat) (lib : library) (envs : Z → attempt_env)
    (url : string) (max_seconds : Z) (w : world) :
  (3 ≤ fuel)%nat →
  ∃ r w' evs,
    run fuel lib envs url max_seconds w = Some (r, w', evs)
    ∧ controlled (λ n, run_once lib (envs n) url max_seconds) 1 w r w' evs
    ∧ (length (attempts_of evs) ≤ 3)%nat
    ∧ Forall (λ s, 2 ≤ s ≤ 10) (waits_of evs)
    ∧ Sorted Z.le (waits_of evs)
    ∧ (∀ e, r = Raised e →
         attempts_of evs = [1; 2; 3]
         ∧ waits_of evs = [2; 2]
         ∧ ∃ w3, run_once lib (envs 3) url max_seconds w3 = (Raised e, w'))
    ∧ (∀ n, 1 ≤ n →
         2 ≤ wait_exponential 1 2 10 n ≤ 10
         ∧ wait_exponential 1 2 10 n ≤ wait_exponential 1 2 10 (n + 1)
         ∧ wait_exponential 1 2 10 n = Z.max 2 (Z.min (2 ^ (n - 1)) 10)
         ∧ (2 ≤ n →
            wait_exponential 1 2 10 (n + 1)
            = Z.min (2 * wait_exponential 1 2 10 n) 10))
    ∧ wait_exponential 1 2 10 1 = 2
    ∧ wait_exponential 1 2 10 2 = 2.
Proof.
  intros Hfuel. unfold run.
  destruct (retrying_controlled (λ n, run_once lib (envs n) url max_seconds) fuel w Hfuel)
    as (r & w' & evs & Hrun & Hc).
  exists r, w', evs. split; [exact Hrun|]. split; [exact Hc|].
  destruct (controlled_bounds _ _ _ _ _ _ Hc ltac:(lia)) as (Hlen & Hb & Hsorted & _).
  split; [lia|]. split; [done|]. split; [done|]. split; [|split; [|done]].
  - intros e He.
    destruct (controlled_failure _ _ _ _ _ _ Hc ltac:(lia) e He) as (Hatt & Hlast).
    split; [exact Hatt|]. split; [|exact Hlast].
    subst r. inversion Hc as [| |? ? e1 w1 s1 ? ? evs1 H1 ? ? Hc1]; subst; [lia|].
    inversion Hc1 as [| |? ? e2 w2 s2 ? ? evs2 H2 ? ? Hc2]; subst; [lia|].
    inversion Hc2; subst; [done|lia].
  - intros n Hn. split; [apply wait_exponential_bounds|].
    split; [apply wait_exponential_mono; lia|].
    split; [apply wait_exponential_clamped|apply wait_exponential_doubles].
Qed.

(** C3, as the claim puts it, fails: the backoff does not double from
    the first wait to the second although the cap is not met; a run
    whose three attempts time out waits 2 seconds and then 2 seconds
    again. *)
Lemma C3_counterexample :
  wait_exponential 1 2 10 2 ≠ 2 * wait_exponential 1 2 10 1
  ∧ wait_exponential 1 2 10 2 < 10
  ∧ ∃ e w' evs,
      run 3 sample_lib (λ _, timeout_env) sample_url 600 initial_world
        = Some (Raised e, w', evs)
      ∧ waits_of evs = [2; 2].
Proof.
  split; [by vm_compute|]. split; [by vm_compute|].
  destruct (run 3 sample_lib (λ _, timeout_env) sample_url 600 initial_world)
    as [[[[p|e] w'] evs]|] eqn:Hrun; [by vm_compute in Hrun| |by vm_compute in Hrun].
  exists e, w', evs. split; [done|].
  vm_compute in Hrun. by injection Hrun as _ _ <-.
Qed.

(** * Page State Extractor *)

Section extractor.
Implicit Types (l keys : list string) (s word : string).

Lemma scan_elements_omap els button_texts :
  scan_elements els button_texts = (button_texts ++ omap element_label els)%list.
Proof.
  revert button_texts. induction els as [|el els IH]; intros acc; simpl.
  - by rewrite app_nil_r.
  - rewrite IH. destruct (element_label el); [|done]. by rewrite <-app_assoc.
Qed.

Lemma elem_of_first_seen l x : x ∈ first_seen l ↔ x ∈ l.
Proof.
  induction l as [|y l IH]; simpl; [done|].
  rewrite !elem_of_cons, list_elem_of_filter, IH.
  destruct (decide (x = y)); tauto.
Qed.

Lemma NoDup_first_seen l : NoDup (first_seen l).
Proof.
  induction l as [|y l IH]; simpl; [constructor|].
  constructor; [|by apply NoDup_filter].
  rewrite list_elem_of_filter. intros [Hne _]. by apply Hne.
Qed.

Lemma length_first_seen l :
  length (first_seen l) = size (list_to_set l : gset string).
Proof.
  rewrite <-(size_list_to_set (C:=gset string) (first_seen l))
    by apply NoDup_first_seen.
  f_equal. apply set_eq. intros x.
  by rewrite !elem_of_list_to_set, elem_of_first_seen.
Qed.

Lemma first_seen_sublist l : first_seen l `sublist_of` l.
Proof.
  induction l as [|y l IH]; simpl; [done|].
  apply sublist_skip. etrans; [apply sublist_filter|done].
Qed.

(** A label seen again does not move; a new label goes to the end. *)
Lemma first_seen_snoc l x :
  first_seen (l ++ [x]) = if decide (x ∈ l) then first_seen l
                          else (first_seen l ++ [x])%list.
Proof.
  induction l as [|y l IH]; simpl; [done|].
  rewrite IH. destruct (decide (x ∈ l)) as [Hin|Hin].
  - rewrite decide_True by (apply elem_of_cons; auto). done.
  - destruct (decide (x = y)) as [->|Hne].
    + rewrite decide_True by (apply elem_of_cons; auto).
      rewrite filter_app, filter_cons_False by (intros ?; done).
      by rewrite filter_nil, app_nil_r.
    + rewrite decide_False by (rewrite elem_of_cons; intros [?|?]; done).
      by rewrite filter_app, filter_cons_True, filter_nil by done.
Qed.

Lemma fromkeys_into_first_seen keys l :
  fromkeys_into keys l = (keys ++ filter (λ y, y ∉ keys) (first_seen l))%list.
Proof.
  revert keys. induction l as [|x l IH]; intros keys; simpl.
  - by rewrite app_nil_r.
  - rewrite IH. case_bool_decide as Hx.
    + rewrite filter_cons_False by (intros Hn; by apply Hn).
      f_equal. rewrite list_filter_filter_l; [done|]. intros y Hy ->. done.
    + rewrite filter_cons_True by done.
      rewrite <-app_assoc. simpl. do 2 f_equal.
      rewrite list_filter_filter. apply list_filter_iff.
      intros y. rewrite elem_of_app, list_elem_of_singleton. tauto.
Qed.

Lemma filter_keeps_all (P : string → Prop) `{!∀ x, Decision (P x)} l :
  (∀ x, P x) → filter P l = l.
Proof.
  intros HP. induction l as [|x l IH]; [done|].
  by rewrite filter_cons_True, IH.
Qed.

(** [dict.fromkeys] keeps each label at its first occurrence. *)
Lemma dict_fromkeys_first_seen l : dict_fromkeys l = first_seen l.
Proof.
  unfold dict_fromkeys. rewrite fromkeys_into_first_seen. simpl.
  apply filter_keeps_all. intros x. apply not_elem_of_nil.
Qed.

(** Strings: slicing and collapsing. *)

Lemma length_slice_to n s : (String.length (Py.slice_to n s) ≤ n)%nat.
Proof.
  revert s. induction n as [|n IH]; intros [|c s]; simpl; try lia.
  specialize (IH s). lia.
Qed.

Lemma collapsed_from_slice_to b n s :
  collapsed_from b s = true → collapsed_from b (Py.slice_to n s) = true.
Proof.
  revert b s. induction n as [|n IH]; intros b [|c s]; simpl; try done.
  destruct (Py.isspace c).
  - rewrite !andb_true_iff. intros [[??]?]. auto.
  - auto.
Qed.

Lemma append_cons c s t : String c s +:+ t = String c (s +:+ t).
Proof. reflexivity. Qed.

Lemma append_empty_r s : s +:+ "" = s.
Proof. induction s as [|c s IH]; [done|]. by rewrite append_cons, IH. Qed.

Lemma collapsed_from_word b word rest :
  spaceless word = true → word ≠ "" →
  collapsed_from b (word +:+ rest) = collapsed_from false rest.
Proof.
  revert b. induction word as [|c word IH]; intros b Hw Hne; [done|].
  rewrite append_cons. simpl in *. apply andb_true_iff in Hw as [Hc Hw].
  apply negb_true_iff in Hc. rewrite Hc.
  destruct word as [|c' word]; [done|]. by apply IH.
Qed.

Lemma spaceless_snoc word c :
  spaceless word = true → Py.isspace c = false →
  spaceless (word +:+ String c "") = true.
Proof.
  intros Hw Hc. induction word as [|c' word IH].
  - simpl. by rewrite Hc.
  - rewrite append_cons. simpl in *.
    apply andb_true_iff in Hw as [-> Hw]. simpl. auto.
Qed.

Lemma snoc_nonempty word c : word +:+ String c "" ≠ "".
Proof. by destruct word. Qed.

Lemma split_from_words word s :
  spaceless word = true →
  Forall (λ u, spaceless u = true ∧ u ≠ "") (Py.split_from word s).
Proof.
  revert word. induction s as [|c s IH]; intros word Hw; simpl.
  - case_decide; [constructor|]. by repeat constructor.
  - destruct (Py.isspace c) eqn:Hc.
    + case_decide; [by apply IH|]. constructor; [done|by apply IH].
    + apply IH. by apply spaceless_snoc.
Qed.

Lemma collapsed_join_words ws :
  Forall (λ u, spaceless u = true ∧ u ≠ "") ws →
  collapsed (Py.join " " ws) = true.
Proof.
  unfold collapsed. induction 1 as [|u ws [Hu Hne] Hws IH]; [done|].
  destruct ws as [|v ws].
  - simpl. rewrite <-(append_empty_r u).
    by rewrite collapsed_from_word.
  - change (Py.join " " (u :: v :: ws)) with (u +:+ " " +:+ Py.join " " (v :: ws)).
    rewrite collapsed_from_word by done. exact IH.
Qed.

Lemma collapsed_join_split s : collapsed (Py.join " " (Py.split s)) = true.
Proof. apply collapsed_join_words. by apply split_from_words. Qed.

(** What a label looks like. *)
Lemma element_label_shape el label :
  element_label el = Some label →
  is_visible el = Returned true
  ∧ (String.length label ≤ 80)%nat
  ∧ collapsed label = true
  ∧ ∃ cand, cand ≠ "" ∧ label = Py.slice_to 80 (Py.join " " (Py.split cand)).
Proof.
  unfold element_label.
  destruct (is_visible el) as [[|]|]; try discriminate.
  destruct (inner_text el) as [t|]; try discriminate.
  destruct (get_attribute_aria_label el) as [a|]; try discriminate.
  set (cand := Py.str_or _ _). unfold Py.truthy_str.
  case_decide as Hc; [discriminate|]. intros Heq.
  apply (inj Some) in Heq. subst label.
  split; [done|]. split; [apply length_slice_to|].
  split; [apply collapsed_from_slice_to, collapsed_join_split|eauto].
Qed.
End extractor.

Lemma take_min_length {A} (l : list A) n : take (Nat.min (length l) n) l = take n l.
Proof.
  destruct (decide (length l ≤ n)%nat).
  - rewrite Nat.min_l by done. by rewrite firstn_all, take_ge.
  - by rewrite Nat.min_r by lia.
Qed.

Lemma collect_buttons_first_seen pg els :
  locator_all pg = Returned els →
  collect_buttons pg = take 25 (first_seen (qualifying_labels els)).
Proof.
  intros Hels. unfold collect_buttons. rewrite Hels.
  by rewrite take_min_length, scan_elements_omap, dict_fromkeys_first_seen.
Qed.

(** The number of labels returned, whatever the page. *)
Lemma length_collect_buttons pg els :
  locator_all pg = Returned els →
  length (collect_buttons pg)
  = Nat.min 25 (size (list_to_set (qualifying_labels els) : gset string)).
Proof.
  intros Hels. rewrite (collect_buttons_first_seen _ _ Hels).
  by rewrite length_take, length_first_seen.
Qed.

(** C4, as the claim puts it, fails: twenty-six qualifying labels that
    all read the same give one label, not twenty-five. *)
Lemma C4_counterexample :
  ¬ (∀ pg els,
       locator_all pg = Returned els →
       (25 < length (qualifying_labels els))%nat →
       length (ps_buttons (_collect_page_state pg)) = 25%nat).
Proof.
  intros Hclaim.
  specialize (Hclaim (page_of same_buttons) same_buttons eq_refl).
  vm_compute in Hclaim. specialize (Hclaim ltac:(lia)). discriminate.
Qed.

(** C4, amended. When the scan of the first 40 candidates qualifies more
    than 25 distinct labels, the extractor returns exactly 25 labels
    without repetition, namely the first 25 in order of first occurrence;
    each of them is at most 80 characters long, whitespace-collapsed, and
    is the label of one of the first 40 candidates. *)
Theorem C4_extractor_returns_25_distinct (pg : page) (els : list element) :
  locator_all pg = Returned els →
  (25 < size (list_to_set (qualifying_labels els) : gset string))%nat →
  let buttons := ps_buttons (_collect_page_state pg) in
  length buttons = 25%nat
  ∧ NoDup buttons
  ∧ buttons = take 25 (first_seen (qualifying_labels els))
  ∧ Forall (λ label,
      (String.length label ≤ 80)%nat
      ∧ collapsed label = true
      ∧ ∃ i el, (i < 40)%nat ∧ els !! i = Some el
                ∧ element_label el = Some label) buttons.
Proof.
  intros Hels Hmany. simpl.
  pose proof (collect_buttons_first_seen pg els Hels) as Heq.
  split; [rewrite (length_collect_buttons pg els Hels); lia|].
  split; [|split; [exact Heq|]].
  - rewrite Heq. eapply sublist_NoDup; [apply NoDup_first_seen|apply sublist_take].
  - rewrite Heq. apply Forall_forall. intros label Hin.
    apply (elem_of_take label 25) in Hin as (j & Hj & _).
    apply list_elem_of_lookup_2 in Hj.
    apply (proj1 (elem_of_first_seen _ _)) in Hj. unfold qualifying_labels in Hj.
    apply (proj1 (list_elem_of_omap _ _ _)) in Hj as (el & Hel & Hlabel).
    apply elem_of_take in Hel as (i & Hi & Hlt).
    destruct (element_label_shape el label Hlabel) as (_ & Hlen & Hcol & _).
    eauto 10.
Qed.

(** * Tasks that leave the handoff location alone *)

Section quiet.
Lemma untouched_same w w' :
  fs w' = fs w → written w' = written w → handoff_untouched w w'.
Proof.
  intros Hfs Hwr. split; [by rewrite Hfs|].
  exists []. split; [by rewrite Hwr, app_nil_r|apply not_elem_of_nil].
Qed.

Lemma untouched_refl w : handoff_untouched w w.
Proof. by apply untouched_same. Qed.

Lemma untouched_trans w1 w2 w3 :
  handoff_untouched w1 w2 → handoff_untouched w2 w3 → handoff_untouched w1 w3.
Proof.
  intros [Hfs1 (n1 & Hw1 & Hn1)] [Hfs2 (n2 & Hw2 & Hn2)].
  split; [by rewrite Hfs2|].
  exists (n1 ++ n2)%list. split; [by rewrite Hw2, Hw1, app_assoc|].
  rewrite elem_of_app. tauto.
Qed.

Lemma untouched_write w path data :
  path ≠ HANDOFF_PATH →
  handoff_untouched w (write_file path data w).2.
Proof.
  intros Hne. split; simpl.
  - by rewrite lookup_insert_ne.
  - exists [path]. split; [done|]. rewrite list_elem_of_singleton. congruence.
Qed.

Lemma untouched_pause w s : handoff_untouched w (pause s w).
Proof. by apply untouched_same. Qed.

Context {A B : Type}.

Lemma quiet_weaken (t : task A) (Q Q' : A → Prop) :
  quiet_with t Q → (∀ a, Q a → Q' a) → quiet_with t Q'.
Proof. intros Ht HQ w. destruct (Ht w) as [? Hv]. split; [done|]. eauto. Qed.

Lemma quiet_any (t : task A) (Q : A → Prop) :
  quiet_with t Q → quiet_with t (λ _, True).
Proof. intros Ht. by eapply quiet_weaken. Qed.

Lemma quiet_ret (a : A) : quiet_with (mret a) (λ x, x = a).
Proof. intros w. split; [apply untouched_refl|]. by intros ? [= <-]. Qed.

Lemma quiet_raise (e : exn) (Q : A → Prop) : quiet_with (raise e) Q.
Proof. intros w. split; [apply untouched_refl|]. by intros ?. Qed.

Lemma quiet_lift (r : outcome A) : quiet_with (lift r) (λ a, r = Returned a).
Proof. intros w. split; [apply untouched_refl|]. by intros ?. Qed.

Lemma quiet_await (x : timed A) : quiet_with (await x) (λ a, result x = Returned a).
Proof. intros w. split; [by apply untouched_same|]. by intros ?. Qed.

Lemma quiet_blocking n (r : outcome A) :
  quiet_with (blocking n r) (λ a, r = Returned a).
Proof. intros w. split; [by apply untouched_same|]. by intros ?. Qed.

Lemma quiet_bind (m : task A) (k : A → task B) (Q1 : A → Prop) (Q2 : B → Prop) :
  quiet_with m Q1 →
  (∀ a, Q1 a → quiet_with (k a) Q2) →
  quiet_with (m ≫= k) Q2.
Proof.
  intros Hm Hk w. unfold mbind, task_bind.
  destruct (Hm w) as [Hu Hv]. destruct (m w) as [[a|e] w1]; simpl in *.
  - destruct (Hk a (Hv a eq_refl) w1) as [Hu' Hv'].
    split; [by eapply untouched_trans|done].
  - split; [done|]. by intros ?.
Qed.

Lemma quiet_try_catch (body : task A) (handler : exn → task A) (Q : A → Prop) :
  quiet_with body Q →
  (∀ e, quiet_with (handler e) Q) →
  quiet_with (try_catch body handler) Q.
Proof.
  intros Hb Hh w. unfold try_catch.
  destruct (Hb w) as [Hu Hv]. destruct (body w) as [[a|e] w1]; simpl in *.
  - split; [done|]. intros ? [= <-]. by apply Hv.
  - destruct (Hh e w1) as [Hu' Hv']. split; [by eapply untouched_trans|done].
Qed.
End quiet.

Lemma quiet_sleep n : quiet_with (asyncio_sleep n) (λ _, True).
Proof. intros w. split; [by apply untouched_same|done]. Qed.

Lemma quiet_log msg : quiet_with (logger_info msg) (λ _, True).
Proof. intros w. split; [by apply untouched_same|done]. Qed.

Lemma quiet_time : quiet_with time_time (λ _, True).
Proof. intros w. split; [apply untouched_refl|done]. Qed.

Lemma quiet_create_task start max_seconds :
  quiet_with (create_task start max_seconds) (λ _, True).
Proof. intros w. split; [by apply untouched_same|done]. Qed.

Lemma quiet_write path data :
  path ≠ HANDOFF_PATH → quiet_with (write_file path data) (λ _, True).
Proof. intros Hne w. split; [by apply untouched_write|done]. Qed.

(** Sequencing a quiet task that returns nothing of interest. *)
Lemma quiet_seq {A B} (m : task A) (k : task B) (Q1 : A → Prop) (Q2 : B → Prop) :
  quiet_with m Q1 → quiet_with k Q2 → quiet_with (m ;; k) Q2.
Proof. intros Hm Hk. eapply quiet_bind; [exact Hm|]. intros _ _. exact Hk. Qed.

Lemma quiet_expect_download env (body : task unit) :
  quiet_with body (λ _, True) →
  quiet_with (expect_download env body)
    (λ dl, ∃ d, dl = Some d ∧ result (download_event env) = Returned d).
Proof.
  intros Hbody. unfold expect_download.
  eapply quiet_seq; [exact Hbody|].
  eapply quiet_bind; [apply quiet_await|]. intros d Hd.
  eapply quiet_weaken; [apply quiet_ret|]. intros ? ->. eauto.
Qed.

Lemma quiet_execute_plan env plan :
  quiet_with (execute_plan env plan)
    (λ dl, ∃ d, dl = Some d ∧ result (download_event env) = Returned d).
Proof.
  unfold execute_plan.
  eapply quiet_bind with (Q1 := λ _, True).
  { destruct (dict_get plan "action"); [eapply quiet_any, quiet_ret|apply quiet_raise]. }
  intros action _.
  repeat case_match; try apply quiet_raise.
  - apply quiet_expect_download.
    eapply quiet_bind; [apply quiet_await|]. intros ok _.
    destruct ok; simpl; [eapply quiet_any, quiet_ret|apply quiet_raise].
  - eapply quiet_bind; [apply quiet_await|]. intros btn _.
    destruct btn as [b|]; [|apply quiet_raise].
    apply quiet_expect_download.
    eapply quiet_seq; [apply quiet_log|].
    eapply quiet_seq; [apply quiet_await|].
    eapply quiet_seq; [apply quiet_sleep|].
    eapply quiet_seq; [apply quiet_await|]. eapply quiet_any, quiet_ret.
  - apply quiet_expect_download.
    eapply quiet_bind; [apply quiet_await|]. intros ok _.
    destruct ok; simpl; [|apply quiet_raise].
    eapply quiet_seq; [apply quiet_sleep|].
    eapply quiet_seq; [apply quiet_await|]. eapply quiet_any, quiet_ret.
  - eapply quiet_seq; [apply quiet_log|].
    eapply quiet_seq; [apply quiet_await|].
    eapply quiet_seq; [apply quiet_sleep|].
    eapply quiet_bind; [apply quiet_await|]. intros btn _.
    destruct btn as [b|].
    + apply quiet_expect_download.
      eapply quiet_seq; [apply quiet_await|].
      eapply quiet_seq; [apply quiet_sleep|].
      eapply quiet_seq; [apply quiet_await|]. eapply quiet_any, quiet_ret.
    + eapply quiet_seq; [apply quiet_log|].
      apply quiet_expect_download.
      eapply quiet_bind; [apply quiet_await|]. intros ok _.
      destruct ok; simpl; [|apply quiet_raise].
      eapply quiet_seq; [apply quiet_sleep|].
      eapply quiet_seq; [apply quiet_await|]. eapply quiet_any, quiet_ret.
Qed.

Lemma quiet_acquire lib env :
  quiet_with (acquire lib env)
    (λ dl, ∃ d, dl = Some d ∧ result (download_event env) = Returned d).
Proof.
  unfold acquire.
  eapply quiet_seq; [apply quiet_log|].
  eapply quiet_seq; [apply quiet_await|].
  eapply quiet_seq; [apply quiet_sleep|].
  eapply quiet_bind; [apply quiet_await|]. intros page_state _.
  eapply quiet_bind; [apply quiet_blocking|]. intros plan _.
  eapply quiet_seq; [apply quiet_log|].
  apply quiet_execute_plan.
Qed.

(** Paths under the sandbox directories differ from the handoff path. *)
Lemma downloads_path_not_handoff name :
  Py.path_join DOWNLOADS_DIR name ≠ HANDOFF_PATH.
Proof.
  unfold Py.path_join. destruct (Py.startswith name "/") eqn:Hs.
  - destruct name as [|c name]; [done|]. simpl in Hs.
    case_decide as Hc; [|done]. subst c. done.
  - change (Py.endswith DOWNLOADS_DIR "/") with false. cbv iota.
    change DOWNLOADS_DIR with "sandbox/downloads". done.
Qed.

Lemma screenshot_path_not_handoff label stamp :
  Py.path_join SCREENSHOTS_DIR ("agent_a_error" +:+ label +:+ stamp) ≠ HANDOFF_PATH.
Proof. done. Qed.

Lemma quiet_safe_screenshot env :
  quiet_with (_safe_screenshot env "agent_a_error") (λ _, True).
Proof.
  unfold _safe_screenshot.
  eapply quiet_seq; [|eapply quiet_any, quiet_ret].
  apply quiet_try_catch; [|intros _; apply quiet_log].
  eapply quiet_seq; [apply quiet_await|].
  eapply quiet_seq; [|apply quiet_log].
  apply quiet_write. apply (screenshot_path_not_handoff "_").
Qed.

Lemma quiet_on_error env e Q : quiet_with (on_error env e) Q.
Proof.
  unfold on_error.
  eapply quiet_seq; [apply quiet_log|].
  eapply quiet_seq; [apply quiet_safe_screenshot|]. apply quiet_raise.
Qed.

Lemma getsize_insert (files : filesystem) path data :
  os_path_getsize (<[path := data]> files) path = Returned (Z.of_nat (length data)).
Proof. unfold os_path_getsize. by rewrite lookup_insert_eq. Qed.

Lemma sha256_file_insert (files : filesystem) path data :
  ∃ digest, _sha256_file (<[path := data]> files) path = Returned digest.
Proof. unfold _sha256_file. rewrite lookup_insert_eq. eauto. Qed.

Lemma write_handoff_spec lib env url guard d w :
  match write_handoff lib env url guard d w with
  | (Returned p, w') =>
      fs w' !! HANDOFF_PATH = Some (json_dump lib (JObject p))
      ∧ dict_get p "status" = Some (JString "success")
      ∧ (∃ before,
           written w' = (written w ++ before ++ [HANDOFF_PATH])%list
           ∧ HANDOFF_PATH ∉ before)
      ∧ dict_get p "file_name"
        = Some (JString (persisted_name (suggested_filename d)))
      ∧ fs w' !! Py.path_join DOWNLOADS_DIR (persisted_name (suggested_filename d))
        = Some (content d)
  | (Raised _, w') => handoff_untouched w w'
  end.
Proof.
  cbv [write_handoff mbind task_bind mret task_ret logger_info await write_file
       get_fs lift task_cancel suspend].
  cbn [fs written clock tasks log].
  destruct (result (save_as d)) as [[]|e].
  2:{ by apply untouched_same. }
  rewrite getsize_insert.
  set (sp := Py.path_join DOWNLOADS_DIR (persisted_name (suggested_filename d))).
  destruct (sha256_file_insert (fs w) sp (content d)) as [digest ->].
  cbn [fs written clock tasks log].
  split; [by rewrite lookup_insert_eq|]. split; [done|].
  split; [|split; [done|]].
  - exists [sp]. split; [by rewrite <-app_assoc|].
    rewrite list_elem_of_singleton. intros Heq. by apply (downloads_path_not_handoff _ (eq_sym Heq)).
  - rewrite lookup_insert_ne by (intros Heq; by apply (downloads_path_not_handoff _ (eq_sym Heq))).
    by rewrite lookup_insert_eq.
Qed.

Lemma handoff_written_after lib env p w w1 w2 :
  handoff_untouched w w1 → handoff_written lib env p w1 w2 →
  handoff_written lib env p w w2.
Proof.
  intros [_ (n1 & Hw1 & Hn1)] (Hfs & Hst & (before & Hw2 & Hb) & Hd).
  split; [done|]. split; [done|]. split; [|done].
  exists (n1 ++ before)%list. split.
  - rewrite Hw2, Hw1. by rewrite <-!(assoc_L (++)%list).
  - rewrite elem_of_app. tauto.
Qed.

Lemma attempt_body_spec lib env url start max_seconds w :
  match attempt_body lib env url start max_seconds w with
  | (Returned p, w') => handoff_written lib env p w w'
  | (Raised _, w') => handoff_untouched w w'
  end.
Proof.
  cbv [attempt_body mbind task_bind create_task].
  set (w1 := {| fs := fs w |}).
  assert (handoff_untouched w w1) as H1 by (by apply untouched_same).
  destruct (quiet_acquire lib env w1) as [Hu Hv].
  destruct (acquire lib env w1) as [[dl|e] w2]; simpl in Hu, Hv.
  2:{ exact (untouched_trans _ _ _ H1 Hu). }
  destruct (Hv dl eq_refl) as (d & -> & Hd).
  pose proof (write_handoff_spec lib env url (length (tasks w)) d w2) as Hw.
  destruct (write_handoff lib env url (length (tasks w)) d w2) as [[p|e] w3].
  - apply (handoff_written_after _ _ _ _ w2); [exact (untouched_trans _ _ _ H1 Hu)|].
    destruct Hw as (? & ? & ? & ? & ?). split; [done|]. split; [done|].
    split; [done|]. eauto.
  - exact (untouched_trans _ _ _ (untouched_trans _ _ _ H1 Hu) Hw).
Qed.

(** Time that passes does not change what was written. *)
Lemma handoff_written_suspend lib env p w w' n :
  handoff_written lib env p w w' → handoff_written lib env p w (suspend n w').
Proof. intros (Hfs & Hst & Hwr & Hd). by repeat split. Qed.

(** One attempt returns the record it has just written to the handoff
    location; when it fails it has left the handoff location alone,
    unless it fails with what [browser.close()] raised after the record
    was written. *)
Lemma run_once_spec lib env url max_seconds w :
  match run_once lib env url max_seconds w with
  | (Returned p, w') => handoff_written lib env p w w'
  | (Raised e, w') =>
      handoff_untouched w w'
      ∨ (result (close env) = Raised e ∧ ∃ p, handoff_written lib env p w w')
  end.
Proof.
  cbv [run_once mbind task_bind time_time logger_info await try_finally try_catch].
  cbn [fs written clock tasks log].
  destruct (result (launch env)) as [[]|e]; [|left; by apply untouched_same].
  set (w1 := suspend _ _).
  assert (handoff_untouched w w1) as H1 by (by apply untouched_same).
  pose proof (attempt_body_spec lib env url (clock w) max_seconds w1) as Hb.
  destruct (attempt_body lib env url (clock w) max_seconds w1) as [[p|e] w2].
  - assert (handoff_written lib env p w (suspend (secs (close env)) w2)) as Hw.
    { apply handoff_written_suspend. by apply (handoff_written_after _ _ _ _ w1). }
    destruct (result (close env)) as [[]|e'] eqn:Hclose; [exact Hw|].
    right. eauto.
  - destruct (quiet_on_error env e (λ _, False) w2) as [Hu Hv].
    destruct (on_error env e w2) as [[p|e'] w3]; simpl in Hu, Hv.
    { destruct (Hv p eq_refl). }
    assert (handoff_untouched w (suspend (secs (close env)) w3)) as Hq.
    { eapply untouched_trans; [exact H1|].
      eapply untouched_trans; [exact Hb|].
      eapply untouched_trans; [exact Hu|]. by apply untouched_same. }
    destruct (result (close env)) as [[]|e'']; by left.
Qed.

(** When [browser.close()] returns, an attempt that fails has left the
    handoff location alone. *)
Lemma run_once_closed_spec lib env url max_seconds w :
  result (close env) = Returned () →
  match run_once lib env url max_seconds w with
  | (Returned p, w') => handoff_written lib env p w w'
  | (Raised _, w') => handoff_untouched w w'
  end.
Proof.
  intros Hclose. pose proof (run_once_spec lib env url max_seconds w) as Hs.
  destruct (run_once lib env url max_seconds w) as [[p|e] w']; [done|].
  destruct Hs as [Hu|[Hc _]]; [done|congruence].
Qed.


(** When [browser.close()] returns in every attempt, a controlled run
    either fails and leaves the handoff location alone, or returns the
    record that one of its attempts wrote there. *)
Lemma run_spec fuel lib envs url max_seconds w :
  (3 ≤ fuel)%nat →
  (∀ n, result (close (envs n)) = Returned ()) →
  ∃ r w' evs,
    run fuel lib envs url max_seconds w = Some (r, w', evs)
    ∧ match r with
      | Returned p => ∃ n, handoff_written lib (envs n) p w w'
      | Raised _ => handoff_untouched w w'
      end.
Proof.
  intros Hfuel Hclose. unfold run.
  destruct (retrying_shapes (λ n, run_once lib (envs n) url max_seconds) fuel w Hfuel)
    as (r & w' & evs & Hrun & Hshape).
  exists r, w', evs. split; [exact Hrun|].
  destruct Hshape as [(a & H1 & -> & _)|[(e1 & w1 & a & H1 & H2 & -> & _)
                     |(e1 & w1 & e2 & w2 & H1 & H2 & H3 & _)]].
  - pose proof (run_once_closed_spec lib (envs 1) url max_seconds w (Hclose 1)) as S1.
    rewrite H1 in S1. eauto.
  - pose proof (run_once_closed_spec lib (envs 1) url max_seconds w (Hclose 1)) as S1.
    pose proof (run_once_closed_spec lib (envs 2) url max_seconds (pause 2 w1) (Hclose 2))
      as S2.
    rewrite H1 in S1. rewrite H2 in S2. exists 2.
    eapply handoff_written_after; [|exact S2].
    eapply untouched_trans; [exact S1|apply untouched_pause].
  - pose proof (run_once_closed_spec lib (envs 1) url max_seconds w (Hclose 1)) as S1.
    pose proof (run_once_closed_spec lib (envs 2) url max_seconds (pause 2 w1) (Hclose 2))
      as S2.
    pose proof (run_once_closed_spec lib (envs 3) url max_seconds (pause 2 w2) (Hclose 3))
      as S3.
    rewrite H1 in S1. rewrite H2 in S2. rewrite H3 in S3.
    assert (handoff_untouched w (pause 2 w2)) as Hu.
    { eapply untouched_trans; [exact S1|].
      eapply untouched_trans; [apply untouched_pause|].
      eapply untouched_trans; [exact S2|apply untouched_pause]. }
    destruct r as [p|e].
    + exists 3. by eapply handoff_written_after.
    + by eapply untouched_trans.
Qed.


(** An attempt whose plan is to give up fails at once. *)
Lemma give_up_fails env plan w :
  dict_get plan "action" = Some (JString "FAIL_GIVE_UP") →
  execute_plan env plan w = (Raised (RuntimeError "Planner chose FAIL_GIVE_UP."), w).
Proof. intros Hplan. unfold execute_plan. by rewrite Hplan. Qed.



(** * The persisted file name *)

Lemma lower_append a b : Py.lower (a +:+ b) = Py.lower a +:+ Py.lower b.
Proof.
  induction a as [|c a IH]; [done|].
  rewrite append_cons. simpl. by rewrite IH.
Qed.

Lemma endswith_append a p : Py.endswith (a +:+ p) p = true.
Proof.
  induction a as [|c a IH].
  - change ("" +:+ p) with p. destruct p; simpl; try case_decide; done.
  - rewrite append_cons. simpl. case_decide; [done|exact IH].
Qed.

Lemma persisted_name_lower_pdf suggested :
  Py.endswith (Py.lower (persisted_name suggested)) ".pdf" = true.
Proof.
  unfold persisted_name.
  destruct (Py.endswith (Py.lower (Py.str_or suggested "downloaded_doc.pdf")) ".pdf") eqn:E;
    simpl; [done|].
  rewrite lower_append. apply endswith_append.
Qed.

(** C5, as the claim puts it, fails: a suggested name that ends in .PDF
    is kept as it is, and it does not end in .pdf. *)
Lemma C5_counterexample :
  persisted_name "REPORT.PDF" = "REPORT.PDF"
  ∧ Py.endswith (persisted_name "REPORT.PDF") ".pdf" = false.
Proof. split; reflexivity. Qed.

(** C5, amended. When an attempt succeeds, the download is saved in the
    downloads directory under the name the record gives as file_name, and
    that name ends in .pdf when letter case is ignored: a suggested name
    (or, when none is suggested, downloaded_doc.pdf) whose lower-case
    form lacks the ending gets .pdf appended, any other is kept. *)
Theorem C5_persisted_name_ends_in_pdf (lib : library) (env : attempt_env)
    (url : string) (max_seconds : Z) (w w' : world) (p : pydict) :
  run_once lib env url max_seconds w = (Returned p, w') →
  ∃ d name,
    result (download_event env) = Returned d
    ∧ name = persisted_name (suggested_filename d)
    ∧ dict_get p "file_name" = Some (JString name)
    ∧ fs w' !! Py.path_join DOWNLOADS_DIR name = Some (content d)
    ∧ Py.endswith (Py.lower name) ".pdf" = true
    ∧ let suggested := Py.str_or (suggested_filename d) "downloaded_doc.pdf" in
      (Py.endswith (Py.lower suggested) ".pdf" = false → name = suggested +:+ ".pdf")
      ∧ (Py.endswith (Py.lower suggested) ".pdf" = true → name = suggested).
Proof.
  intros Hrun. pose proof (run_once_spec lib env url max_seconds w) as Hs.
  rewrite Hrun in Hs. destruct Hs as (_ & _ & _ & d & Hd & Hname & Hsaved).
  exists d, (persisted_name (suggested_filename d)).
  split; [done|]. split; [done|]. split; [done|]. split; [done|].
  split; [apply persisted_name_lower_pdf|].
  unfold persisted_name. simpl. split; intros ->; done.
Qed.

(** * Hashing *)

Section hashing.
Import SHA256.
Implicit Types (H : list Z) (data a b rest : list byte).

Lemma absorb_fuel fuel1 fuel2 H data :
  (length data ≤ fuel1)%nat → (length data ≤ fuel2)%nat →
  absorb fuel1 H data = absorb fuel2 H data.
Proof.
  revert fuel2 H data. induction fuel1 as [|f1 IH]; intros fuel2 H data H1 H2.
  - destruct data; [|simpl in H1; lia]. by destruct fuel2.
  - destruct fuel2 as [|f2].
    { destruct data; [|simpl in H2; lia]. done. }
    simpl. case_decide as Hlen; [|done].
    apply IH; rewrite length_drop; lia.
Qed.

Lemma absorb_all_small H data :
  (length data < 64)%nat → absorb_all H data = (H, data).
Proof.
  intros Hlen. unfold absorb_all. destruct (length data) eqn:E; [done|].
  simpl. rewrite E. case_decide; [lia|done].
Qed.

Lemma absorb_all_step H data :
  (64 ≤ length data)%nat →
  absorb_all H data = absorb_all (compress H (take 64 data)) (drop 64 data).
Proof.
  intros Hlen. unfold absorb_all. destruct (length data) as [|n] eqn:E; [lia|].
  simpl. rewrite E. rewrite decide_True by done.
  apply absorb_fuel; rewrite length_drop; lia.
Qed.

(** Bytes may be absorbed in two goes: what the first go leaves over is
    put in front of the rest. *)
Lemma absorb_all_app H a b :
  absorb_all H (a ++ b)
  = absorb_all (absorb_all H a).1 ((absorb_all H a).2 ++ b).
Proof.
  remember (length a) as n eqn:Hn. revert H a Hn.
  induction n as [n IH] using lt_wf_ind. intros H a ->.
  destruct (decide (64 ≤ length a)%nat) as [Hlen|Hlen].
  - rewrite (absorb_all_step H a) by done.
    rewrite (absorb_all_step H (a ++ b)) by (rewrite length_app; lia).
    rewrite take_app_le, drop_app_le by done.
    eapply IH; [|done]. rewrite length_drop. lia.
  - by rewrite (absorb_all_small H a) by lia.
Qed.

Lemma new_fed : new = fed [].
Proof. done. Qed.

Lemma update_fed a b : update (fed a) b = fed (a ++ b).
Proof.
  unfold update, fed. cbn [chain pending seen].
  rewrite <-absorb_all_app. destruct (absorb_all initial_hash (a ++ b)) as [H r].
  by rewrite length_app.
Qed.

Lemma digest_fed a : digest (fed a) = sha256 a.
Proof.
  unfold digest, sha256, fed. cbn [chain pending seen].
  by rewrite <-absorb_all_app.
Qed.

Lemma foldl_update_fed a chunks :
  foldl update (fed a) chunks = fed (a ++ concat chunks).
Proof.
  revert a. induction chunks as [|c chunks IH]; intros a; simpl.
  - by rewrite app_nil_r.
  - by rewrite update_fed, IH, app_assoc.
Qed.

Lemma read_loop_fed fuel n a rest :
  (0 < n)%nat → (length rest < fuel)%nat →
  read_loop fuel n (fed a) rest = fed (a ++ rest).
Proof.
  intros Hn. revert a rest. induction fuel as [|fuel IH]; intros a rest Hfuel; [lia|].
  cbn [read_loop read]. destruct (take n rest) as [|x chunk] eqn:Hchunk.
  - destruct rest as [|y rest]; [by rewrite app_nil_r|].
    destruct n; [lia|discriminate].
  - rewrite <-Hchunk, update_fed, IH.
    + by rewrite <-app_assoc, take_drop.
    + rewrite length_drop. destruct rest; [by destruct n|]. simpl in *. lia.
Qed.
End hashing.

Lemma CHUNK_SIZE_pos : (0 < CHUNK_SIZE)%nat.
Proof. unfold CHUNK_SIZE. lia. Qed.

(** C6. The digest [_sha256_file] returns is the hexadecimal SHA-256 of
    the file's contents; it depends on the contents only, so hashing the
    same contents again, under any path, gives the same digest; and the
    read loop gives this digest for every positive chunk size, as does
    feeding the hasher any sequence of portions that make up the
    contents. *)
Theorem C6_streaming_digest_is_sha256 (files : filesystem) (path : string)
    (data : list byte) :
  files !! path = Some data →
  _sha256_file files path = Returned (SHA256.hex (SHA256.sha256 data))
  ∧ (∀ (files' : filesystem) path',
       files' !! path' = Some data →
       _sha256_file files' path' = _sha256_file files path)
  ∧ (∀ n fuel,
       (0 < n)%nat → (length data < fuel)%nat →
       SHA256.hexdigest (read_loop fuel n SHA256.new data)
       = SHA256.hex (SHA256.sha256 data))
  ∧ (∀ chunks,
       concat chunks = data →
       SHA256.hexdigest (foldl SHA256.update SHA256.new chunks)
       = SHA256.hex (SHA256.sha256 data)).
Proof.
  intros Hfile.
  assert (Hloop : ∀ n fuel, (0 < n)%nat → (length data < fuel)%nat →
            SHA256.hexdigest (read_loop fuel n SHA256.new data)
            = SHA256.hex (SHA256.sha256 data)).
  { intros n fuel Hn Hfuel. rewrite new_fed, read_loop_fed by done.
    unfold SHA256.hexdigest. by rewrite digest_fed. }
  assert (Hfn : ∀ (files' : filesystem) path', files' !! path' = Some data →
            _sha256_file files' path' = Returned (SHA256.hex (SHA256.sha256 data))).
  { intros files' path' Hf. unfold _sha256_file. rewrite Hf.
    f_equal. apply Hloop; [apply CHUNK_SIZE_pos|lia]. }
  split; [by apply Hfn|]. split; [|split; [exact Hloop|]].
  - intros files' path' Hf. by rewrite (Hfn files' path' Hf), (Hfn files path Hfile).
  - intros chunks <-. rewrite new_fed, foldl_update_fed.
    unfold SHA256.hexdigest. by rewrite digest_fed.
Qed.

(** * The handoff consumer *)

Section consumer.
Context (lib : library).

Lemma check_required_find d ks :
  check_required (JObject d) ks
  = match List.find (λ k, negb (dict_has d k)) ks with
    | Some k => Raised (ValueError ("handoff.json missing required field: " +:+ k))
    | None => Returned ()
    end.
Proof.
  induction ks as [|k ks IH]; [done|].
  cbn [check_required json_contains List.find]. unfold mbind, outcome_bind.
  destruct (dict_has d k); [exact IH|done].
Qed.

Lemma first_missing_none d :
  first_missing d = None ↔ ∀ k, k ∈ required_fields → dict_has d k = true.
Proof.
  unfold first_missing. split.
  - intros Hnone k Hk. apply list_elem_of_In in Hk.
    pose proof (find_none _ _ Hnone k Hk) as Hb. by apply negb_false_iff in Hb.
  - intros Hall. destruct (List.find _ _) as [k|] eqn:E; [|done].
    apply find_some in E as [Hk Hb]. apply list_elem_of_In in Hk.
    rewrite (Hall k Hk) in Hb. done.
Qed.

Lemma first_missing_some d k :
  first_missing d = Some k → k ∈ required_fields ∧ dict_has d k = false.
Proof.
  intros E. apply find_some in E as [Hk Hb].
  split; [by apply list_elem_of_In|by apply negb_true_iff].
Qed.

(** What [load_handoff] does with a file that holds a JSON object. *)
Lemma load_handoff_object h path raw d :
  files h !! path = Some raw →
  json_load lib raw = Some (JObject d) →
  load_handoff lib h path
  = match first_missing d with
    | Some k => Raised (ValueError ("handoff.json missing required field: " +:+ k))
    | None =>
        match dict_get d "file_path" with
        | None => Raised (KeyError "file_path")
        | Some v =>
            if negb (truthy v)
            then Raised (ValueError ("Invalid file_path in handoff.json: " +:+ py_str lib v))
            else match exists_value h v with
                 | Returned true => Returned (JObject d)
                 | Returned false =>
                     Raised (ValueError ("Invalid file_path in handoff.json: "
                                         +:+ py_str lib v))
                 | Raised e => Raised e
                 end
        end
    end.
Proof.
  intros Hraw Hd. unfold load_handoff, os_path_exists, json_load_file.
  rewrite Hraw, Hd. rewrite bool_decide_eq_true_2 by eauto.
  cbn [negb orb]. unfold mbind at 1, outcome_bind at 1. cbv iota beta.
  unfold mbind at 1, outcome_bind at 1.
  rewrite check_required_find. fold (first_missing d).
  destruct (first_missing d) as [k|]; [done|].
  cbn [json_subscript]. destruct (dict_get d "file_path") as [v|]; [|done].
  unfold mbind, outcome_bind.
  destruct (truthy v); cbn [negb]; [|done].
  by destruct (exists_value h v) as [[|]|e].
Qed.

(** [os.path.exists] on a string. *)
Lemma exists_value_string h s :
  exists_value h (JString s)
  = Returned (bool_decide (is_Some (files h !! s) ∨ s ∈ directories h)).
Proof.
  cbn [exists_value]. unfold os_path_exists. f_equal.
  destruct (decide (is_Some (files h !! s))) as [Hf|Hf];
    destruct (decide (s ∈ directories h)) as [Hd|Hd].
  - rewrite !bool_decide_eq_true_2 by tauto. done.
  - rewrite (bool_decide_eq_true_2 (is_Some _)), (bool_decide_eq_true_2 (_ ∨ _)) by tauto. done.
  - rewrite (bool_decide_eq_false_2 (is_Some _)), (bool_decide_eq_true_2 (s ∈ _)),
      (bool_decide_eq_true_2 (_ ∨ _)) by tauto. done.
  - rewrite !bool_decide_eq_false_2 by tauto. done.
Qed.

(** C8. For a handoff file that holds a JSON object: when a required
    field is absent the consumer raises the missing-field error that
    names the first absent field; when all are present but file_path is
    empty or [os.path.exists] does not hold of it, the consumer raises,
    so it does when file_path is a string that names neither a file nor
    a directory; when all are present and file_path is a non-empty
    string that names an existing file or an existing directory, the
    consumer returns the record. *)
Theorem C8_load_handoff_validation (h : host) (path : string)
    (raw : list byte) (d : pydict) :
  files h !! path = Some raw →
  json_load lib raw = Some (JObject d) →
  (∀ k, k ∈ required_fields → dict_has d k = false →
     ∃ k', k' ∈ required_fields ∧ dict_has d k' = false
           ∧ first_missing d = Some k'
           ∧ load_handoff lib h path
             = Raised (ValueError ("handoff.json missing required field: " +:+ k')))
  ∧ ((∀ k, k ∈ required_fields → dict_has d k = true) →
       ∃ v, dict_get d "file_path" = Some v
            ∧ (truthy v = false ∨ exists_value h v ≠ Returned true →
                 ∃ e, load_handoff lib h path = Raised e)
            ∧ (∀ s, v = JString s → files h !! s = None → s ∉ directories h →
                 load_handoff lib h path
                 = Raised (ValueError ("Invalid file_path in handoff.json: "
                                       +:+ py_str lib v)))
            ∧ (truthy v = true → exists_value h v = Returned true →
                 load_handoff lib h path = Returned (JObject d))
            ∧ (∀ s, v = JString s → s ≠ "" →
                 is_Some (files h !! s) ∨ s ∈ directories h →
                 load_handoff lib h path = Returned (JObject d))).
Proof.
  intros Hraw Hd. rewrite (load_handoff_object h path raw d Hraw Hd). split.
  - intros k Hk Hmiss. destruct (first_missing d) as [k'|] eqn:E.
    + destruct (first_missing_some d k' E) as [? ?]. exists k'. auto.
    + rewrite (proj1 (first_missing_none d) E k Hk) in Hmiss. done.
  - intros Hall. rewrite (proj2 (first_missing_none d) Hall).
    assert (dict_has d "file_path" = true) as Hfp.
    { apply Hall. apply elem_of_cons. by left. }
    unfold dict_has in Hfp. destruct (dict_get d "file_path") as [v|]; [|done].
    exists v. split; [done|]. split; [|split; [|split]].
    + intros [Hf|Hex].
      * rewrite Hf. cbn [negb]. eauto.
      * destruct (truthy v); cbn [negb]; [|eauto].
        destruct (exists_value h v) as [[|]|e]; [done|eauto..].
    + intros s -> Hs Hdir. rewrite exists_value_string.
      rewrite bool_decide_eq_false_2
        by (intros [[? Hsome]|?]; [by rewrite Hs in Hsome|done]).
      by destruct (truthy (JString s)).
    + intros Ht Hex. by rewrite Ht, Hex.
    + intros s -> Hs Hex. rewrite exists_value_string.
      rewrite bool_decide_eq_true_2 by done.
      assert (truthy (JString s) = true) as ->; [|done].
      by destruct s.
Qed.

(** C8, as the claim puts it, fails: the test on file_path is
    [os.path.exists], which a directory passes; a complete record whose
    file_path is the sandbox directory is accepted, although no file has
    that name. *)
Lemma C8_counterexample :
  dict_get record_naming_directory "file_path" = Some (JString "sandbox")
  ∧ files (sample_host bytes_complete) !! "sandbox" = None
  ∧ "sandbox" ∈ directories (sample_host bytes_complete)
  ∧ load_handoff directory_lib (sample_host bytes_complete) HANDOFF_PATH
    = Returned (JObject record_naming_directory).
Proof.
  split; [done|]. split; [by vm_compute|]. split; [set_solver|].
  by vm_compute.
Qed.

(** * The command-line flow, phase 2 *)

(** C9. In phase 2 of [main], once the handoff file exists and holds a
    JSON object, the outcome is the outcome of indexing that object:
    nothing in between looks at the required fields or at the file
    behind file_path. So a record without sha256 whose document can be
    indexed is taken on, while [load_handoff] raises a missing-field
    error on the same file. *)
Theorem C9_phase2_skips_validation (ix : indexer) (files0 : filesystem)
    (dirs : gset string) (raw : list byte) (d : pydict) :
  files0 !! HANDOFF_PATH = Some raw →
  json_load lib raw = Some (JObject d) →
  phase2_body lib ix files0 dirs = index_document_from_handoff ix (JObject d)
  ∧ (∀ v, dict_has d "sha256" = false →
          dict_get d "file_path" = Some v →
          build_index ix v = Returned () →
          main_phase2 lib ix files0 dirs = Interactive
          ∧ ∀ h, files h = files0 →
              ∃ k, k ∈ required_fields ∧ dict_has d k = false
                   ∧ load_handoff lib h HANDOFF_PATH
                     = Raised (ValueError ("handoff.json missing required field: " +:+ k))).
Proof.
  intros Hraw Hd.
  assert (phase2_body lib ix files0 dirs = index_document_from_handoff ix (JObject d))
    as Hbody.
  { unfold phase2_body, os_path_exists, json_load_file.
    rewrite Hraw, Hd. by rewrite bool_decide_eq_true_2 by eauto. }
  split; [exact Hbody|].
  intros v Hsha Hfp Hix. split.
  - unfold main_phase2. rewrite Hbody. unfold index_document_from_handoff.
    cbn [json_subscript]. rewrite Hfp. unfold mbind, outcome_bind. by rewrite Hix.
  - intros h Hfiles. subst files0.
    rewrite (load_handoff_object h HANDOFF_PATH raw d Hraw Hd).
    destruct (first_missing d) as [k|] eqn:E.
    + destruct (first_missing_some d k E) as [? ?]. eauto.
    + assert ("sha256" ∈ required_fields) as Hin
        by (unfold required_fields; rewrite !elem_of_cons; auto).
      rewrite (proj1 (first_missing_none d) E _ Hin) in Hsha. done.
Qed.
End consumer.

(** * Time Guard *)

(** ** The attempt never looks at the watchdog *)

Create HintDb agree.

Lemma agree_bind {A B} (m1 m2 : task A) (k1 k2 : A → task B) :
  agree m1 m2 → (∀ a, agree (k1 a) (k2 a)) → agree (m1 ≫= k1) (m2 ≫= k2).
Proof.
  intros Hm Hk w1 w2 Hw. unfold mbind, task_bind.
  destruct (Hm w1 w2 Hw) as [Hr Hv].
  destruct (m1 w1) as [[a1|e1] u1], (m2 w2) as [[a2|e2] u2];
    simpl in Hr, Hv; simplify_eq; [by apply Hk|done].
Qed.

Lemma agree_try_catch {A} (b1 b2 : task A) (h1 h2 : exn → task A) :
  agree b1 b2 → (∀ e, agree (h1 e) (h2 e)) →
  agree (try_catch b1 h1) (try_catch b2 h2).
Proof.
  intros Hb Hh w1 w2 Hw. unfold try_catch.
  destruct (Hb w1 w2 Hw) as [Hr Hv].
  destruct (b1 w1) as [[a1|e1] u1], (b2 w2) as [[a2|e2] u2];
    simpl in Hr, Hv; simplify_eq; [done|by apply Hh].
Qed.

Lemma agree_try_finally {A} (b1 b2 : task A) (c1 c2 : task unit) :
  agree b1 b2 → agree c1 c2 → agree (try_finally b1 c1) (try_finally b2 c2).
Proof.
  intros Hb Hc w1 w2 Hw. unfold try_finally.
  destruct (Hb w1 w2 Hw) as [Hr Hv].
  destruct (b1 w1) as [r1 u1], (b2 w2) as [r2 u2]; simpl in Hr, Hv; subst r2.
  destruct (Hc u1 u2 Hv) as [Hr' Hv'].
  destruct (c1 u1) as [[[]|e1] v1], (c2 u2) as [[[]|e2] v2];
    simpl in Hr', Hv'; simplify_eq; done.
Qed.

(** The primitives agree with themselves; [create_task] does so whatever
    budget the new watchdog is given. *)
Ltac agree_primitive :=
  intros ? ? (? & ? & ? & ? & ?); unfold same_view; simpl;
  unfold suspend, block; simpl;
  rewrite ?length_map, ?length_app; simpl;
  repeat split; congruence.

Lemma agree_ret {A} (a : A) : agree (mret a) (mret a).
Proof. agree_primitive. Qed.
Lemma agree_raise {A} e : agree (raise (A:=A) e) (raise e).
Proof. agree_primitive. Qed.
Lemma agree_lift {A} (r : outcome A) : agree (lift r) (lift r).
Proof. agree_primitive. Qed.
Lemma agree_await {A} (x : timed A) : agree (await x) (await x).
Proof. agree_primitive. Qed.
Lemma agree_blocking {A} n (r : outcome A) : agree (blocking n r) (blocking n r).
Proof. agree_primitive. Qed.
Lemma agree_sleep n : agree (asyncio_sleep n) (asyncio_sleep n).
Proof. agree_primitive. Qed.
Lemma agree_log msg : agree (logger_info msg) (logger_info msg).
Proof. agree_primitive. Qed.
Lemma agree_time : agree time_time time_time.
Proof. agree_primitive. Qed.
Lemma agree_get_fs : agree get_fs get_fs.
Proof. agree_primitive. Qed.
Lemma agree_write path data : agree (write_file path data) (write_file path data).
Proof. agree_primitive. Qed.
Lemma agree_cancel id : agree (task_cancel id) (task_cancel id).
Proof. agree_primitive. Qed.
Lemma agree_create_task start m1 m2 : agree (create_task start m1) (create_task start m2).
Proof. agree_primitive. Qed.

Global Hint Resolve agree_ret agree_raise agree_lift agree_await agree_blocking
  agree_sleep agree_log agree_time agree_get_fs agree_write agree_cancel
  agree_create_task : agree.

(** Follows the shape of a task made of binds, branches and primitives. *)
Ltac agree :=
  repeat first
    [ solve [auto with agree]
    | apply agree_bind; [|intros ?]
    | apply agree_try_catch; [|intros ?]
    | apply agree_try_finally
    | match goal with
      | |- agree (match ?x with _ => _ end) _ => destruct x
      | |- agree (if ?x then _ else _) _ => destruct x
      end ].

Lemma agree_execute_plan env plan : agree (execute_plan env plan) (execute_plan env plan).
Proof. unfold execute_plan, expect_download. agree. Qed.

Lemma agree_acquire lib env : agree (acquire lib env) (acquire lib env).
Proof. unfold acquire. agree. Qed.

Lemma agree_write_handoff lib env url guard d :
  agree (write_handoff lib env url guard d) (write_handoff lib env url guard d).
Proof. unfold write_handoff. agree. Qed.

Lemma agree_on_error env e : agree (on_error env e) (on_error env e).
Proof. unfold on_error, _safe_screenshot, logger_error. agree. Qed.

Global Hint Resolve agree_acquire agree_write_handoff agree_on_error : agree.

(** Whatever budget [run] is given, an attempt ends the same way, with
    the same files, the same clock and the same log: the budget only
    decides what is stored in the watchdog task. *)
Lemma run_once_ignores_max_seconds lib env url (m1 m2 : Z) w :
  (run_once lib env url m1 w).1 = (run_once lib env url m2 w).1
  ∧ same_view (run_once lib env url m1 w).2 (run_once lib env url m2 w).2.
Proof.
  assert (agree (run_once lib env url m1) (run_once lib env url m2)) as Hagree.
  { unfold run_once, attempt_body. agree. }
  apply Hagree. by repeat split.
Qed.

(** C1. The watchdog does not stop an attempt that runs over its budget.
    With a budget of 5 seconds and a navigation step that takes 10, every
    other step working, the attempt returns its record after 29 seconds
    and the handoff file is written; the watchdog task has ended with the
    timeout stored in it, which nothing awaits. *)
Theorem C1_time_guard_does_not_preempt :
  let '(r, w') := run_once sample_lib (working_env 10)
                    "https://drive.google.com/file/d/1" 5 initial_world in
  succeeded r = true
  ∧ clock w' - clock initial_world = 29
  ∧ map g_status (tasks w')
    = [TaskFailed (TimeoutError "Agent A exceeded 10-minute limit (internal guard).")]
  ∧ written w' = ["sandbox/downloads/REPORT.PDF"; "sandbox/handoff.json"].
Proof. vm_compute. repeat split. Qed.

(** * The theorems at sample inputs *)

Lemma C2_witness :
  ¬ keeps_contract sample_lib "Please click the download button."
  ∧ ∃ plan rationale,
      _call_gpt5_mini_plan sample_lib chatty_client empty_page_state 1 = Returned plan
      ∧ plan = [ ("action", JString "REFRESH_AND_RETRY_SELECTORS");
                 ("rationale", JString rationale) ]
      ∧ (rationale = "Invalid action from model; fallback."
         ∨ rationale = "Non-JSON output; fallback.").
Proof.
  assert (¬ keeps_contract sample_lib "Please click the download button.") as Hbad.
  { intros (d & a & Hparse & _). vm_compute in Hparse. discriminate. }
  split; [exact Hbad|].
  apply (C2_contract_violation_gives_fallback sample_lib chatty_client
           empty_page_state 1 "Please click the download button.");
    [reflexivity|exact Hbad].
Defined.

Lemma C10_witness :
  _call_gpt5_mini_plan sample_lib down_client empty_page_state 1
  = Raised (APIError "chat endpoint unavailable").
Proof.
  apply (proj1 (C10_both_channels_raise_propagates sample_lib down_client
                  empty_page_state 1)
           (APIError "responses endpoint unavailable")
           (APIError "chat endpoint unavailable"));
    reflexivity.
Defined.

Lemma C3_witness :
  (3 ≤ 3)%nat
  ∧ ∃ w' evs,
      run 3 sample_lib (λ _, timeout_env) sample_url 600 initial_world
        = Some (Raised (PWTimeoutError
                          "Timeout 60000ms exceeded while waiting for event download"),
                w', evs)
      ∧ attempts_of evs = [1; 2; 3]
      ∧ waits_of evs = [2; 2]
      ∧ clock w' - clock initial_world = 77 + 2 + 77 + 2 + 77
      ∧ controlled (λ n, run_once sample_lib timeout_env sample_url 600)
          1 initial_world
          (Raised (PWTimeoutError
                     "Timeout 60000ms exceeded while waiting for event download"))
          w' evs.
Proof.
  split; [lia|].
  destruct (C3_retry_backoff 3 sample_lib (λ _, timeout_env) sample_url 600
              initial_world ltac:(lia))
    as (r & w' & evs & Hrun & Hc & _ & _ & _ & Hfail & _).
  assert (r = Raised (PWTimeoutError
                        "Timeout 60000ms exceeded while waiting for event download"))
    as ->.
  { pose proof Hrun as Hv. vm_compute in Hv. by injection Hv as <- _ _. }
  exists w', evs. destruct (Hfail _ eq_refl) as (Hatt & Hwaits & _).
  split; [exact Hrun|]. split; [exact Hatt|]. split; [exact Hwaits|].
  split; [|exact Hc].
  pose proof Hrun as Hv. vm_compute in Hv. by injection Hv as <- _.
Defined.

Lemma C4_witness :
  (25 < size (list_to_set (qualifying_labels thirty_buttons) : gset string))%nat
  ∧ length (ps_buttons (_collect_page_state (page_of thirty_buttons))) = 25%nat.
Proof.
  assert (25 < size (list_to_set (qualifying_labels thirty_buttons) : gset string))%nat
    as Hmany by (vm_compute; lia).
  split; [exact Hmany|].
  exact (proj1 (C4_extractor_returns_25_distinct (page_of thirty_buttons)
                  thirty_buttons eq_refl Hmany)).
Defined.

Lemma C5_witness :
  ∃ p w',
    run_once sample_lib (working_env 1) "https://drive.google.com/file/d/1"
      600 initial_world = (Returned p, w')
    ∧ dict_get p "file_name" = Some (JString "REPORT.PDF")
    ∧ Py.endswith (Py.lower "REPORT.PDF") ".pdf" = true.
Proof.
  destruct (run_once sample_lib (working_env 1) "https://drive.google.com/file/d/1"
              600 initial_world) as [[p|e] w'] eqn:Hrun.
  - exists p, w'. split; [reflexivity|].
    destruct (C5_persisted_name_ends_in_pdf _ _ _ _ _ _ _ Hrun)
      as (d & name & Hd & -> & Hname & _ & Hpdf & _).
    injection Hd as <-. split; [exact Hname|exact Hpdf].
  - exfalso. vm_compute in Hrun. discriminate.
Defined.

Lemma C6_witness :
  _sha256_file {[ "sandbox/downloads/abc.pdf" := bytes_of_string "abc" ]}
    "sandbox/downloads/abc.pdf"
  = Returned "ba7816bf8f01cfea414140de5dae2223b00361a396177a9cb410ff61f20015ad".
Proof.
  exact (proj1 (C6_streaming_digest_is_sha256
                  {[ "sandbox/downloads/abc.pdf" := bytes_of_string "abc" ]}
                  "sandbox/downloads/abc.pdf" (bytes_of_string "abc") eq_refl)).
Defined.


Lemma C8_witness :
  load_handoff sample_lib (sample_host bytes_complete) HANDOFF_PATH
  = Returned (JObject record_complete)
  ∧ load_handoff sample_lib (sample_host bytes_without_sha) HANDOFF_PATH
    = Raised (ValueError "handoff.json missing required field: sha256").
Proof.
  split.
  - destruct (C8_load_handoff_validation sample_lib (sample_host bytes_complete)
                HANDOFF_PATH bytes_complete record_complete eq_refl eq_refl)
      as [_ Hok].
    destruct Hok as (v & Hv & _ & _ & Haccept & _).
    { intros k Hk. unfold required_fields in Hk.
      repeat (apply elem_of_cons in Hk as [->|Hk]; [reflexivity|]).
      by apply elem_of_nil in Hk. }
    injection Hv as <-. apply Haccept; reflexivity.
  - destruct (C8_load_handoff_validation sample_lib (sample_host bytes_without_sha)
                HANDOFF_PATH bytes_without_sha record_without_sha eq_refl eq_refl)
      as [Hmiss _].
    destruct (Hmiss "sha256") as (k & _ & _ & Hfirst & Hload).
    { unfold required_fields. rewrite !elem_of_cons. auto. }
    { reflexivity. }
    injection Hfirst as <-. exact Hload.
Defined.

Lemma C9_witness :
  main_phase2 sample_lib sample_indexer (files (sample_host bytes_without_sha))
    (directories (sample_host bytes_without_sha))
  = Interactive
  ∧ ∃ k, load_handoff sample_lib (sample_host bytes_without_sha) HANDOFF_PATH
         = Raised (ValueError ("handoff.json missing required field: " +:+ k)).
Proof.
  destruct (C9_phase2_skips_validation sample_lib sample_indexer
              (files (sample_host bytes_without_sha))
              (directories (sample_host bytes_without_sha)) bytes_without_sha
              record_without_sha eq_refl eq_refl) as [_ Hskip].
  destruct (Hskip (JString "/srv/sandbox/downloads/report.pdf")
              eq_refl eq_refl eq_refl) as [Hmain Hload].
  split; [exact Hmain|].
  destruct (Hload (sample_host bytes_without_sha) eq_refl) as (k & _ & _ & Hk).
  eauto.
Defined.

(** The reference function on published test vectors: the empty message
    and a message of 56 bytes, which takes two blocks. *)
Example sha256_of_empty :
  SHA256.hex (SHA256.sha256 [])
  = "e3b0c44298fc1c149afbf4c8996fb92427ae41e4649b934ca495991b7852b855".
Proof. vm_compute. reflexivity. Qed.

Example sha256_of_two_blocks :
  SHA256.hex (SHA256.sha256
    (bytes_of_string "abcdbcdecdefdefgefghfghighijhijkijkljklmklmnlmnomnopnopq"))
  = "248d6a61d20638b8e5c026930c3e6039a33ce45964ff2167f6ecedd419db06c1".
Proof. vm_compute. reflexivity. Qed.

(** * Further properties of the Page State Extractor *)

Section extractor_more.
Implicit Types (s word : string) (c : ascii).

Lemma lstrip_head s :
  Py.lstrip s = "" ∨ ∃ c r, Py.lstrip s = String c r ∧ Py.isspace c = false.
Proof.
  induction s as [|c s IH]; simpl; [by left|].
  destruct (Py.isspace c) eqn:Hc; [exact IH|]. right. eauto.
Qed.

Lemma rstrip_head c r :
  Py.isspace c = false → ∃ r', Py.rstrip (String c r) = String c r'.
Proof. intros Hc. simpl. rewrite Hc. destruct (Py.rstrip r); eauto. Qed.

Lemma strip_head s :
  Py.strip s = "" ∨ ∃ c r, Py.strip s = String c r ∧ Py.isspace c = false.
Proof.
  unfold Py.strip. destruct (lstrip_head s) as [->|(c & r & -> & Hc)]; [by left|].
  right. destruct (rstrip_head c r Hc) as [r' ->]. eauto.
Qed.

Lemma split_from_nonempty word s : word ≠ "" → Py.split_from word s ≠ [].
Proof.
  revert word. induction s as [|c s IH]; intros word Hw; simpl.
  - by rewrite decide_False.
  - destruct (Py.isspace c); [by rewrite decide_False|].
    apply IH, snoc_nonempty.
Qed.

Lemma split_of_stripped s : Py.strip s ≠ "" → Py.split (Py.strip s) ≠ [].
Proof.
  intros Hne. destruct (strip_head s) as [?|(c & r & -> & Hc)]; [done|].
  unfold Py.split. simpl. rewrite Hc. by apply split_from_nonempty.
Qed.

Lemma join_nonempty ws :
  ws ≠ [] → Forall (λ u, u ≠ "") ws → Py.join " " ws ≠ "".
Proof.
  destruct ws as [|u ws]; [done|]. intros _ Hall.
  apply Forall_cons in Hall as [Hu _]. destruct u as [|c u]; [done|].
  destruct ws; simpl; [done|]. by rewrite append_cons.
Qed.

Lemma slice_to_nonempty n s : (0 < n)%nat → s ≠ "" → Py.slice_to n s ≠ "".
Proof. destruct n, s; simpl; (lia || done). Qed.

Lemma normalised_nonempty s :
  Py.strip s ≠ "" →
  Py.slice_to 80 (Py.join " " (Py.split (Py.strip s))) ≠ "".
Proof.
  intros Hne. apply slice_to_nonempty; [lia|].
  apply join_nonempty; [by apply split_of_stripped|].
  eapply Forall_impl; [by apply split_from_words|]. by intros u [_ ?].
Qed.

Lemma str_or_cases a b :
  (Py.str_or a b = a ∧ a ≠ "") ∨ (Py.str_or a b = b ∧ a = "").
Proof. unfold Py.str_or, Py.truthy_str. case_decide; auto. Qed.

Lemma element_label_nonempty el label : element_label el = Some label → label ≠ "".
Proof.
  unfold element_label.
  destruct (is_visible el) as [[|]|]; try discriminate.
  destruct (inner_text el) as [t|]; try discriminate.
  destruct (get_attribute_aria_label el) as [a|]; try discriminate.
  set (aria := match a with Some s => Py.str_or s "" | None => "" end).
  set (txt := Py.str_or t "").
  unfold Py.truthy_str. case_decide as Hcand; [discriminate|].
  intros Heq. apply (inj Some) in Heq. subst label.
  destruct (str_or_cases (Py.strip aria) (Py.strip txt)) as [[Hc Hne]|[Hc _]];
    rewrite Hc in Hcand |- *; by apply normalised_nonempty.
Qed.

(** An element that is not visible, or for which one of the three
    queries raises, yields no label. *)
Lemma element_label_none el :
  is_visible el ≠ Returned true
  ∨ (∃ e, inner_text el = Raised e)
  ∨ (∃ e, get_attribute_aria_label el = Raised e) →
  element_label el = None.
Proof.
  unfold element_label. intros [Hv|[[e He]|[e He]]].
  - by destruct (is_visible el) as [[|]|].
  - rewrite He. by destruct (is_visible el) as [[|]|].
  - rewrite He. destruct (is_visible el) as [[|]|]; [|done..].
    by destruct (inner_text el).
Qed.
End extractor_more.

(** X1. Whatever the page answers, also when counting the candidates
    raises, the extractor returns at most 25 labels, no label twice, and
    every label is non-empty, at most 80 characters long and
    whitespace-collapsed. *)
Theorem X1_page_state_is_bounded (pg : page) :
  let buttons := ps_buttons (_collect_page_state pg) in
  (length buttons ≤ 25)%nat
  ∧ NoDup buttons
  ∧ Forall (λ label,
      label ≠ "" ∧ (String.length label ≤ 80)%nat ∧ collapsed label = true) buttons.
Proof.
  simpl. destruct (locator_all pg) as [els|e] eqn:Hels.
  2:{ unfold collect_buttons. rewrite Hels. split; [simpl; lia|].
      split; constructor. }
  rewrite (collect_buttons_first_seen pg els Hels).
  split; [rewrite length_take; lia|]. split.
  - eapply sublist_NoDup; [apply NoDup_first_seen|apply sublist_take].
  - apply Forall_forall. intros label Hin.
    apply (elem_of_take label 25) in Hin as (j & Hj & _).
    apply list_elem_of_lookup_2 in Hj.
    apply (proj1 (elem_of_first_seen _ _)) in Hj. unfold qualifying_labels in Hj.
    apply (proj1 (list_elem_of_omap _ _ _)) in Hj as (el & _ & Hlabel).
    destruct (element_label_shape el label Hlabel) as (_ & Hlen & Hcol & _).
    split; [by eapply element_label_nonempty|done].
Qed.

(** X2. One bad element cannot spoil the scan: when the page has at most
    40 candidates and one of them is not visible or makes a query raise,
    the labels returned are those of the page without that element. *)
Theorem X2_bad_element_is_skipped (pg pg' : page) (before after : list element)
    (bad : element) :
  locator_all pg = Returned (before ++ bad :: after)%list →
  locator_all pg' = Returned (before ++ after)%list →
  (length (before ++ bad :: after)%list ≤ 40)%nat →
  is_visible bad ≠ Returned true
  ∨ (∃ e, inner_text bad = Raised e)
  ∨ (∃ e, get_attribute_aria_label bad = Raised e) →
  ps_buttons (_collect_page_state pg) = ps_buttons (_collect_page_state pg').
Proof.
  intros Hpg Hpg' Hlen Hbad. simpl.
  rewrite (collect_buttons_first_seen pg _ Hpg), (collect_buttons_first_seen pg' _ Hpg').
  assert (length (before ++ after) ≤ 40)%nat as Hlen'.
  { rewrite length_app in *. simpl in Hlen. lia. }
  unfold qualifying_labels. rewrite (take_ge _ _ Hlen), (take_ge _ _ Hlen').
  rewrite !omap_app. simpl. by rewrite (element_label_none bad Hbad).
Qed.

(** X3. Candidates after the fortieth are never looked at: two pages
    whose first 40 candidates are the same give the same labels. *)
Theorem X3_only_first_40_candidates_count (pg pg' : page) (els els' : list element) :
  locator_all pg = Returned els →
  locator_all pg' = Returned els' →
  take 40 els = take 40 els' →
  ps_buttons (_collect_page_state pg) = ps_buttons (_collect_page_state pg').
Proof.
  intros Hpg Hpg' Hsame. simpl.
  rewrite (collect_buttons_first_seen pg _ Hpg), (collect_buttons_first_seen pg' _ Hpg').
  unfold qualifying_labels. by rewrite Hsame.
Qed.

(** * Further properties of the Planner Oracle Adapter *)

(** X4. Whatever the oracle answers, a plan the adapter returns carries
    an [action] that is one of the five allowed names. *)
Theorem X4_returned_action_is_allowed (lib : library) (client : openai_client)
    (page_state : page_state) (attempt : Z) (plan : pydict) :
  _call_gpt5_mini_plan lib client page_state attempt = Returned plan →
  ∃ a, dict_get plan "action" = Some (JString a) ∧ a ∈ allowed_actions.
Proof.
  unfold _call_gpt5_mini_plan.
  destruct (request_plan_text client _) as [text|e]; simpl; [|discriminate].
  intros Heq. injection Heq as <-.
  destruct (decode_plan_cases lib text) as [->|[->|(d & _ & -> & Hin)]].
  - exists "REFRESH_AND_RETRY_SELECTORS". split; [done|].
    unfold allowed_actions. rewrite !elem_of_cons. auto.
  - exists "REFRESH_AND_RETRY_SELECTORS". split; [done|].
    unfold allowed_actions. rewrite !elem_of_cons. auto.
  - by apply json_in_strs_true.
Qed.

(** X5. When the Responses channel raises and the chat channel answers
    with a message without content, the adapter raises AttributeError: the
    fallback plan is not returned. *)
Theorem X5_empty_chat_message_raises (lib : library) (client : openai_client)
    (page_state : page_state) (attempt : Z) (e : exn) :
  responses_create client
    {| req_attempt := attempt; req_page_state := page_state;
       req_allowed_actions := allowed_actions |} = Raised e →
  chat_completions_create client
    {| req_attempt := attempt; req_page_state := page_state;
       req_allowed_actions := allowed_actions |} = Returned None →
  _call_gpt5_mini_plan lib client page_state attempt
  = Raised (AttributeError "'NoneType' object has no attribute 'strip'").
Proof.
  intros H1 H2. unfold _call_gpt5_mini_plan, request_plan_text. by rewrite H1, H2.
Qed.

(** X6. When the Responses channel answers, the chat channel plays no
    part; and when the answer, leading and trailing whitespace removed,
    parses as an object whose action is allowed, the adapter returns that
    very object, with all its other keys and whether or not it has a
    rationale. *)
Theorem X6_valid_plan_is_passed_verbatim (lib : library) (client : openai_client)
    (page_state : page_state) (attempt : Z) (out : string) (d : pydict) (a : string) :
  responses_create client
    {| req_attempt := attempt; req_page_state := page_state;
       req_allowed_actions := allowed_actions |} = Returned out →
  json_loads lib (Py.strip out) = Some (JObject d) →
  dict_get d "action" = Some (JString a) →
  a ∈ allowed_actions →
  _call_gpt5_mini_plan lib client page_state attempt = Returned d.
Proof.
  intros H1 Hd Ha Hin. unfold _call_gpt5_mini_plan, request_plan_text.
  rewrite H1. simpl. by rewrite (decode_plan_valid lib _ d a Hd Ha Hin).
Qed.

(** * Further properties of an attempt *)

(** The [except] clause always ends by re-raising what it caught. *)
Lemma on_error_raises env e w : (on_error env e w).1 = Raised e.
Proof.
  cbv [on_error _safe_screenshot mbind task_bind logger_error logger_info
       try_catch await write_file mret task_ret raise].
  by destruct (result (screenshot env)) as [[]|].
Qed.

(** The files after the [except] clause. *)
Lemma on_error_files env e w :
  match result (screenshot env) with
  | Returned _ =>
      fs (on_error env e w).2 = <[error_screenshot_path env := screenshot_png env]> (fs w)
      ∧ written (on_error env e w).2 = (written w ++ [error_screenshot_path env])%list
  | Raised _ =>
      fs (on_error env e w).2 = fs w ∧ written (on_error env e w).2 = written w
  end.
Proof.
  cbv [on_error _safe_screenshot mbind task_bind logger_error logger_info
       try_catch await write_file mret task_ret raise].
  by destruct (result (screenshot env)) as [[]|].
Qed.

(** [run_once] in terms of its [try] body: the [finally] clause closes
    the browser, and what closing raises replaces the outcome. *)
Lemma run_once_unfold lib env url max_seconds w :
  run_once lib env url max_seconds w
  = match result (launch env) with
    | Raised e => (Raised e, after_launch env w)
    | Returned _ =>
        match attempt_body lib env url (clock w) max_seconds (after_launch env w) with
        | (Returned p, w2) =>
            (match result (close env) with
             | Returned _ => Returned p
             | Raised e' => Raised e'
             end, suspend (secs (close env)) w2)
        | (Raised e, w2) =>
            (match result (close env) with
             | Returned _ => Raised e
             | Raised e' => Raised e'
             end, suspend (secs (close env)) (on_error env e w2).2)
        end
    end.
Proof.
  cbv [run_once mbind task_bind time_time await try_finally try_catch].
  fold (after_launch env w).
  change (logger_info "Agent A start" w) with
    (Returned (), (logger_info "Agent A start" w).2). cbv iota beta.
  fold (after_launch env w).
  destruct (result (launch env)) as [[]|e]; [|done].
  destruct (attempt_body lib env url (clock w) max_seconds (after_launch env w))
    as [[p|e] w2].
  - by destruct (result (close env)) as [[]|e'].
  - pose proof (on_error_raises env e w2) as Hr.
    destruct (on_error env e w2) as [r w3]. simpl in Hr. subst r.
    by destruct (result (close env)) as [[]|e'].
Qed.

(** X7. Failure forensics never change how an attempt ends: once the
    browser is launched, and when [browser.close()] returns, the attempt
    returns what the body of its [try] returns and raises what that body
    raises, also when taking the screenshot fails. When
    [browser.close()] raises, the attempt raises that exception,
    whatever the body of the [try] did. *)
Theorem X7_attempt_outcome_is_body_outcome (lib : library) (env : attempt_env)
    (url : string) (max_seconds : Z) (w : world) :
  result (launch env) = Returned () →
  (run_once lib env url max_seconds w).1
  = match result (close env) with
    | Returned _ =>
        (attempt_body lib env url (clock w) max_seconds (after_launch env w)).1
    | Raised e => Raised e
    end.
Proof.
  intros Hlaunch. rewrite run_once_unfold, Hlaunch.
  destruct (attempt_body _ _ _ _ _ _) as [[p|e] w2];
    by destruct (result (close env)) as [[]|e'].
Qed.

(** X8. A failed attempt leaves a screenshot when one can be taken: if
    the body of the [try] raises and [page.screenshot] succeeds, the
    image is the last file written and lies at
    sandbox/screenshots/agent_a_error_<stamp>.png; if the screenshot
    raises, the failure path writes no file. A failure to launch the
    browser leaves no screenshot either. *)
Theorem X8_screenshot_on_failure (lib : library) (env : attempt_env)
    (url : string) (max_seconds : Z) (w : world) :
  let w' := (run_once lib env url max_seconds w).2 in
  (∀ e, result (launch env) = Raised e →
        fs w' = fs w ∧ written w' = written w)
  ∧ (∀ e w2,
       result (launch env) = Returned () →
       attempt_body lib env url (clock w) max_seconds (after_launch env w)
         = (Raised e, w2) →
       (result (screenshot env) = Returned () →
          fs w' !! error_screenshot_path env = Some (screenshot_png env)
          ∧ written w' = (written w2 ++ [error_screenshot_path env])%list)
       ∧ (∀ e', result (screenshot env) = Raised e' →
            fs w' = fs w2 ∧ written w' = written w2)).
Proof.
  simpl. rewrite run_once_unfold. split.
  - intros e ->. done.
  - intros e w2 -> ->. pose proof (on_error_files env e w2) as Hf. simpl. split.
    + intros Hshot. rewrite Hshot in Hf. destruct Hf as [-> ->].
      by rewrite lookup_insert_eq.
    + intros e' Hshot. by rewrite Hshot in Hf.
Qed.

(** X9. The action dispatch never returns without a download: when
    [execute_plan] returns, what it returns is the download object of
    the download event, so the check for a missing download object that
    follows it in [run] never fires. *)
Theorem X9_dispatch_returns_the_download (env : attempt_env) (plan : pydict)
    (w w' : world) (dl : option download) :
  execute_plan env plan w = (Returned dl, w') →
  ∃ d, dl = Some d ∧ result (download_event env) = Returned d.
Proof.
  intros Hrun. destruct (quiet_execute_plan env plan w) as [_ Hv].
  apply Hv. by rewrite Hrun.
Qed.

Lemma acquire_gives_up lib env w plan :
  result (goto env) = Returned () →
  _call_gpt5_mini_plan lib (client env) (_collect_page_state (the_page env)) 1
    = Returned plan →
  dict_get plan "action" = Some (JString "FAIL_GIVE_UP") →
  (acquire lib env w).1 = Raised (RuntimeError "Planner chose FAIL_GIVE_UP.").
Proof.
  intros Hgoto Hplan Haction.
  cbv [acquire mbind task_bind logger_info await asyncio_sleep blocking].
  cbn [result secs]. rewrite Hgoto, Hplan. cbv iota beta. by rewrite give_up_fails.
Qed.

Lemma run_once_gives_up lib env url max_seconds w plan :
  result (launch env) = Returned () →
  result (goto env) = Returned () →
  result (close env) = Returned () →
  _call_gpt5_mini_plan lib (client env) (_collect_page_state (the_page env)) 1
    = Returned plan →
  dict_get plan "action" = Some (JString "FAIL_GIVE_UP") →
  (run_once lib env url max_seconds w).1
  = Raised (RuntimeError "Planner chose FAIL_GIVE_UP.").
Proof.
  intros Hlaunch Hgoto Hclose Hplan Haction.
  rewrite run_once_unfold, Hlaunch, Hclose.
  cbv [attempt_body mbind task_bind create_task].
  match goal with |- context [acquire lib env ?w1] =>
    pose proof (acquire_gives_up lib env w1 plan Hgoto Hplan Haction) as Hacq;
    destruct (acquire lib env w1) as [r w2] end.
  simpl in Hacq. by subst r.
Qed.

(** X10. When the oracle picks FAIL_GIVE_UP in every attempt (browser
    launch, navigation and [browser.close()] working), the run makes
    three attempts, each of which ends with the RuntimeError of the
    give-up branch; the second attempt starts 2 seconds after the first
    has ended and the third 2 seconds after the second has ended; the
    run ends with the RuntimeError of the third attempt and leaves the
    handoff location alone. *)
Theorem X10_give_up_exhausts_the_retries (fuel : nat) (lib : library)
    (envs : Z → attempt_env) (url : string) (max_seconds : Z) (w : world) :
  (3 ≤ fuel)%nat →
  (∀ n, result (launch (envs n)) = Returned ()
        ∧ result (goto (envs n)) = Returned ()
        ∧ result (close (envs n)) = Returned ()
        ∧ ∃ plan,
            _call_gpt5_mini_plan lib (client (envs n))
              (_collect_page_state (the_page (envs n))) 1 = Returned plan
            ∧ dict_get plan "action" = Some (JString "FAIL_GIVE_UP")) →
  ∃ w1 s2 w2 s3 w',
    run fuel lib envs url max_seconds w
    = Some (Raised (RuntimeError "Planner chose FAIL_GIVE_UP."), w',
            [Attempted 1; Waited 2; Attempted 2; Waited 2; Attempted 3])
    ∧ run_once lib (envs 1) url max_seconds w
      = (Raised (RuntimeError "Planner chose FAIL_GIVE_UP."), w1)
    ∧ resumed_after 2 w1 s2
    ∧ run_once lib (envs 2) url max_seconds s2
      = (Raised (RuntimeError "Planner chose FAIL_GIVE_UP."), w2)
    ∧ resumed_after 2 w2 s3
    ∧ run_once lib (envs 3) url max_seconds s3
      = (Raised (RuntimeError "Planner chose FAIL_GIVE_UP."), w')
    ∧ handoff_untouched w w'.
Proof.
  intros Hfuel Henv.
  assert (Hfail : ∀ n w0,
            (run_once lib (envs n) url max_seconds w0).1
            = Raised (RuntimeError "Planner chose FAIL_GIVE_UP.")).
  { intros n w0. destruct (Henv n) as (Hl & Hg & Hc & plan & Hp & Ha).
    by eapply run_once_gives_up. }
  assert (Hclose : ∀ n, result (close (envs n)) = Returned ()).
  { intros n. by destruct (Henv n) as (_ & _ & Hc & _). }
  destruct (run_spec fuel lib envs url max_seconds w Hfuel Hclose)
    as (r' & w'' & evs' & Hrun' & Hr').
  pose proof Hrun' as Hrun. unfold run in Hrun.
  destruct (retrying_shapes (λ n, run_once lib (envs n) url max_seconds) fuel w Hfuel)
    as (r & w' & evs & Hshape_run & Hshape).
  rewrite Hshape_run in Hrun. injection Hrun as <- <- <-.
  destruct Hshape as [(a & H1 & _)|[(e1 & w1 & a & _ & H2 & _)
                     |(e1 & w1 & e2 & w2 & H1 & H2 & H3 & ->)]].
  - pose proof (Hfail 1 w) as Hf. rewrite H1 in Hf. discriminate.
  - pose proof (Hfail 2 (pause 2 w1)) as Hf. rewrite H2 in Hf. discriminate.
  - pose proof (Hfail 1 w) as Hf1. rewrite H1 in Hf1. simpl in Hf1.
    pose proof (Hfail 2 (pause 2 w1)) as Hf2. rewrite H2 in Hf2. simpl in Hf2.
    pose proof (Hfail 3 (pause 2 w2)) as Hf3. rewrite H3 in Hf3. simpl in Hf3.
    injection Hf1 as ->. injection Hf2 as ->. subst r.
    exists w1, (pause 2 w1), w2, (pause 2 w2), w'.
    split; [exact Hrun'|]. split; [exact H1|]. split; [apply pause_resumed|].
    split; [exact H2|]. split; [apply pause_resumed|]. split; [exact H3|exact Hr'].
Qed.

Lemma retrying_ext {A} (fn1 fn2 : Z → task A) fuel stop wait n w :
  (∀ k u, fn1 k u = fn2 k u) →
  retrying fuel stop wait fn1 n w = retrying fuel stop wait fn2 n w.
Proof.
  intros Hext. revert n w. induction fuel as [|fuel IH]; intros n w; [done|].
  simpl. rewrite Hext. destruct (fn2 n w) as [[a|e] w1]; [done|].
  destruct (stop n); [done|]. by rewrite IH.
Qed.

(** X11. The oracle is never told which attempt is under way: every
    request carries attempt number 1. Two oracle clients that answer
    alike to requests with attempt number 1 therefore give the same run,
    however they answer to other attempt numbers. *)
Theorem X11_oracle_always_asked_with_attempt_1 (fuel : nat) (lib : library)
    (envs : Z → attempt_env) (c1 c2 : openai_client) (url : string)
    (max_seconds : Z) (w : world) :
  (∀ r, req_attempt r = 1 →
        responses_create c1 r = responses_create c2 r
        ∧ chat_completions_create c1 r = chat_completions_create c2 r) →
  run fuel lib (λ n, with_client (envs n) c1) url max_seconds w
  = run fuel lib (λ n, with_client (envs n) c2) url max_seconds w.
Proof.
  intros Hsame. unfold run. apply retrying_ext. intros k u.
  assert (Hplan : ∀ ps, _call_gpt5_mini_plan lib c1 ps 1 = _call_gpt5_mini_plan lib c2 ps 1).
  { intros ps. unfold _call_gpt5_mini_plan, request_plan_text.
    destruct (Hsame {| req_attempt := 1; req_page_state := ps;
                       req_allowed_actions := allowed_actions |} eq_refl) as [-> ->].
    done. }
  assert (Hacq : ∀ u0, acquire lib (with_client (envs k) c1) u0
                       = acquire lib (with_client (envs k) c2) u0).
  { intros u0.
    cbv [acquire mbind task_bind logger_info await asyncio_sleep blocking].
    cbn [result secs with_client goto the_page client collect_secs plan_secs].
    destruct (result (goto (envs k))) as [[]|e]; [|done].
    rewrite Hplan. by destruct (_call_gpt5_mini_plan lib c2 _ 1). }
  assert (Hbody : ∀ start u0,
            attempt_body lib (with_client (envs k) c1) url start max_seconds u0
            = attempt_body lib (with_client (envs k) c2) url start max_seconds u0).
  { intros start u0. cbv [attempt_body mbind task_bind create_task].
    rewrite Hacq. by destruct (acquire _ _ _) as [[[d|]|e] u1]. }
  rewrite !run_once_unfold. cbn [with_client launch close].
  destruct (result (launch (envs k))) as [[]|e]; [|done].
  change (after_launch (with_client (envs k) c1) u) with (after_launch (envs k) u).
  change (after_launch (with_client (envs k) c2) u) with (after_launch (envs k) u).
  rewrite Hbody. by destruct (attempt_body _ _ _ _ _ _) as [[p|e] u1].
Qed.

(** * What a successful attempt records *)

Lemma sha256_file_digest (files : filesystem) path data :
  files !! path = Some data →
  _sha256_file files path = Returned (SHA256.hex (SHA256.sha256 data)).
Proof.
  intros Hf. unfold _sha256_file. rewrite Hf. f_equal.
  rewrite new_fed, read_loop_fed by (apply CHUNK_SIZE_pos || lia).
  unfold SHA256.hexdigest. by rewrite digest_fed.
Qed.

Lemma write_handoff_returns lib env url guard d w p w' :
  write_handoff lib env url guard d w = (Returned p, w') →
  p = asdict
        {| status := "success";
           file_path := os_path_abspath lib (save_path_of d);
           file_name := persisted_name (suggested_filename d);
           source_url := url;
           sha256 := SHA256.hex (SHA256.sha256 (content d));
           bytes := Z.of_nat (length (content d));
           downloaded_at_iso := isoformat_now env;
           notes := "Downloaded via Playwright browser flow (no Google Drive API). Planner used gpt-5-mini.";
           extra := [ ("executor", JString "playwright-chromium");
                      ("reasoner", JString "gpt-5-mini") ] |}
  ∧ fs w' = <[HANDOFF_PATH := json_dump lib (JObject p)]>
              (<[save_path_of d := content d]> (fs w)).
Proof.
  cbv [write_handoff mbind task_bind mret task_ret logger_info await write_file
       get_fs lift task_cancel suspend].
  cbn [fs written clock tasks log]. fold (save_path_of d).
  destruct (result (save_as d)) as [[]|e]; [|discriminate].
  rewrite getsize_insert.
  rewrite (sha256_file_digest _ (save_path_of d) (content d))
    by apply lookup_insert_eq.
  intros Heq. injection Heq as <- <-. done.
Qed.

Lemma attempt_body_returns lib env url start max_seconds w p w' :
  attempt_body lib env url start max_seconds w = (Returned p, w') →
  ∃ d guard w1,
    result (download_event env) = Returned d
    ∧ handoff_untouched w w1
    ∧ write_handoff lib env url guard d w1 = (Returned p, w').
Proof.
  cbv [attempt_body mbind task_bind create_task].
  match goal with |- context [acquire lib env ?u] =>
    set (w0 := u); destruct (quiet_acquire lib env w0) as [Hu Hv];
    destruct (acquire lib env w0) as [[dl|e] w1] end; [|discriminate].
  destruct (Hv dl eq_refl) as (d & -> & Hd). simpl in Hu.
  intros Hw. exists d, (length (tasks w)), w1. split; [done|]. split; [|done].
  eapply untouched_trans; [|exact Hu]. by apply untouched_same.
Qed.

Lemma run_once_returns lib env url max_seconds w p w' :
  run_once lib env url max_seconds w = (Returned p, w') →
  ∃ d guard w1 w2,
    result (download_event env) = Returned d
    ∧ write_handoff lib env url guard d w1 = (Returned p, w2)
    ∧ fs w' = fs w2.
Proof.
  rewrite run_once_unfold.
  destruct (result (launch env)) as [[]|e]; [|discriminate].
  destruct (attempt_body _ _ _ _ _ _) as [[p'|e] w2] eqn:Hbody;
    destruct (result (close env)) as [[]|e']; try discriminate.
  intros Heq. injection Heq as <- <-.
  destruct (attempt_body_returns _ _ _ _ _ _ _ _ Hbody) as (d & guard & w1 & Hd & _ & Hw).
  exists d, guard, w1, w2. done.
Qed.

(** X12. The record of a successful attempt describes the file that was
    saved: the file under the downloads directory holds the downloaded
    bytes, and the record gives its absolute path, the SHA-256 of those
    bytes in hexadecimal, their number, the URL the attempt was given and
    the time stamp taken after saving. *)
Theorem X12_record_describes_saved_file (lib : library) (env : attempt_env)
    (url : string) (max_seconds : Z) (w w' : world) (p : pydict) :
  run_once lib env url max_seconds w = (Returned p, w') →
  ∃ d,
    result (download_event env) = Returned d
    ∧ fs w' !! save_path_of d = Some (content d)
    ∧ dict_get p "file_path" = Some (JString (os_path_abspath lib (save_path_of d)))
    ∧ dict_get p "sha256" = Some (JString (SHA256.hex (SHA256.sha256 (content d))))
    ∧ dict_get p "bytes" = Some (JInt (Z.of_nat (length (content d))))
    ∧ dict_get p "source_url" = Some (JString url)
    ∧ dict_get p "downloaded_at_iso" = Some (JString (isoformat_now env)).
Proof.
  intros Hrun.
  destruct (run_once_returns _ _ _ _ _ _ _ Hrun) as (d & guard & w1 & w2 & Hd & Hw & Hfs).
  destruct (write_handoff_returns _ _ _ _ _ _ _ _ Hw) as [-> Hfs2].
  exists d. split; [done|]. split; [|done].
  rewrite Hfs, Hfs2.
  rewrite lookup_insert_ne
    by (intros Heq; by apply (downloads_path_not_handoff _ (eq_sym Heq))).
  apply lookup_insert_eq.
Qed.

(** X13. What the acquisition agent writes, the consumer accepts: after
    a successful attempt, on a machine that sees the handoff file, on
    which the absolute path of the saved file names an existing file, and
    with a JSON library that reads back the record it wrote,
    [load_handoff] returns the record of the attempt. *)
Theorem X13_consumer_accepts_written_record (lib : library) (env : attempt_env)
    (url : string) (max_seconds : Z) (w w' : world) (p : pydict) (h : host) :
  run_once lib env url max_seconds w = (Returned p, w') →
  json_load lib (json_dump lib (JObject p)) = Some (JObject p) →
  files h !! HANDOFF_PATH = fs w' !! HANDOFF_PATH →
  (∀ d, result (download_event env) = Returned d →
        os_path_abspath lib (save_path_of d) ≠ ""
        ∧ is_Some (files h !! os_path_abspath lib (save_path_of d))) →
  load_handoff lib h HANDOFF_PATH = Returned (JObject p).
Proof.
  intros Hrun Hjson Hsee Habs.
  destruct (run_once_returns _ _ _ _ _ _ _ Hrun) as (d & guard & w1 & w2 & Hd & Hw & Hfs).
  destruct (write_handoff_returns _ _ _ _ _ _ _ _ Hw) as [Hp Hfs2].
  destruct (Habs d Hd) as [Hne Hex].
  assert (files h !! HANDOFF_PATH = Some (json_dump lib (JObject p))) as Hfile.
  { by rewrite Hsee, Hfs, Hfs2, lookup_insert_eq. }
  rewrite (load_handoff_object lib h HANDOFF_PATH _ p Hfile Hjson).
  subst p.
  change (first_missing _) with (@None string).
  change (dict_get _ "file_path")
    with (Some (JString (os_path_abspath lib (save_path_of d)))).
  cbn [truthy]. unfold Py.truthy_str. rewrite decide_False by done. cbn [negb].
  cbn [exists_value]. unfold os_path_exists. by rewrite bool_decide_eq_true_2.
Qed.

(** * Further properties of the handoff consumer *)

Lemma check_required_outcome data ks :
  check_required data ks = Returned () ∨ ∃ e, check_required data ks = Raised e.
Proof. destruct (check_required data ks) as [[]|e]; eauto. Qed.

(** A value that is not an object is never accepted. *)
Lemma non_object_is_rejected lib h data :
  (∀ d, data ≠ JObject d) →
  ∃ e,
    (check_required data required_fields;;
     file_path ← json_subscript data "file_path";
     there ← (if negb (truthy file_path) then Returned false else exists_value h file_path);
     if negb there
     then Raised (ValueError ("Invalid file_path in handoff.json: " +:+ py_str lib file_path))
     else Returned data) = Raised e.
Proof.
  intros Hno. unfold mbind at 1, outcome_bind at 1.
  destruct (check_required_outcome data required_fields) as [->|[e ->]]; [|eauto].
  destruct data; try (by eexists); by destruct (Hno fields).
Qed.

Lemma load_handoff_sound (lib : library) (h : host) (path : string) (data : json) :
  load_handoff lib h path = Returned data →
  ∃ raw d v,
    files h !! path = Some raw
    ∧ json_load lib raw = Some data
    ∧ data = JObject d
    ∧ (∀ k, k ∈ required_fields → dict_has d k = true)
    ∧ dict_get d "file_path" = Some v
    ∧ truthy v = true
    ∧ exists_value h v = Returned true.
Proof.
  intros Hload. pose proof Hload as Hload0. revert Hload.
  unfold load_handoff, os_path_exists, json_load_file.
  destruct (files h !! path) as [raw|] eqn:Hraw.
  2:{ rewrite bool_decide_eq_false_2 by (by intros [??]).
      by destruct (bool_decide (path ∈ directories h)). }
  rewrite bool_decide_eq_true_2 by eauto. cbn [negb orb].
  destruct (json_load lib raw) as [data'|] eqn:Hjson; [|discriminate].
  unfold mbind at 1, outcome_bind at 1. cbv iota beta.
  assert ((∃ d, data' = JObject d) ∨ ∀ d, data' ≠ JObject d) as [[d ->]|Hno]
    by (destruct data'; eauto).
  - intros _. rewrite (load_handoff_object lib h path raw d Hraw Hjson) in Hload0.
    destruct (first_missing d) eqn:Hmiss; [discriminate|].
    destruct (dict_get d "file_path") as [v|] eqn:Hv; [|discriminate].
    destruct (truthy v) eqn:Ht; [|discriminate]. cbn [negb] in Hload0.
    destruct (exists_value h v) as [[|]|] eqn:Hex; try discriminate.
    injection Hload0 as <-. exists raw, d, v.
    repeat split; try done. by apply first_missing_none.
  - destruct (non_object_is_rejected lib h data' Hno) as [e ->]. discriminate.
Qed.

(** X14. [load_handoff] returns nothing but validated records: whatever
    the handoff file holds, if [load_handoff] returns, then the handoff
    path names a regular file, it parses as a JSON object, which is what
    is returned, the object has the six required fields, and its
    file_path is truthy and passes [os.path.exists]: when it is a
    string, it is non-empty and names an existing file or an existing
    directory. *)
Theorem X14_load_handoff_returns_only_valid_records (lib : library) (h : host)
    (path : string) (data : json) :
  load_handoff lib h path = Returned data →
  ∃ raw d v,
    files h !! path = Some raw
    ∧ json_load lib raw = Some data
    ∧ data = JObject d
    ∧ (∀ k, k ∈ required_fields → dict_has d k = true)
    ∧ dict_get d "file_path" = Some v
    ∧ truthy v = true
    ∧ exists_value h v = Returned true
    ∧ (∀ s, v = JString s →
         s ≠ "" ∧ (is_Some (files h !! s) ∨ s ∈ directories h)).
Proof.
  intros Hload.
  destruct (load_handoff_sound lib h path data Hload)
    as (raw & d & v & Hraw & Hjson & Hd & Hall & Hv & Ht & Hex).
  exists raw, d, v. repeat (split; [done|]).
  intros s ->. split.
  - intros ->. discriminate.
  - cbn [exists_value] in Hex. unfold os_path_exists in Hex.
    injection Hex as Hex. apply orb_true_iff in Hex as [Hex|Hex].
    + left. by apply bool_decide_eq_true_1 in Hex.
    + right. by apply bool_decide_eq_true_1 in Hex.
Qed.

(** X15. The stand-alone command line of the consumer indexes validated
    records only: if its set-up returns, [load_handoff] has accepted the
    record and the indexer was given the record's file_path; if
    [load_handoff] raises, the set-up raises the same exception whatever
    the indexer would do. *)
Theorem X15_run_cli_validates_before_indexing (lib : library) (h : host)
    (ix : indexer) :
  (run_cli_setup lib h ix = Returned () →
     ∃ d v, load_handoff lib h HANDOFF_PATH = Returned (JObject d)
            ∧ dict_get d "file_path" = Some v
            ∧ build_index ix v = Returned ())
  ∧ (∀ e, load_handoff lib h HANDOFF_PATH = Raised e →
          run_cli_setup lib h ix = Raised e).
Proof.
  unfold run_cli_setup. split.
  - destruct (load_handoff lib h HANDOFF_PATH) as [data|e] eqn:Hload; [|discriminate].
    destruct (load_handoff_sound lib h _ _ Hload)
      as (raw & d & v & _ & _ & -> & _ & Hv & _).
    unfold mbind, outcome_bind, index_document_from_handoff. cbn [json_subscript].
    rewrite Hv. unfold mbind, outcome_bind.
    destruct (build_index ix v) as [[]|] eqn:Hix; [|discriminate]. eauto.
  - by intros e ->.
Qed.

(** X16. Phase 2 of [main] reaches the question loop only when the
    handoff file exists, parses as a JSON object that has a file_path,
    and the indexer returns on that file_path; in every other case the
    process exits with code 1. *)
Theorem X16_phase2_interactive_only_after_indexing (lib : library) (ix : indexer)
    (files0 : filesystem) (dirs : gset string) :
  (main_phase2 lib ix files0 dirs = Interactive →
     ∃ raw d v, files0 !! HANDOFF_PATH = Some raw
                ∧ json_load lib raw = Some (JObject d)
                ∧ dict_get d "file_path" = Some v
                ∧ build_index ix v = Returned ())
  ∧ (main_phase2 lib ix files0 dirs = Interactive
     ∨ main_phase2 lib ix files0 dirs = SysExit 1).
Proof.
  unfold main_phase2. split; [|destruct (phase2_body lib ix files0 dirs); auto].
  unfold phase2_body, os_path_exists, json_load_file.
  destruct (files0 !! HANDOFF_PATH) as [raw|] eqn:Hraw.
  2:{ rewrite bool_decide_eq_false_2 by (by intros [??]).
      by destruct (bool_decide (HANDOFF_PATH ∈ dirs)). }
  rewrite bool_decide_eq_true_2 by eauto. cbn [negb orb].
  destruct (json_load lib raw) as [data|] eqn:Hjson; [|done].
  unfold mbind at 1, outcome_bind at 1. cbv iota beta.
  destruct data as [| | | | | |d]; try done.
  cbn [json_get]. unfold mbind at 1 2 3, outcome_bind at 1 2 3.
  unfold index_document_from_handoff. cbn [json_subscript].
  destruct (dict_get d "file_path") as [v|] eqn:Hv; [|done].
  unfold mbind, outcome_bind.
  destruct (build_index ix v) as [[]|] eqn:Hix; [|done].
  intros _. eauto 10.
Qed.

(** * Answering questions *)

Section firsts.
Context {A : Type} `{EqDecision A}.
Implicit Types (l : list A) (x : A).

Lemma elem_of_firsts l x : x ∈ firsts l ↔ x ∈ l.
Proof.
  induction l as [|y l IH]; simpl; [done|].
  rewrite !elem_of_cons, list_elem_of_filter, IH.
  destruct (decide (x = y)); tauto.
Qed.

Lemma NoDup_firsts l : NoDup (firsts l).
Proof.
  induction l as [|y l IH]; simpl; [constructor|].
  constructor; [|by apply NoDup_filter].
  rewrite list_elem_of_filter. intros [Hne _]. by apply Hne.
Qed.

Lemma firsts_sublist l : firsts l `sublist_of` l.
Proof.
  induction l as [|y l IH]; simpl; [done|].
  apply sublist_skip. etrans; [apply sublist_filter|done].
Qed.

Lemma filter_everything (P : A → Prop) `{!∀ x, Decision (P x)} l :
  (∀ x, P x) → filter P l = l.
Proof.
  intros HP. induction l as [|x l IH]; [done|]. by rewrite filter_cons_True, IH.
Qed.
End firsts.

Lemma dedup_citations_firsts (seen : gset citation) (uniq l : list citation) :
  dedup_citations seen uniq l = (uniq ++ filter (λ y, y ∉ seen) (firsts l))%list.
Proof.
  revert seen uniq. induction l as [|s l IH]; intros seen uniq; simpl.
  - by rewrite app_nil_r.
  - case_decide as Hs.
    + rewrite IH, filter_cons_False by (intros Hn; by apply Hn).
      f_equal. rewrite list_filter_filter_l; [done|]. intros y Hy ->. done.
    + rewrite IH, filter_cons_True by done.
      rewrite <-app_assoc. simpl. do 2 f_equal.
      rewrite list_filter_filter. apply list_filter_iff.
      intros y. rewrite elem_of_union, elem_of_singleton. tauto.
Qed.

(** X17. The citations of an answer are the (page, source) pairs of the
    chunks the chain used, each once, in the order in which they first
    occur; a chunk without metadata is cited as (None, None). *)
Theorem X17_citations_are_deduplicated (chain : string → outcome qa_result)
    (question : string) (result : qa_result) :
  chain question = Returned result →
  ∃ out,
    query (Some chain) question = Returned out
    ∧ answer out = default "" (qa_answer result)
    ∧ sources out = firsts (citation_of <$> default [] (qa_source_documents result))
    ∧ NoDup (sources out)
    ∧ (∀ c, c ∈ sources out
            ↔ ∃ d, d ∈ default [] (qa_source_documents result) ∧ c = citation_of d).
Proof.
  intros Hchain. unfold query. rewrite Hchain. cbn [mbind outcome_bind mret outcome_ret].
  eexists. split; [reflexivity|]. cbn [answer sources].
  rewrite dedup_citations_firsts. simpl.
  rewrite filter_everything by (intros x; apply not_elem_of_empty).
  split; [done|]. split; [done|]. split; [apply NoDup_firsts|].
  intros c. rewrite elem_of_firsts, list_elem_of_fmap. split.
  - intros (d & -> & Hd). eauto.
  - intros (d & Hd & ->). eauto.
Qed.

Lemma strictly_sorted (l : list Z) :
  StronglySorted Z.le l → NoDup l → StronglySorted Z.lt l.
Proof.
  induction 1 as [|x l Hl IH Hx]; intros Hnd; [constructor|].
  apply NoDup_cons in Hnd as [Hin Hnd]. constructor; [by apply IH|].
  apply Forall_forall. intros y Hy.
  pose proof (proj1 (Forall_forall _ _) Hx y Hy).
  assert (x ≠ y) by (intros ->; done). lia.
Qed.

(** X18. The page list printed after an answer is in strictly ascending
    order (so no page is listed twice) and lists exactly the pages that
    the citations carry; nothing is printed when no citation has a page. *)
Theorem X18_printed_pages_sorted_and_exact (out : query_out) :
  match printed_pages out with
  | Some pages =>
      StronglySorted Z.lt pages
      ∧ pages ≠ []
      ∧ ∀ p, p ∈ pages ↔ ∃ src, (Some p, src) ∈ sources out
  | None => ∀ p src, (Some p, src) ∉ sources out
  end.
Proof.
  assert (Hpages : ∀ p, p ∈ omap fst (sources out) ↔ ∃ src, (Some p, src) ∈ sources out).
  { intros p. rewrite list_elem_of_omap. split.
    - intros ([p' src] & Hin & Hp). simpl in Hp. subst p'. eauto.
    - intros [src Hin]. exists (Some p, src). done. }
  unfold printed_pages. destruct (sources out) as [|c cs] eqn:Hsrc.
  { intros p src Hin. by apply elem_of_nil in Hin. }
  rewrite <-Hsrc in *. clear Hsrc c cs.
  destruct (omap fst (sources out)) as [|p0 ps] eqn:Hom.
  { intros p src Hin. assert (p ∈ @nil Z) as Hp by (apply Hpages; eauto).
    by apply elem_of_nil in Hp. }
  rewrite <-Hom in *.
  set (sorted := merge_sort Z.le _).
  assert (sorted ≡ₚ elements (list_to_set (omap fst (sources out)) : gset Z)) as Hperm
    by apply merge_sort_Permutation.
  split; [|split].
  - apply strictly_sorted.
    + apply StronglySorted_merge_sort; apply _.
    + rewrite Hperm. apply NoDup_elements.
  - intros Hnil. assert (p0 ∈ sorted) as Hin.
    { rewrite Hperm, elem_of_elements, elem_of_list_to_set, Hom. by left. }
    rewrite Hnil in Hin. by apply elem_of_nil in Hin.
  - intros p. rewrite Hperm, elem_of_elements, elem_of_list_to_set. apply Hpages.
Qed.

(** The loop on lines without an exit word, followed by [rest]: either
    [query] raises on one of the lines, which ends the loop there, or
    every line is answered and the loop goes on with [rest]. *)
Lemma question_loop_app (qa_chain : option (string → outcome qa_result))
    (before rest : list string) :
  Forall (λ line, is_exit_word (Py.strip line) = false) before →
  (∃ answered line e,
     question_loop qa_chain (before ++ rest)%list = (answered, Crashed e)
     ∧ before !! length answered = Some line
     ∧ query qa_chain (Py.strip line) = Raised e
     ∧ answered.*1 = Py.strip <$> take (length answered) before
     ∧ Forall (λ qa, query qa_chain qa.1 = Returned qa.2) answered)
  ∨ (∃ answered,
       question_loop qa_chain (before ++ rest)%list
       = ((answered ++ (question_loop qa_chain rest).1)%list,
          (question_loop qa_chain rest).2)
       ∧ answered.*1 = Py.strip <$> before
       ∧ Forall (λ qa, query qa_chain qa.1 = Returned qa.2) answered).
Proof.
  induction 1 as [|line before Hno _ IH].
  - right. exists []. simpl. by destruct (question_loop qa_chain rest).
  - cbn [app question_loop]. rewrite Hno.
    destruct (query qa_chain (Py.strip line)) as [out|e] eqn:Hq.
    2:{ left. exists [], line, e. by repeat split. }
    destruct IH as [(answered & l & e & -> & Hl & He & Hfst & Hall)
                   |(answered & -> & Hfst & Hall)].
    + left. exists ((Py.strip line, out) :: answered), l, e.
      split; [done|]. split; [done|]. split; [done|].
      split; [by rewrite fmap_cons, Hfst|by constructor].
    + right. exists ((Py.strip line, out) :: answered).
      split; [done|]. split; [by rewrite !fmap_cons, Hfst|by constructor].
Qed.

(** X19. The question loop never reads past the first exit word. Up to
    the first line that reads exit or quit (in any letter case,
    surrounding whitespace ignored) it answers the lines in order,
    stripped, each with what [query] returns for it. It shuts down at
    the exit word exactly when [query] returns on every earlier line;
    when [query] raises on an earlier line, the loop ends there with
    that exception, having answered the lines before it. The lines
    after the exit word play no part. *)
Theorem X19_loop_stops_at_first_exit_word
    (qa_chain : option (string → outcome qa_result))
    (before : list string) (stop : string) :
  Forall (λ line, is_exit_word (Py.strip line) = false) before →
  is_exit_word (Py.strip stop) = true →
  ∃ answered ending,
    (∀ after, question_loop qa_chain (before ++ stop :: after)%list
              = (answered, ending))
    ∧ Forall (λ qa, query qa_chain qa.1 = Returned qa.2) answered
    ∧ answered.*1 = Py.strip <$> take (length answered) before
    ∧ ((ending = ShutDown
        ∧ length answered = length before
        ∧ Forall (λ line, ∃ out, query qa_chain (Py.strip line) = Returned out) before)
       ∨ (∃ line e,
            ending = Crashed e
            ∧ before !! length answered = Some line
            ∧ query qa_chain (Py.strip line) = Raised e)).
Proof.
  intros Hbefore Hstop.
  assert (Hrest : ∀ after, question_loop qa_chain (stop :: after) = ([], ShutDown)).
  { intros after. cbn [question_loop]. by rewrite Hstop. }
  destruct (question_loop_app qa_chain before [stop] Hbefore)
    as [(answered & line & e & Hloop & Hl & He & Hfst & Hall)
       |(answered & Hloop & Hfst & Hall)].
  - exists answered, (Crashed e). split; [|split; [done|split; [done|right; eauto]]].
    intros after.
    destruct (question_loop_app qa_chain before (stop :: after) Hbefore)
      as [(answered' & line' & e' & Hloop' & Hl' & He' & Hfst' & Hall')
         |(answered' & Hloop' & Hfst' & Hall')].
    + rewrite Hloop'.
      assert (length answered' = length answered) as Hlen.
      { destruct (Nat.lt_trichotomy (length answered') (length answered))
          as [Hlt|[Heq|Hgt]]; [|done|].
        - exfalso. assert (answered.*1 !! length answered' = Some (Py.strip line'))
            as Hat.
          { rewrite Hfst, list_lookup_fmap, lookup_take_lt by done. by rewrite Hl'. }
          rewrite list_lookup_fmap in Hat.
          destruct (answered !! length answered') as [[q out]|] eqn:Hqa; [|done].
          injection Hat as ->.
          rewrite Forall_lookup in Hall. specialize (Hall _ _ Hqa). simpl in Hall.
          congruence.
        - exfalso. assert (answered'.*1 !! length answered = Some (Py.strip line))
            as Hat.
          { rewrite Hfst', list_lookup_fmap, lookup_take_lt by done. by rewrite Hl. }
          rewrite list_lookup_fmap in Hat.
          destruct (answered' !! length answered) as [[q out]|] eqn:Hqa; [|done].
          injection Hat as ->.
          rewrite Forall_lookup in Hall'. specialize (Hall' _ _ Hqa). simpl in Hall'.
          congruence. }
      rewrite Hlen in Hl'. assert (line' = line) as -> by congruence.
      assert (e' = e) as -> by congruence.
      f_equal. apply list_eq. intros i.
      destruct (decide (i < length answered)%nat) as [Hi|Hi].
      * assert (answered'.*1 !! i = answered.*1 !! i) as Hsame
          by (by rewrite Hfst, Hfst', Hlen).
        rewrite !list_lookup_fmap in Hsame.
        destruct (answered' !! i) as [[q1 o1]|] eqn:H1;
          destruct (answered !! i) as [[q2 o2]|] eqn:H2; try done.
        injection Hsame as ->.
        rewrite Forall_lookup in Hall, Hall'.
        specialize (Hall _ _ H2). specialize (Hall' _ _ H1). simpl in *.
        congruence.
      * rewrite !lookup_ge_None_2 by lia. done.
    + exfalso. apply lookup_lt_Some in Hl as Hlt.
      assert (answered'.*1 !! length answered = Some (Py.strip line)) as Hat.
      { by rewrite Hfst', list_lookup_fmap, Hl. }
      rewrite list_lookup_fmap in Hat.
      destruct (answered' !! length answered) as [[q out]|] eqn:Hqa; [|done].
      injection Hat as ->.
      rewrite Forall_lookup in Hall'. specialize (Hall' _ _ Hqa). simpl in Hall'.
      congruence.
  - rewrite Hrest, app_nil_r in Hloop. cbn [fst snd] in Hloop.
    assert (length answered = length before) as Hlen
      by (by rewrite <-(length_fmap fst answered), Hfst, length_fmap).
    exists answered, ShutDown. split; [|split; [done|split]].
    + intros after.
      destruct (question_loop_app qa_chain before (stop :: after) Hbefore)
        as [(answered' & line' & e' & Hloop' & Hl' & He' & Hfst' & Hall')
           |(answered' & Hloop' & Hfst' & Hall')].
      * exfalso. apply lookup_lt_Some in Hl' as Hlt.
        assert (answered.*1 !! length answered' = Some (Py.strip line')) as Hat.
        { by rewrite Hfst, list_lookup_fmap, Hl'. }
        rewrite list_lookup_fmap in Hat.
        destruct (answered !! length answered') as [[q out]|] eqn:Hqa; [|done].
        injection Hat as ->.
        rewrite Forall_lookup in Hall. specialize (Hall _ _ Hqa). simpl in Hall.
        congruence.
      * rewrite Hloop', Hrest, app_nil_r. cbn [fst snd]. f_equal.
        apply list_eq. intros i.
        assert (answered'.*1 !! i = answered.*1 !! i) as Hsame by (by rewrite Hfst, Hfst').
        rewrite !list_lookup_fmap in Hsame.
        destruct (answered' !! i) as [[q1 o1]|] eqn:H1;
          destruct (answered !! i) as [[q2 o2]|] eqn:H2; try done.
        injection Hsame as ->.
        rewrite Forall_lookup in Hall, Hall'.
        specialize (Hall _ _ H2). specialize (Hall' _ _ H1). simpl in *.
        congruence.
    + by rewrite Hlen, firstn_all.
    + left. split; [done|]. split; [done|].
      apply Forall_lookup. intros i line Hline.
      assert (answered.*1 !! i = Some (Py.strip line)) as Hat
        by (by rewrite Hfst, list_lookup_fmap, Hline).
      rewrite list_lookup_fmap in Hat.
      destruct (answered !! i) as [[q out]|] eqn:Hqa; [|done].
      injection Hat as ->.
      rewrite Forall_lookup in Hall. specialize (Hall _ _ Hqa). simpl in Hall.
      eauto.
Qed.

(** X20. Without an exit word the loop never shuts down by itself: it
    answers the lines in order, stripped, each with what [query]
    returns for it, until [query] raises on a line, which ends the loop
    with that exception, or until the input ends; it fails on the end of
    the input, having answered every line, exactly when [query] returns
    on every line. *)
Theorem X20_loop_without_exit_word_hits_end_of_input
    (qa_chain : option (string → outcome qa_result)) (stdin : list string) :
  Forall (λ line, is_exit_word (Py.strip line) = false) stdin →
  ∃ answered ending,
    question_loop qa_chain stdin = (answered, ending)
    ∧ ending ≠ ShutDown
    ∧ Forall (λ qa, query qa_chain qa.1 = Returned qa.2) answered
    ∧ answered.*1 = Py.strip <$> take (length answered) stdin
    ∧ ((ending = EndOfInput
        ∧ length answered = length stdin
        ∧ Forall (λ line, ∃ out, query qa_chain (Py.strip line) = Returned out) stdin)
       ∨ (∃ line e,
            ending = Crashed e
            ∧ stdin !! length answered = Some line
            ∧ query qa_chain (Py.strip line) = Raised e)).
Proof.
  intros Hno.
  destruct (question_loop_app qa_chain stdin [] Hno)
    as [(answered & line & e & Hloop & Hl & He & Hfst & Hall)
       |(answered & Hloop & Hfst & Hall)]; rewrite app_nil_r in Hloop.
  - exists answered, (Crashed e). split; [done|]. split; [done|].
    split; [done|]. split; [done|]. right. eauto.
  - cbn [question_loop fst snd] in Hloop. rewrite app_nil_r in Hloop.
    assert (length answered = length stdin) as Hlen
      by (by rewrite <-(length_fmap fst answered), Hfst, length_fmap).
    exists answered, EndOfInput. split; [done|]. split; [done|].
    split; [done|]. split; [by rewrite Hlen, firstn_all|].
    left. split; [done|]. split; [done|].
    apply Forall_lookup. intros i line Hline.
    assert (answered.*1 !! i = Some (Py.strip line)) as Hat
      by (by rewrite Hfst, list_lookup_fmap, Hline).
    rewrite list_lookup_fmap in Hat.
    destruct (answered !! i) as [[q out]|] eqn:Hqa; [|done].
    injection Hat as ->.
    rewrite Forall_lookup in Hall. specialize (Hall _ _ Hqa). simpl in Hall.
    eauto.
Qed.

(** * Further properties of the controller and of the file name *)

(** X21. A run stops retrying as soon as an attempt returns, and makes
    at most three attempts. Either attempt 1 returns and is the whole
    run; or attempt 1 raises, the controller sleeps 2 seconds, and
    attempt 2 returns and ends the run; or attempts 1 and 2 raise, each
    followed by a sleep of 2 seconds, and the run ends as attempt 3
    ends. A sleep lets 2 seconds pass on the clock and leaves the files
    alone. *)
Theorem X21_run_stops_at_first_return (fuel : nat) (lib : library)
    (envs : Z → attempt_env) (url : string) (max_seconds : Z) (w : world) :
  (3 ≤ fuel)%nat →
  ∃ r w' evs,
    run fuel lib envs url max_seconds w = Some (r, w', evs)
    ∧ ((∃ p,
          run_once lib (envs 1) url max_seconds w = (Returned p, w')
          ∧ r = Returned p
          ∧ evs = [Attempted 1])
       ∨ (∃ e1 w1 s2 p,
            run_once lib (envs 1) url max_seconds w = (Raised e1, w1)
            ∧ resumed_after 2 w1 s2
            ∧ run_once lib (envs 2) url max_seconds s2 = (Returned p, w')
            ∧ r = Returned p
            ∧ evs = [Attempted 1; Waited 2; Attempted 2])
       ∨ (∃ e1 w1 s2 e2 w2 s3,
            run_once lib (envs 1) url max_seconds w = (Raised e1, w1)
            ∧ resumed_after 2 w1 s2
            ∧ run_once lib (envs 2) url max_seconds s2 = (Raised e2, w2)
            ∧ resumed_after 2 w2 s3
            ∧ run_once lib (envs 3) url max_seconds s3 = (r, w')
            ∧ evs = [Attempted 1; Waited 2; Attempted 2; Waited 2; Attempted 3])).
Proof.
  intros Hfuel. unfold run.
  destruct (retrying_shapes (λ n, run_once lib (envs n) url max_seconds) fuel w Hfuel)
    as (r & w' & evs & Hrun & Hshape).
  exists r, w', evs. split; [exact Hrun|].
  destruct Hshape as [(a & H1 & -> & ->)|[(e1 & w1 & a & H1 & H2 & -> & ->)
                     |(e1 & w1 & e2 & w2 & H1 & H2 & H3 & ->)]].
  - left. eauto.
  - right. left. exists e1, w1, (pause 2 w1), a.
    split; [done|]. split; [apply pause_resumed|done].
  - right. right. exists e1, w1, (pause 2 w1), e2, w2, (pause 2 w2).
    split; [done|]. split; [apply pause_resumed|]. split; [done|].
    split; [apply pause_resumed|done].
Qed.

Lemma endswith_empty p : p ≠ "" → Py.endswith "" p = false.
Proof. intros Hp. simpl. by rewrite decide_False. Qed.

Lemma persisted_name_nonempty suggested : persisted_name suggested ≠ "".
Proof.
  pose proof (persisted_name_lower_pdf suggested) as Hpdf. intros Hempty.
  rewrite Hempty in Hpdf. discriminate.
Qed.

(** X22. The name a download is saved under is never empty; with no
    suggested name it is downloaded_doc.pdf; and correcting a corrected
    name changes nothing. *)
Theorem X22_persisted_name_is_stable (suggested : string) :
  persisted_name suggested ≠ ""
  ∧ persisted_name "" = "downloaded_doc.pdf"
  ∧ persisted_name (persisted_name suggested) = persisted_name suggested.
Proof.
  split; [apply persisted_name_nonempty|]. split; [reflexivity|].
  pose proof (persisted_name_nonempty suggested) as Hne.
  pose proof (persisted_name_lower_pdf suggested) as Hpdf.
  unfold persisted_name at 1.
  destruct (str_or_cases (persisted_name suggested) "downloaded_doc.pdf")
    as [[-> _]|[_ ?]]; [|done].
  by rewrite Hpdf.
Qed.

(** * The form of the digest *)

Section digest_form.
Import SHA256.

Lemma round_length v kw : length v = 8%nat → length (round v kw) = 8%nat.
Proof.
  destruct v as [|a [|b [|c [|d [|e [|f [|g [|h [|]]]]]]]]]; simpl; done.
Qed.

Lemma fold_round_length l v :
  length v = 8%nat → length (fold_left round l v) = 8%nat.
Proof.
  revert v. induction l as [|kw l IH]; intros v Hv; simpl; [done|].
  by apply IH, round_length.
Qed.

Lemma compress_length H block : length H = 8%nat → length (compress H block) = 8%nat.
Proof.
  intros HH. unfold compress. rewrite length_zip_with, fold_round_length, HH; done.
Qed.

Lemma absorb_length fuel H data :
  length H = 8%nat → length (absorb fuel H data).1 = 8%nat.
Proof.
  revert H data. induction fuel as [|fuel IH]; intros H data HH; simpl; [done|].
  case_decide; [|done]. by apply IH, compress_length.
Qed.

Lemma digest_of_hash_length H : length (digest_of_hash H) = (4 * length H)%nat.
Proof.
  unfold digest_of_hash. induction H as [|x H IH]; simpl; [done|].
  simpl in IH. rewrite IH. lia.
Qed.

Lemma sha256_length msg : length (sha256 msg) = 32%nat.
Proof.
  unfold sha256, absorb_all. rewrite digest_of_hash_length, absorb_length; done.
Qed.

Lemma hex_length l : String.length (hex l) = (2 * length l)%nat.
Proof. induction l as [|b l IH]; simpl; [done|]. rewrite IH. lia. Qed.

Lemma hex_digits_ok b :
  is_hex_char (hex_digit (byte_val b / 16)) = true
  ∧ is_hex_char (hex_digit (byte_val b mod 16)) = true.
Proof. destruct b; vm_compute; done. Qed.

Lemma hex_chars l :
  Forall (λ c, is_hex_char c = true) (String.list_ascii_of_string (hex l)).
Proof.
  induction l as [|b l IH]; simpl; [constructor|].
  destruct (hex_digits_ok b). by repeat constructor.
Qed.
End digest_form.

(** X23. The digest [_sha256_file] returns is a string of 64 characters,
    each a digit or a letter from a to f. *)
Theorem X23_digest_is_64_lowercase_hex (files : filesystem) (path digest : string) :
  _sha256_file files path = Returned digest →
  String.length digest = 64%nat
  ∧ Forall (λ c, is_hex_char c = true) (String.list_ascii_of_string digest).
Proof.
  intros Hdigest. destruct (files !! path) as [data|] eqn:Hf.
  - rewrite (sha256_file_digest files path data Hf) in Hdigest.
    injection Hdigest as <-.
    split; [by rewrite hex_length, sha256_length|apply hex_chars].
  - unfold _sha256_file in Hdigest. rewrite Hf in Hdigest. discriminate.
Qed.

(** * The watchdog task of an attempt *)

Lemma rounds_only_id : rounds_only id.
Proof. intros g. simpl. split; [|split; [|split; [|split]]]; auto. Qed.

Lemma rounds_only_compose f1 f2 :
  rounds_only f1 → rounds_only f2 → rounds_only (f2 ∘ f1).
Proof.
  intros H1 H2 g. destruct (H1 g) as (? & ? & ? & Hkeep1 & Hc1).
  destruct (H2 (f1 g)) as (? & ? & ? & Hkeep2 & Hc2). simpl.
  repeat split; try congruence.
  - intros Hg. rewrite Hkeep2; [by apply Hkeep1|]. by rewrite Hkeep1.
  - intros Hc. by apply Hc1, Hc2.
Qed.

Lemma rounds_only_time_guard now : rounds_only (_time_guard now).
Proof.
  intros g. unfold _time_guard.
  destruct (g_status g) eqn:Hs;
    [|split; [|split; [|split; [|split]]]; auto; congruence..].
  destruct (now - g_start g >? g_max_seconds g); simpl;
    (split; [|split; [|split; [|split]]]); auto; try congruence.
Qed.

Lemma suspend_rounds_only secs w :
  ∃ f, rounds_only f ∧ tasks (suspend secs w) = f <$> tasks w.
Proof. eexists. split; [apply rounds_only_time_guard|done]. Qed.

Lemma watchdogs_untouched {A} (t : task A) :
  (∀ w, tasks (t w).2 = tasks w) → lets_watchdogs_run t.
Proof.
  intros Ht w. exists id. split; [apply rounds_only_id|].
  by rewrite Ht, list_fmap_id.
Qed.

Lemma watchdogs_bind {A B} (m : task A) (k : A → task B) :
  lets_watchdogs_run m → (∀ a, lets_watchdogs_run (k a)) →
  lets_watchdogs_run (m ≫= k).
Proof.
  intros Hm Hk w. unfold mbind, task_bind.
  destruct (Hm w) as (f1 & Hf1 & Ht1). destruct (m w) as [[a|e] w1]; simpl in Ht1.
  - destruct (Hk a w1) as (f2 & Hf2 & Ht2).
    exists (f2 ∘ f1). split; [by apply rounds_only_compose|].
    by rewrite Ht2, Ht1, list_fmap_compose.
  - exists f1. done.
Qed.

Lemma watchdogs_try_catch {A} (body : task A) (handler : exn → task A) :
  lets_watchdogs_run body → (∀ e, lets_watchdogs_run (handler e)) →
  lets_watchdogs_run (try_catch body handler).
Proof.
  intros Hb Hh w. unfold try_catch.
  destruct (Hb w) as (f1 & Hf1 & Ht1). destruct (body w) as [[a|e] w1]; simpl in Ht1.
  - exists f1. done.
  - destruct (Hh e w1) as (f2 & Hf2 & Ht2).
    exists (f2 ∘ f1). split; [by apply rounds_only_compose|].
    by rewrite Ht2, Ht1, list_fmap_compose.
Qed.

Lemma watchdogs_ret {A} (a : A) : lets_watchdogs_run (mret a).
Proof. by apply watchdogs_untouched. Qed.
Lemma watchdogs_raise {A} e : lets_watchdogs_run (raise (A:=A) e).
Proof. by apply watchdogs_untouched. Qed.
Lemma watchdogs_log msg : lets_watchdogs_run (logger_info msg).
Proof. by apply watchdogs_untouched. Qed.
Lemma watchdogs_blocking {A} n (r : outcome A) : lets_watchdogs_run (blocking n r).
Proof. by apply watchdogs_untouched. Qed.
Lemma watchdogs_write path data : lets_watchdogs_run (write_file path data).
Proof. by apply watchdogs_untouched. Qed.
Lemma watchdogs_await {A} (x : timed A) : lets_watchdogs_run (await x).
Proof. intros w. apply suspend_rounds_only. Qed.
Lemma watchdogs_sleep n : lets_watchdogs_run (asyncio_sleep n).
Proof. intros w. apply suspend_rounds_only. Qed.

Create HintDb watchdogs.
Global Hint Resolve watchdogs_ret watchdogs_raise watchdogs_log watchdogs_blocking
  watchdogs_write watchdogs_await watchdogs_sleep : watchdogs.

Ltac watchdogs :=
  repeat first
    [ solve [auto with watchdogs]
    | apply watchdogs_bind; [|intros ?]
    | apply watchdogs_try_catch; [|intros ?]
    | match goal with
      | |- lets_watchdogs_run (match ?x with _ => _ end) => destruct x
      | |- lets_watchdogs_run (if ?x then _ else _) => destruct x
      end ].

Lemma watchdogs_acquire lib env : lets_watchdogs_run (acquire lib env).
Proof. unfold acquire, execute_plan, expect_download. watchdogs. Qed.

Lemma watchdogs_on_error env e : lets_watchdogs_run (on_error env e).
Proof. unfold on_error, _safe_screenshot, logger_error. watchdogs. Qed.

Lemma write_handoff_tasks lib env url guard d w :
  match write_handoff lib env url guard d w with
  | (Returned _, w') =>
      ∃ f, rounds_only f ∧ tasks w' = cancel_one guard <$> (f <$> tasks w)
  | (Raised _, w') => ∃ f, rounds_only f ∧ tasks w' = f <$> tasks w
  end.
Proof.
  cbv [write_handoff mbind task_bind mret task_ret logger_info await write_file
       get_fs lift task_cancel suspend].
  cbn [fs written clock tasks log].
  destruct (result (save_as d)) as [[]|e].
  2:{ eexists. split; [apply rounds_only_time_guard|done]. }
  rewrite getsize_insert.
  destruct (sha256_file_insert (fs w) (Py.path_join DOWNLOADS_DIR
              (persisted_name (suggested_filename d))) (content d)) as [digest ->].
  cbn [tasks]. eexists. split; [apply rounds_only_time_guard|done].
Qed.

Lemma cancel_one_settles guard g :
  g_id g = guard →
  g_id (cancel_one guard g) = guard
  ∧ g_start (cancel_one guard g) = g_start g
  ∧ g_max_seconds (cancel_one guard g) = g_max_seconds g
  ∧ g_status (cancel_one guard g) ≠ TaskPending.
Proof.
  intros Hid. unfold cancel_one. rewrite decide_True by done.
  destruct (g_status g) eqn:Hs; simpl; repeat split; try done; by rewrite Hs.
Qed.

(** The tasks after the body of the [try], started with [n] tasks. *)
Lemma attempt_body_tasks lib env url start max_seconds w :
  ∃ older g,
    tasks (attempt_body lib env url start max_seconds w).2 = (older ++ [g])%list
    ∧ length older = length (tasks w)
    ∧ g_id g = length (tasks w) ∧ g_start g = start ∧ g_max_seconds g = max_seconds
    ∧ match (attempt_body lib env url start max_seconds w).1 with
      | Returned _ => g_status g ≠ TaskPending
      | Raised _ => g_status g ≠ TaskCancelled
      end.
Proof.
  cbv [attempt_body mbind task_bind create_task].
  set (new := {| g_id := length (tasks w); g_start := start;
                 g_max_seconds := max_seconds; g_status := TaskPending |}).
  match goal with |- context [acquire lib env ?u] => set (w0 := u) end.
  destruct (watchdogs_acquire lib env w0) as (f & Hf & Ht).
  change (tasks w0) with (tasks w ++ [new])%list in Ht.
  rewrite fmap_app in Ht. simpl in Ht.
  destruct (Hf new) as (Hid & Hstart & Hmax & _ & Hcancel).
  change (g_id new) with (length (tasks w)) in Hid.
  change (g_start new) with start in Hstart.
  change (g_max_seconds new) with max_seconds in Hmax.
  change (g_status new) with TaskPending in Hcancel.
  destruct (acquire lib env w0) as [[[d|]|e] w1]; simpl in Ht.
  - pose proof (write_handoff_tasks lib env url (length (tasks w)) d w1) as Hw.
    destruct (write_handoff lib env url (length (tasks w)) d w1) as [[p|e] w2];
      destruct Hw as (f2 & Hf2 & Ht2); rewrite Ht, ?fmap_app in Ht2; simpl in Ht2.
    + destruct (Hf2 (f new)) as (Hid2 & Hstart2 & Hmax2 & _).
      destruct (cancel_one_settles (length (tasks w)) (f2 (f new))) as (? & ? & ? & ?);
        [congruence|].
      eexists _, _. split; [exact Ht2|]. rewrite !length_fmap.
      repeat split; simpl; congruence.
    + destruct (Hf2 (f new)) as (Hid2 & Hstart2 & Hmax2 & _ & Hcancel2).
      eexists _, _. split; [exact Ht2|]. rewrite !length_fmap.
      repeat split; simpl; try congruence.
      intros Hc. apply Hcancel2, Hcancel in Hc. discriminate.
  - eexists _, _. split; [exact Ht|]. rewrite length_fmap.
    repeat split; simpl; try congruence.
    intros Hc. apply Hcancel in Hc. discriminate.
  - eexists _, _. split; [exact Ht|]. rewrite length_fmap.
    repeat split; simpl; try congruence.
    intros Hc. apply Hcancel in Hc. discriminate.
Qed.

(** X24. Every attempt that gets past the browser launch starts one
    watchdog, with the attempt's start time and budget. When the body
    of the [try] returns, that watchdog is no longer pending at the end
    of the attempt: it was cancelled, or it had already ended with its
    timeout; this is so whenever the attempt returns. When the body of
    the [try] raises, the watchdog is not cancelled: it stays with the
    event loop; this is so whenever the attempt raises although
    [browser.close()] returned. *)
Theorem X24_watchdog_cancelled_only_after_try_body (lib : library)
    (env : attempt_env) (url : string) (max_seconds : Z) (w : world) :
  result (launch env) = Returned () →
  ∃ older g,
    tasks (run_once lib env url max_seconds w).2 = (older ++ [g])%list
    ∧ length older = length (tasks w)
    ∧ g_id g = length (tasks w)
    ∧ g_start g = clock w
    ∧ g_max_seconds g = max_seconds
    ∧ match (attempt_body lib env url (clock w) max_seconds (after_launch env w)).1 with
      | Returned _ => g_status g ≠ TaskPending
      | Raised _ => g_status g ≠ TaskCancelled
      end
    ∧ (∀ p, (run_once lib env url max_seconds w).1 = Returned p →
            g_status g ≠ TaskPending)
    ∧ (result (close env) = Returned () →
       ∀ e, (run_once lib env url max_seconds w).1 = Raised e →
            g_status g ≠ TaskCancelled).
Proof.
  intros Hlaunch. rewrite run_once_unfold, Hlaunch.
  destruct (attempt_body_tasks lib env url (clock w) max_seconds (after_launch env w))
    as (older & g & Ht & Hlen & Hid & Hstart & Hmax & Hst).
  assert (length (tasks (after_launch env w)) = length (tasks w)) as Hl
    by (unfold after_launch, suspend; simpl; by rewrite length_fmap).
  rewrite Hl in *.
  destruct (attempt_body _ _ _ _ _ _) as [[p|e] w2]; simpl in Ht, Hst |- *.
  - destruct (rounds_only_time_guard (clock w2 + secs (close env)) g)
      as (? & ? & ? & Hkeep & _).
    exists (_time_guard (clock w2 + secs (close env)) <$> older),
           (_time_guard (clock w2 + secs (close env)) g).
    rewrite Ht, fmap_app, length_fmap. simpl.
    assert (g_status (_time_guard (clock w2 + secs (close env)) g) ≠ TaskPending)
      as Hsettled by (by rewrite Hkeep).
    repeat split; try congruence.
    intros Hclose e. rewrite Hclose. discriminate.
  - destruct (watchdogs_on_error env e w2) as (f & Hf & Hte).
    set (now := clock (on_error env e w2).2 + secs (close env)).
    destruct (rounds_only_compose f (_time_guard now) Hf (rounds_only_time_guard now) g)
      as (? & ? & ? & _ & Hcancel).
    exists ((_time_guard now ∘ f) <$> older), ((_time_guard now ∘ f) g).
    rewrite Hte, Ht, <-list_fmap_compose, fmap_app, length_fmap. simpl.
    assert (g_status ((_time_guard now ∘ f) g) ≠ TaskCancelled) as Hnot.
    { intros Hc. by apply Hst, Hcancel. }
    repeat split; try (simpl in *; congruence).
    intros p. by destruct (result (close env)) as [[]|e'].
Qed.

(** * The further properties at sample inputs *)

Lemma X2_witness :
  ps_buttons (_collect_page_state
                (page_of [visible_button "Download"; detached_element; visible_button "Share"]))
  = ps_buttons (_collect_page_state
                  (page_of [visible_button "Download"; visible_button "Share"])).
Proof.
  apply (X2_bad_element_is_skipped _ _ [visible_button "Download"]
           [visible_button "Share"] detached_element);
    [reflexivity|reflexivity|simpl; lia|left; discriminate].
Defined.

Lemma X3_witness :
  ps_buttons (_collect_page_state (page_of (thirty_buttons ++ same_buttons)))
  = ps_buttons (_collect_page_state (page_of (take 40 (thirty_buttons ++ same_buttons)))).
Proof.
  apply (X3_only_first_40_candidates_count _ _ (thirty_buttons ++ same_buttons)
           (take 40 (thirty_buttons ++ same_buttons)));
    [reflexivity|reflexivity|by rewrite take_take].
Defined.

Lemma X4_witness :
  _call_gpt5_mini_plan sample_lib helpful_client empty_page_state 1
  = Returned click_button_plan
  ∧ ∃ a, dict_get click_button_plan "action" = Some (JString a) ∧ a ∈ allowed_actions.
Proof.
  assert (_call_gpt5_mini_plan sample_lib helpful_client empty_page_state 1
          = Returned click_button_plan) as Hcall by (vm_compute; reflexivity).
  split; [exact Hcall|].
  exact (X4_returned_action_is_allowed _ _ _ _ _ Hcall).
Defined.

Lemma X5_witness :
  _call_gpt5_mini_plan sample_lib silent_client empty_page_state 1
  = Raised (AttributeError "'NoneType' object has no attribute 'strip'").
Proof.
  apply (X5_empty_chat_message_raises sample_lib silent_client empty_page_state 1
           (APIError "responses endpoint unavailable")); reflexivity.
Defined.

Lemma X6_witness :
  _call_gpt5_mini_plan sample_lib helpful_client empty_page_state 1
  = Returned click_button_plan.
Proof.
  apply (X6_valid_plan_is_passed_verbatim sample_lib helpful_client empty_page_state 1
           click_button_text click_button_plan "CLICK_DOWNLOAD_BUTTON").
  - reflexivity.
  - vm_compute. reflexivity.
  - reflexivity.
  - unfold allowed_actions. rewrite !elem_of_cons. auto.
Defined.

Lemma X7_witness :
  (run_once sample_lib timeout_env sample_url 600 initial_world).1
  = (attempt_body sample_lib timeout_env sample_url (clock initial_world) 600
       (after_launch timeout_env initial_world)).1
  ∧ (run_once sample_lib close_fails_env sample_url 600 initial_world).1
    = Raised (RuntimeError "Browser.close: Connection closed").
Proof.
  split.
  - exact (X7_attempt_outcome_is_body_outcome sample_lib timeout_env sample_url 600
             initial_world eq_refl).
  - exact (X7_attempt_outcome_is_body_outcome sample_lib close_fails_env sample_url 600
             initial_world eq_refl).
Defined.

Lemma X8_witness :
  fs (run_once sample_lib timeout_env sample_url 600 initial_world).2
    !! "sandbox/screenshots/agent_a_error_20250101_000000.png"
  = Some (bytes_of_string "PNG").
Proof.
  destruct (attempt_body sample_lib timeout_env sample_url (clock initial_world) 600
              (after_launch timeout_env initial_world)) as [[p|e] w2] eqn:Hbody.
  { exfalso. vm_compute in Hbody. discriminate. }
  destruct (X8_screenshot_on_failure sample_lib timeout_env sample_url 600
              initial_world) as [_ Hfail].
  destruct (Hfail e w2 eq_refl Hbody) as [Hshot _].
  exact (proj1 (Hshot eq_refl)).
Defined.

Lemma X9_witness :
  ∃ dl w',
    execute_plan (working_env 1) click_button_plan initial_world = (Returned dl, w')
    ∧ ∃ d, dl = Some d ∧ result (download_event (working_env 1)) = Returned d.
Proof.
  destruct (execute_plan (working_env 1) click_button_plan initial_world)
    as [[dl|e] w'] eqn:Hrun.
  - exists dl, w'. split; [reflexivity|].
    exact (X9_dispatch_returns_the_download _ _ _ _ _ Hrun).
  - exfalso. vm_compute in Hrun. discriminate.
Defined.

Lemma X10_witness :
  ∃ w',
    run 3 sample_lib' (λ _, with_client (working_env 1) give_up_client) sample_url
      600 initial_world
    = Some (Raised (RuntimeError "Planner chose FAIL_GIVE_UP."), w',
            [Attempted 1; Waited 2; Attempted 2; Waited 2; Attempted 3])
    ∧ handoff_untouched initial_world w'
    ∧ clock w' - clock initial_world = 13 + 2 + 13 + 2 + 13.
Proof.
  destruct (X10_give_up_exhausts_the_retries 3 sample_lib'
              (λ _, with_client (working_env 1) give_up_client) sample_url 600
              initial_world ltac:(lia))
    as (w1 & s2 & w2 & s3 & w' & Hrun & _ & _ & _ & _ & _ & Hquiet).
  - intros n. split; [reflexivity|]. split; [reflexivity|]. split; [reflexivity|].
    exists give_up_plan. split; [vm_compute; reflexivity|reflexivity].
  - exists w'. split; [exact Hrun|]. split; [exact Hquiet|].
    pose proof Hrun as Hv. vm_compute in Hv. injection Hv as Hw.
    rewrite <-Hw. reflexivity.
Defined.

Lemma X11_witness :
  run 3 sample_lib' (λ _, with_client (working_env 1) helpful_client) sample_url
    600 initial_world
  = run 3 sample_lib' (λ _, with_client (working_env 1) moody_client) sample_url
      600 initial_world.
Proof.
  apply (X11_oracle_always_asked_with_attempt_1 3 sample_lib' (λ _, working_env 1)
           helpful_client moody_client).
  intros r Hr. simpl. rewrite decide_True by done. done.
Defined.

Lemma X12_witness :
  ∃ p w',
    run_once sample_lib (working_env 1) sample_url 600 initial_world = (Returned p, w')
    ∧ dict_get p "sha256"
      = Some (JString "ba7816bf8f01cfea414140de5dae2223b00361a396177a9cb410ff61f20015ad")
    ∧ dict_get p "bytes" = Some (JInt 3).
Proof.
  destruct (run_once sample_lib (working_env 1) sample_url 600 initial_world)
    as [[p|e] w'] eqn:Hrun.
  - exists p, w'. split; [reflexivity|].
    destruct (X12_record_describes_saved_file _ _ _ _ _ _ _ Hrun)
      as (d & Hd & _ & _ & Hsha & Hbytes & _).
    injection Hd as <-. split; [exact Hsha|exact Hbytes].
  - exfalso. vm_compute in Hrun. discriminate.
Defined.

Lemma X13_witness :
  load_handoff echo_lib consumer_host HANDOFF_PATH = Returned (JObject working_record).
Proof.
  destruct (run_once echo_lib (working_env 1) sample_url 600 initial_world)
    as [[p|e] w'] eqn:Hrun.
  2:{ exfalso. vm_compute in Hrun. discriminate. }
  assert (p = working_record) as Hp.
  { pose proof Hrun as Hc. vm_compute in Hc. injection Hc as Hc _. exact (eq_sym Hc). }
  rewrite <-Hp.
  apply (X13_consumer_accepts_written_record echo_lib (working_env 1) sample_url 600
           initial_world w' p consumer_host Hrun).
  - by rewrite Hp.
  - pose proof Hrun as Hc. vm_compute in Hc. injection Hc as _ Hc. by rewrite <-Hc.
  - intros d Hd. injection Hd as <-. split; [discriminate|].
    vm_compute. eauto.
Defined.

Lemma X14_witness :
  load_handoff sample_lib (sample_host bytes_complete) HANDOFF_PATH
  = Returned (JObject record_complete)
  ∧ (∀ k, k ∈ required_fields → dict_has record_complete k = true)
  ∧ (is_Some (files (sample_host bytes_complete)
                !! "/srv/sandbox/downloads/report.pdf")
     ∨ "/srv/sandbox/downloads/report.pdf" ∈ directories (sample_host bytes_complete)).
Proof.
  assert (load_handoff sample_lib (sample_host bytes_complete) HANDOFF_PATH
          = Returned (JObject record_complete)) as Hload by (vm_compute; reflexivity).
  split; [exact Hload|].
  destruct (X14_load_handoff_returns_only_valid_records _ _ _ _ Hload)
    as (raw & d & v & _ & _ & Hd & Hall & Hv & _ & _ & Hpath).
  injection Hd as <-. split; [exact Hall|].
  injection Hv as <-. exact (proj2 (Hpath _ eq_refl)).
Defined.

Lemma X15_witness :
  run_cli_setup sample_lib (sample_host bytes_without_sha) sample_indexer
  = Raised (ValueError "handoff.json missing required field: sha256").
Proof.
  apply (proj2 (X15_run_cli_validates_before_indexing sample_lib
                  (sample_host bytes_without_sha) sample_indexer)).
  vm_compute. reflexivity.
Defined.

Lemma X16_witness :
  main_phase2 sample_lib sample_indexer (files (sample_host bytes_without_sha))
    (directories (sample_host bytes_without_sha))
  = Interactive
  ∧ ∃ raw d v,
      files (sample_host bytes_without_sha) !! HANDOFF_PATH = Some raw
      ∧ json_load sample_lib raw = Some (JObject d)
      ∧ dict_get d "file_path" = Some v
      ∧ build_index sample_indexer v = Returned ().
Proof.
  assert (main_phase2 sample_lib sample_indexer (files (sample_host bytes_without_sha))
            (directories (sample_host bytes_without_sha))
          = Interactive) as Hmain by (vm_compute; reflexivity).
  split; [exact Hmain|].
  exact (proj1 (X16_phase2_interactive_only_after_indexing _ _ _ _) Hmain).
Defined.

Lemma X17_witness :
  ∃ out,
    query (Some sample_chain) "Which year does the report cover?" = Returned out
    ∧ sources out
      = [ (Some 3, Some "report.pdf"); (Some 1, Some "report.pdf"); (None, None) ].
Proof.
  destruct (X17_citations_are_deduplicated sample_chain
              "Which year does the report cover?" _ eq_refl)
    as (out & Hq & _ & Hsources & _).
  exists out. split; [exact Hq|]. rewrite Hsources. vm_compute. reflexivity.
Defined.

Lemma X19_witness :
  (∃ answered,
     question_loop (Some sample_chain)
       ["Which year?"; "  Who wrote it? "; " EXIT "; "never read"]
     = (answered, ShutDown)
     ∧ answered.*1 = ["Which year?"; "Who wrote it?"])
  ∧ (∃ answered,
       question_loop (Some fragile_chain)
         ["Which year?"; " What is the budget? "; "Who wrote it?"; "quit"]
       = (answered, Crashed (APIError "rate limit exceeded"))
       ∧ answered.*1 = ["Which year?"]).
Proof.
  split.
  - destruct (X19_loop_stops_at_first_exit_word (Some sample_chain)
                ["Which year?"; "  Who wrote it? "] " EXIT ")
      as (answered & ending & Hloop & _ & Hfst & _).
    + repeat constructor.
    + reflexivity.
    + specialize (Hloop ["never read"]). pose proof Hloop as Hv.
      vm_compute in Hv. injection Hv as Ha He. subst ending.
      exists answered. split; [exact Hloop|]. rewrite Hfst, <-Ha. reflexivity.
  - destruct (X19_loop_stops_at_first_exit_word (Some fragile_chain)
                ["Which year?"; " What is the budget? "; "Who wrote it?"] "quit")
      as (answered & ending & Hloop & _ & Hfst & _).
    + repeat constructor.
    + reflexivity.
    + specialize (Hloop []). pose proof Hloop as Hv.
      vm_compute in Hv. injection Hv as Ha He. subst ending.
      exists answered. split; [exact Hloop|]. rewrite Hfst, <-Ha. reflexivity.
Defined.

Lemma X20_witness :
  ∃ answered,
    question_loop (Some sample_chain) ["Which year?"; " Who wrote it? "]
    = (answered, EndOfInput)
    ∧ answered.*1 = ["Which year?"; "Who wrote it?"].
Proof.
  destruct (X20_loop_without_exit_word_hits_end_of_input (Some sample_chain)
              ["Which year?"; " Who wrote it? "])
    as (answered & ending & Hloop & _ & _ & Hfst & _).
  - repeat constructor.
  - pose proof Hloop as Hv. vm_compute in Hv. injection Hv as Ha He. subst ending.
    exists answered. split; [exact Hloop|]. rewrite Hfst, <-Ha. reflexivity.
Defined.

Lemma X21_witness :
  (3 ≤ 3)%nat
  ∧ ∃ p w1 s2 w',
      run 3 sample_lib flaky_envs sample_url 600 initial_world
      = Some (Returned p, w', [Attempted 1; Waited 2; Attempted 2])
      ∧ run_once sample_lib timeout_env sample_url 600 initial_world
        = (Raised (PWTimeoutError
                     "Timeout 60000ms exceeded while waiting for event download"), w1)
      ∧ clock s2 = clock w1 + 2
      ∧ run_once sample_lib (working_env 1) sample_url 600 s2 = (Returned p, w').
Proof.
  split; [lia|].
  destruct (X21_run_stops_at_first_return 3 sample_lib flaky_envs sample_url 600
              initial_world ltac:(lia))
    as (r & w' & evs & Hrun & Hshape).
  change (flaky_envs 1) with timeout_env in Hshape.
  change (flaky_envs 2) with (working_env 1) in Hshape.
  destruct Hshape as [(p & H1 & _)|[(e1 & w1 & s2 & p & H1 & Hs & H2 & -> & ->)
                     |(e1 & w1 & s2 & e2 & w2 & s3 & _ & _ & _ & _ & _ & ->)]].
  - exfalso. apply (f_equal fst) in H1. vm_compute in H1. discriminate.
  - exists p, w1, s2, w'. split; [exact Hrun|]. split; [|split; [exact (proj1 Hs)|exact H2]].
    pose proof H1 as Hv. apply (f_equal fst) in Hv. vm_compute in Hv.
    injection Hv as <-. exact H1.
  - exfalso. vm_compute in Hrun. discriminate.
Defined.

Lemma X23_witness :
  _sha256_file {[ "sandbox/downloads/abc.pdf" := bytes_of_string "abc" ]}
    "sandbox/downloads/abc.pdf"
  = Returned "ba7816bf8f01cfea414140de5dae2223b00361a396177a9cb410ff61f20015ad"
  ∧ String.length "ba7816bf8f01cfea414140de5dae2223b00361a396177a9cb410ff61f20015ad"
    = 64%nat.
Proof.
  assert (_sha256_file {[ "sandbox/downloads/abc.pdf" := bytes_of_string "abc" ]}
            "sandbox/downloads/abc.pdf"
          = Returned "ba7816bf8f01cfea414140de5dae2223b00361a396177a9cb410ff61f20015ad")
    as Hfile by (vm_compute; reflexivity).
  split; [exact Hfile|].
  exact (proj1 (X23_digest_is_64_lowercase_hex _ _ _ Hfile)).
Defined.

Lemma X24_witness :
  (∃ older g,
     tasks (run_once sample_lib timeout_env sample_url 600 initial_world).2
     = (older ++ [g])%list
     ∧ g_start g = 0
     ∧ g_max_seconds g = 600
     ∧ g_status g ≠ TaskCancelled)
  ∧ (∃ older g,
       tasks (run_once sample_lib close_fails_env sample_url 600 initial_world).2
       = (older ++ [g])%list
       ∧ g_status g ≠ TaskPending).
Proof.
  split.
  - destruct (X24_watchdog_cancelled_only_after_try_body sample_lib timeout_env
                sample_url 600 initial_world eq_refl)
      as (older & g & Ht & _ & _ & Hstart & Hmax & _ & _ & Hst).
    exists older, g. split; [exact Ht|]. split; [exact Hstart|]. split; [exact Hmax|].
    destruct (run_once sample_lib timeout_env sample_url 600 initial_world).1
      as [p|e] eqn:Hr.
    + exfalso. vm_compute in Hr. discriminate.
    + exact (Hst eq_refl e eq_refl).
  - destruct (X24_watchdog_cancelled_only_after_try_body sample_lib close_fails_env
                sample_url 600 initial_world eq_refl)
      as (older & g & Ht & _ & _ & _ & _ & Hbody & _).
    exists older, g. split; [exact Ht|].
    destruct (attempt_body sample_lib close_fails_env sample_url
                (clock initial_world) 600
                (after_launch close_fails_env initial_world)).1 as [p|e] eqn:Hr.
    + exact Hbody.
    + exfalso. vm_compute in Hr. discriminate.
Defined.
